(** * Order pricing: the [OrderProcessor] class and its refactored functions

    [src/main.js] holds two implementations of the same order-pricing
    pipeline: the class [OrderProcessor] (lines 1-328) and the refactored,
    free-standing functions (lines 329-516).  Both are embedded here, each in
    a module of its own, over one shared data model.

    Conventions of the embedding.
    - A JavaScript number is a rational or [NaN]: sums and products are
      exact, and the rounding of binary64 and the infinities are outside
      this model.  The module [Binary64] embeds the pricing arithmetic of
      the class over binary64 itself, for the property that rounding
      decides.  An absent numeric field reads
      as [undefined], which every use in the source ([!x], [x <= 0],
      [x * y], [sum + x], [x || d]) treats exactly like [NaN], so [NaN] also
      stands for an absent numeric field.
    - An absent string or object field is [None], and so is a [null] entry
      of an array; an array holding [undefined] is not modelled.  A field
      that is present
      holds a value of its type: a number where the source computes with
      it, a string for identifiers, e-mail addresses and codes.
    - A thrown [TypeError] is a [Throw] completion carrying its message.
    - [new Date()] reads an explicit clock. *)

From Stdlib Require Import QArith ZArith List String Ascii Bool Arith Lia Lqa.
From Stdlib Require Import DecimalString DecimalNat.
From Stdlib Require PrimFloat.
Import ListNotations.

Local Open Scope string_scope.
Local Open Scope list_scope.

(** ** JavaScript numbers *)

Module Js.

Inductive number : Type :=
| NaN
| Num (q : Q).

(** [!!x] on a number: [0] and [NaN] are falsy. *)
Definition truthy (x : number) : bool :=
  match x with
  | NaN => false
  | Num q => negb (Qeq_bool q 0)
  end.

Definition add (x y : number) : number :=
  match x, y with
  | Num a, Num b => Num (a + b)
  | _, _ => NaN
  end.

Definition sub (x y : number) : number :=
  match x, y with
  | Num a, Num b => Num (a - b)
  | _, _ => NaN
  end.

Definition mul (x y : number) : number :=
  match x, y with
  | Num a, Num b => Num (a * b)
  | _, _ => NaN
  end.

(** Division.  JavaScript yields an infinity for [a / 0] with [a] nonzero;
    the model has no infinities and yields [NaN] for every division by
    zero. *)
Definition div (x y : number) : number :=
  match x, y with
  | Num a, Num b => if Qeq_bool b 0 then NaN else Num (a / b)
  | _, _ => NaN
  end.

(** Comparisons: any comparison with [NaN] is false. *)
Definition le (x y : number) : bool :=
  match x, y with
  | Num a, Num b => Qle_bool a b
  | _, _ => false
  end.

Definition lt (x y : number) : bool :=
  match x, y with
  | Num a, Num b => negb (Qle_bool b a)
  | _, _ => false
  end.

Definition gt (x y : number) : bool := lt y x.
Definition ge (x y : number) : bool := le y x.

(** [Math.max(x, y)]: [NaN] if either argument is [NaN]. *)
Definition max (x y : number) : number :=
  match x, y with
  | Num a, Num b => if Qle_bool a b then Num b else Num a
  | _, _ => NaN
  end.

(** [x || d] on numbers. *)
Definition or_else (x d : number) : number :=
  if truthy x then x else d.

(** Equality of numbers up to the representation of the rational;
    [NaN] is related to itself so that results can be compared. *)
Definition same (x y : number) : Prop :=
  match x, y with
  | Num a, Num b => a == b
  | NaN, NaN => True
  | _, _ => False
  end.

Definition of_nat (n : nat) : number := Num (inject_Z (Z.of_nat n)).

(** Truthiness of a string-valued field: absent and [''] are falsy. *)
Definition truthy_str (s : option string) : bool :=
  match s with
  | Some s => negb (s =? "")
  | None => false
  end.

(** Template-literal rendering of an array index. *)
Definition show_nat (n : nat) : string :=
  NilEmpty.string_of_uint (Nat.to_uint n).

(** The value of [new Date()]: the three observers the source uses. *)
Record Date : Type := mkDate {
  getTime : Z;
  toISOString : string;
  getMonth : nat
}.

(** Completion of an evaluation: a value, or a thrown error with its
    message. *)
Inductive completion (A : Type) : Type :=
| Normal (a : A)
| Throw (message : string).

Arguments Normal {A} a.
Arguments Throw {A} message.

End Js.

Export Js.

Declare Scope js_scope.
Delimit Scope js_scope with js.
Bind Scope js_scope with number.

Notation "x + y" := (Js.add x y) : js_scope.
Notation "x - y" := (Js.sub x y) : js_scope.
Notation "x * y" := (Js.mul x y) : js_scope.
Notation "x / y" := (Js.div x y) : js_scope.
Notation "x > y" := (Js.gt x y) : js_scope.
Notation "x >= y" := (Js.ge x y) : js_scope.
Notation "x < y" := (Js.lt x y) : js_scope.
Notation "x <= y" := (Js.le x y) : js_scope.
Notation "x || y" := (Js.or_else x y) : js_scope.
Notation "x =~ y" := (Js.same x y) (at level 70, no associativity).

Coercion Num : Q >-> number.

(** ** Monads for throwing and for stateful methods *)

Class Monad (m : Type -> Type) : Type := {
  ret : forall {A}, A -> m A;
  bind : forall {A B}, m A -> (A -> m B) -> m B
}.

Declare Scope monad_scope.
Delimit Scope monad_scope with monad.

Notation "x <- c ;; k" := (bind c (fun x => k))
  (at level 61, c at next level, right associativity) : monad_scope.
Notation "c ;; k" := (bind c (fun _ => k))
  (at level 61, right associativity) : monad_scope.

#[global] Instance Monad_completion : Monad completion := {
  ret := fun A a => Normal a;
  bind := fun A B c k =>
    match c with
    | Normal a => k a
    | Throw e => Throw e
    end
}.

Local Open Scope monad_scope.

(** [array.reduce(f, init)] with a callback that may throw. *)
Fixpoint reduce {A B : Type} (f : B -> A -> completion B) (l : list A)
    (init : B) : completion B :=
  match l with
  | [] => ret init
  | x :: rest => acc <- f init x ;; reduce f rest acc
  end.

(** ** Input data *)

Record Item : Type := mkItem {
  item_id : option string;
  item_price : number;
  item_quantity : number
}.

Record PurchaseHistory : Type := mkHistory {
  totalSpent : number
}.

Record Customer : Type := mkCustomer {
  customer_id : option string;
  customer_email : option string;
  customer_purchaseHistory : option PurchaseHistory;
  customer_isValid : bool
}.

(** The value of [order.items] when it is truthy: an array (whose entries
    may be [null]), or a plain object that is neither an array nor
    iterable. *)
Inductive itemsValue : Type :=
| ItemsArray (entries : list (option Item))
| ItemsObject.

Record Order : Type := mkOrder {
  order_id : option string;
  order_items : option itemsValue;
  order_customer : option Customer;
  order_createdAt : option string
}.

Inductive CustomerTier : Type := standard | gold | premium.

(** Reading a property of an array entry: [null.prop] throws. *)
Definition property {A B : Type} (name : string) (entry : option A)
    (get : A -> B) : completion B :=
  match entry with
  | Some a => Normal (get a)
  | None =>
      Throw ("Cannot read properties of null (reading '" ++ name ++ "')")%string
  end.

(** *** Property access on an object literal

    [table[key]] on an object literal with rational values finds the own
    property, or else what the literal inherits from [Object.prototype]:
    a function (or, for ["__proto__"], the prototype object).  Each of
    these is truthy and converts to [NaN] in arithmetic. *)

Fixpoint lookup (table : list (string * Q)) (key : string) : option Q :=
  match table with
  | [] => None
  | (k, v) :: rest => if k =? key then Some v else lookup rest key
  end.

Definition Object_prototype : list string :=
  ["constructor"; "hasOwnProperty"; "isPrototypeOf"; "propertyIsEnumerable";
   "toLocaleString"; "toString"; "valueOf"; "__proto__";
   "__defineGetter__"; "__defineSetter__"; "__lookupGetter__";
   "__lookupSetter__"].

Definition inherited (key : string) : bool :=
  existsb (String.eqb key) Object_prototype.

Inductive member : Type :=
| Own (value : Q)
| Inherited
| Absent.

Definition get (table : list (string * Q)) (key : string) : member :=
  match lookup table key with
  | Some v => Own v
  | None => if inherited key then Inherited else Absent
  end.

(** [!!m] and the number [m] is in a product. *)
Definition member_truthy (m : member) : bool :=
  match m with
  | Own v => truthy (Num v)
  | Inherited => true
  | Absent => false
  end.

Definition member_number (m : member) : number :=
  match m with
  | Own v => Num v
  | Inherited | Absent => NaN
  end.

(** ** The e-mail pattern [/^[^\s@]+@[^\s@]+\.[^\s@]+$/]

    Shared by [OrderProcessor.isValidEmail] (line 310) and the refactored
    [isValidEmail] (line 374). *)

(** [\s] on code units below 256. *)
Definition is_whitespace (c : ascii) : bool :=
  let n := nat_of_ascii c in
  (Nat.leb 9 n && Nat.leb n 13) || Nat.eqb n 32 || Nat.eqb n 160.

(** The class [[^\s@]]. *)
Definition plain (c : ascii) : bool :=
  negb (is_whitespace c) && negb (Ascii.eqb c "@").

Fixpoint all_plain (s : string) : bool :=
  match s with
  | EmptyString => true
  | String c rest => plain c && all_plain rest
  end.

(** Split at the first ["@"]. *)
Fixpoint split_at_sign (s : string) : option (string * string) :=
  match s with
  | EmptyString => None
  | String c rest =>
      if Ascii.eqb c "@" then Some (EmptyString, rest)
      else match split_at_sign rest with
           | Some (l, r) => Some (String c l, r)
           | None => None
           end
  end.

(** Some ["."] of [s] has a character after it. *)
Fixpoint dot_then_more (s : string) : bool :=
  match s with
  | EmptyString => false
  | String c rest =>
      (Ascii.eqb c "." && negb (rest =? "")) || dot_then_more rest
  end.

(** [s] is [b ++ "." ++ c] with [b] and [c] non-empty. *)
Definition inner_dot (s : string) : bool :=
  match s with
  | EmptyString => false
  | String _ rest => dot_then_more rest
  end.

Definition isValidEmail (email : option string) : bool :=
  match email with
  | None => false
  | Some s =>
      match split_at_sign s with
      | Some (local, domain) =>
          negb (local =? "") && all_plain local
          && all_plain domain && inner_dot domain
      | None => false
      end
  end.

(** ** The class [OrderProcessor] (lines 4-317) *)

Module OrderProcessor.

Local Open Scope js_scope.

(** *** Options and derived records *)

(** An entry of [options.adjustments] that is an object.  Its [amount] is
    a number; an entry without a numeric [amount], which turns the sum of
    line 170 into [NaN], is not modelled. *)
Record adjustment : Type := mkAdjustment {
  adj_amount : Q
}.

(** The fields of [options] the class reads.  [taxRate] is [NaN] when
    absent; the boolean switches are [false] when absent. *)
Record Options : Type := mkOptions {
  taxRate : number;
  applyFees : option bool;
  adjustments : option (list (option adjustment));
  promotionalCode : option string;
  strictMode : bool;
  requireMinimumValue : bool;
  skipInvalidCustomers : bool;
  includeDetails : bool;
  includeStatistics : bool;
  includeMetadata : bool
}.

Record ValidationResult : Type := mkValidation {
  isValid : bool;
  errors : list string;
  warnings : list string
}.

Record orderMetadata : Type := mkOrderMetadata {
  itemCount : nat;
  hasMultipleItems : bool;
  isLargeOrder : bool;
  customerTier : CustomerTier
}.

Record breakdown : Type := mkBreakdown {
  bd_subtotal : number;
  bd_taxes : number;
  bd_fees : number;
  bd_adjustments : number
}.

Record pricingResult : Type := mkPricing {
  pr_finalPrice : number;
  pr_breakdown : breakdown
}.

Inductive discountType : Type := tier | volume | promotional | seasonal.

(** An entry of [appliedDiscounts]: [{type, amount, percentage}] or
    [{type, amount, code}]. *)
Record discount : Type := mkDiscount {
  d_type : discountType;
  d_amount : number;
  d_percentage : option Q;
  d_code : option string
}.

Record discountResult : Type := mkDiscountResult {
  dr_discountedPrice : number;
  dr_discounts : list discount
}.

(** The object built by [transformAndEnrichOrder] and completed field by
    field in [processOrders].  [source] holds the fields spread from the
    input order; a field not assigned yet is [NaN] or [None]. *)
Record processedOrder : Type := mkProcessed {
  source : Order;
  processedAt : string;
  processingOptions : Options;
  totalItems : number;
  subtotal : number;
  metadata : orderMetadata;
  finalPrice : number;
  pricingBreakdown : option breakdown;
  discountedPrice : number;
  appliedDiscounts : option (list discount)
}.

Definition set_pricing (o : processedOrder) (r : pricingResult)
    : processedOrder :=
  mkProcessed (source o) (processedAt o) (processingOptions o)
    (totalItems o) (subtotal o) (metadata o)
    (pr_finalPrice r) (Some (pr_breakdown r))
    (discountedPrice o) (appliedDiscounts o).

Definition set_discounts (o : processedOrder) (r : discountResult)
    : processedOrder :=
  mkProcessed (source o) (processedAt o) (processingOptions o)
    (totalItems o) (subtotal o) (metadata o)
    (finalPrice o) (pricingBreakdown o)
    (dr_discountedPrice r) (Some (dr_discounts r)).

(** *** [this.state] *)

Record statistics : Type := mkStatistics {
  successCount : nat;
  failureCount : nat;
  totalValue : number;
  averageOrderValue : number
}.

Record stateMetadata : Type := mkStateMetadata {
  processingStartTime : option Z;
  processingEndTime : option Z;
  totalProcessingTime : option Z;
  statistics_of : statistics
}.

Record failure : Type := mkFailure {
  f_order : option Order;
  f_index : nat;
  f_reason : string;
  f_errors : option (list string);
  f_error : option string;
  f_timestamp : string
}.

Record state : Type := mkState {
  orders : list (option Order);
  processedOrders : list processedOrder;
  failedOrders : list failure;
  state_metadata : stateMetadata
}.

(** The state set up by the constructor (lines 5-22). *)
Definition constructor : state :=
  mkState [] [] []
    (mkStateMetadata None None None (mkStatistics 0 0 (Num 0) (Num 0))).

(** The object built by [buildResponse].  Its [statistics] and [metadata]
    are not copies: when present they are the very objects held in
    [this.state], which later calls update in place.  The record keeps
    whether they are present; what they show is read from the processor. *)
Record response : Type := mkResponse {
  success : bool;
  processed : nat;
  failed : nat;
  total : nat;
  response_orders : option (list processedOrder);
  includes_statistics : bool;
  includes_metadata : bool
}.

Definition response_metadata (r : response) (s : state)
    : option stateMetadata :=
  if includes_metadata r then Some (state_metadata s) else None.

Definition response_statistics (r : response) (s : state)
    : option statistics :=
  if includes_statistics r then Some (statistics_of (state_metadata s))
  else None.

(** *** Methods: the processor instance and the clock

    A method runs on a [world]: the instance state [this], the clock
    [now] giving the value of the n-th [new Date()] and the number of
    [reads] made so far.  A throw keeps the world as it was when thrown. *)

Record world : Type := mkWorld {
  this : state;
  now : nat -> Date;
  reads : nat
}.

Definition method (A : Type) : Type := world -> completion A * world.

#[global] Instance Monad_method : Monad method := {
  ret := fun A a w => (Normal a, w);
  bind := fun A B c k w =>
    match c w with
    | (Normal a, w') => k a w'
    | (Throw e, w') => (Throw e, w')
    end
}.

Definition lift {A : Type} (c : completion A) : method A :=
  fun w => (c, w).

Definition new_Date : method Date :=
  fun w => (Normal (now w (reads w)), mkWorld (this w) (now w) (S (reads w))).

Definition get_state : method state :=
  fun w => (Normal (this w), w).

Definition update (f : state -> state) : method unit :=
  fun w => (Normal tt, mkWorld (f (this w)) (now w) (reads w)).

(** [try { body } catch (error) { handler(error.message) }]. *)
Definition try_catch {A : Type} (body : method A)
    (handler : string -> method A) : method A :=
  fun w =>
    match body w with
    | (Normal a, w') => (Normal a, w')
    | (Throw e, w') => handler e w'
    end.

(** [array.map(f)] with the callback receiving the index. *)
Fixpoint map_indexed {A B : Type} (f : A -> nat -> method B) (l : list A)
    (index : nat) : method (list B) :=
  match l with
  | [] => ret []
  | x :: rest =>
      y <- f x index ;;
      ys <- map_indexed f rest (S index) ;;
      ret (y :: ys)
  end.

Definition set_metadata (f : stateMetadata -> stateMetadata) (s : state)
    : state :=
  mkState (orders s) (processedOrders s) (failedOrders s)
    (f (state_metadata s)).

Definition set_statistics (f : statistics -> statistics) : state -> state :=
  set_metadata (fun m =>
    mkStateMetadata (processingStartTime m) (processingEndTime m)
      (totalProcessingTime m) (f (statistics_of m))).

Definition push_processed (o : processedOrder) (s : state) : state :=
  mkState (orders s) (processedOrders s ++ [o]) (failedOrders s)
    (state_metadata s).

Definition push_failed (f : failure) (s : state) : state :=
  mkState (orders s) (processedOrders s) (failedOrders s ++ [f])
    (state_metadata s).

(** *** Validation (lines 72-123, 310-316) *)

Section Host.

(** [new Date(date).getTime()] of the host, [NaN] for a string that does
    not parse. *)
Variable Date_parse : string -> number.

(** Lines 314-316. *)
Definition isValidDate (date : string) : bool :=
  match Date_parse date with
  | NaN => false
  | Num _ => true
  end.

(** [order[field]] is truthy.  Line 85. *)
Definition has_field (o : Order) (field : string) : bool :=
  if field =? "id" then truthy_str (order_id o)
  else if field =? "items" then
    match order_items o with Some _ => true | None => false end
  else if field =? "customer" then
    match order_customer o with Some _ => true | None => false end
  else false.

(** Line 83. *)
Definition requiredFields : list string := ["id"; "items"; "customer"].

(** The [requiredFields.forEach] loop (lines 84-88). *)
Definition checkRequiredFields (o : Order) (errors : list string)
    : list string :=
  fold_left
    (fun errors field =>
       if negb (has_field o field)
       then errors ++ [("Missing required field: " ++ field)%string]
       else errors)
    requiredFields errors.

(** The [order.items.forEach] loop (lines 97-101); a [null] entry throws
    on [item.id]. *)
Fixpoint checkItems (entries : list (option Item)) (index : nat)
    (errors : list string) : completion (list string) :=
  match entries with
  | [] => ret errors
  | entry :: rest =>
      id <- property "id" entry item_id ;;
      let errors :=
        if negb (truthy_str id)
        then errors ++ [("Item " ++ show_nat index ++ " missing id")%string]
        else errors in
      price <- property "price" entry item_price ;;
      let errors :=
        if orb (negb (truthy price)) (price <= Num 0)
        then errors
             ++ [("Item " ++ show_nat index ++ " has invalid price")%string]
        else errors in
      quantity <- property "quantity" entry item_quantity ;;
      let errors :=
        if orb (negb (truthy quantity)) (quantity <= Num 0)
        then errors
             ++ [("Item " ++ show_nat index
                  ++ " has invalid quantity")%string]
        else errors in
      checkItems rest (S index) errors
  end.

(** Lines 91-103. *)
Definition checkItemsField (o : Order) (errors : list string)
    : completion (list string) :=
  match order_items o with
  | None => ret errors
  | Some ItemsObject => ret (errors ++ ["Items must be an array"])
  | Some (ItemsArray []) =>
      ret (errors ++ ["Order must contain at least one item"])
  | Some (ItemsArray entries) => checkItems entries 0 errors
  end.

(** Lines 106-111. *)
Definition checkCustomer (o : Order) (errors : list string) : list string :=
  match order_customer o with
  | None => errors
  | Some c =>
      let errors :=
        if negb (truthy_str (customer_id c))
        then errors ++ ["Customer missing id"]
        else errors in
      if orb (negb (truthy_str (customer_email c)))
             (negb (isValidEmail (customer_email c)))
      then errors ++ ["Customer missing valid email"]
      else errors
  end.

(** Lines 114-116. *)
Definition checkDates (o : Order) (warnings : list string) : list string :=
  match order_createdAt o with
  | Some date =>
      if andb (truthy_str (Some date)) (negb (isValidDate date))
      then warnings ++ ["Invalid createdAt date"]
      else warnings
  | None => warnings
  end.

(** [order] is [None] when the array entry is [null] or not an object.
    [options] is not read.  Lines 72-123. *)
Definition performComprehensiveValidation (order : option Order)
    (options : Options) : completion ValidationResult :=
  let errors := [] in
  let warnings := [] in
  match order with
  | None =>
      ret (mkValidation false (errors ++ ["Order must be a valid object"])
             warnings)
  | Some order =>
      let errors := checkRequiredFields order errors in
      errors <- checkItemsField order errors ;;
      let errors := checkCustomer order errors in
      let warnings := checkDates order warnings in
      ret (mkValidation (Nat.eqb (List.length errors) 0) errors warnings)
  end.

(** *** Enrichment, pricing and discounts (lines 125-243) *)

(** Lines 230-236. *)
Definition determineCustomerTier (customer : option Customer) : CustomerTier :=
  match customer with
  | None => standard
  | Some c =>
      match customer_purchaseHistory c with
      | None => standard
      | Some h =>
          let totalSpent := totalSpent h || Num 0 in
          if totalSpent > Num 1000 then premium
          else if totalSpent > Num 500 then gold
          else standard
      end
  end.

(** [order.items] as the receiver of [.reduce] and [.length]: absent or
    not an array throws. *)
Definition items_array (o : Order) (member : string)
    : completion (list (option Item)) :=
  match order_items o with
  | Some (ItemsArray entries) => ret entries
  | Some ItemsObject =>
      Throw ("transformed.items." ++ member ++ " is not a function")%string
  | None =>
      Throw ("Cannot read properties of undefined (reading '"
             ++ member ++ "')")%string
  end.

(** Lines 125-145. *)
Definition transformAndEnrichOrder (order : Order) (options : Options)
    : method processedOrder :=
  date <- new_Date ;;
  let processedAt := toISOString date in
  entries <- lift (items_array order "reduce") ;;
  totalItems <- lift (reduce
    (fun sum item =>
       quantity <- property "quantity" item item_quantity ;;
       ret (sum + quantity))
    entries (Num 0)) ;;
  subtotal <- lift (reduce
    (fun sum item =>
       price <- property "price" item item_price ;;
       quantity <- property "quantity" item item_quantity ;;
       ret (sum + price * quantity))
    entries (Num 0)) ;;
  let metadata :=
    mkOrderMetadata (List.length entries) (Nat.ltb 1 (List.length entries))
      (totalItems > Num 10) (determineCustomerTier (order_customer order)) in
  ret (mkProcessed order processedAt options totalItems subtotal metadata
         NaN None NaN None).

(** Lines 147-178. *)
Definition calculateComplexPricing (order : processedOrder)
    (options : Options) : completion pricingResult :=
  let basePrice := subtotal order in
  let subtotal := basePrice in
  let taxRate := taxRate options || Num 0.1 in
  let taxes := basePrice * taxRate in
  let basePrice := basePrice + taxes in
  let '(fees, basePrice) :=
    match applyFees options with
    | Some false => (Num 0, basePrice)
    | _ =>
        let feeAmount :=
          if isLargeOrder (metadata order) then Num 5.00 else Num 2.50 in
        (feeAmount, basePrice + feeAmount)
    end in
  match adjustments options with
  | Some adjs =>
      adjustments <- reduce
        (fun sum adj =>
           amount <- property "amount" adj adj_amount ;;
           ret (sum + Num amount))
        adjs (Num 0) ;;
      ret (mkPricing (basePrice + adjustments)
             (mkBreakdown subtotal taxes fees adjustments))
  | None =>
      ret (mkPricing basePrice (mkBreakdown subtotal taxes fees (Num 0)))
  end.

(** The object literal [codes] (lines 222-226). *)
Definition codes : list (string * Q) :=
  [("SAVE10", 0.1%Q); ("SAVE20", 0.2%Q); ("SAVE50", 0.5%Q)].

(** Lines 221-228. *)
Definition calculatePromotionalDiscount (price : number) (code : string)
    : number :=
  if member_truthy (get codes code)
  then price * member_number (get codes code)
  else Num 0.

(** Lines 180-219. *)
Definition applyMultiLevelDiscounts (order : processedOrder)
    (options : Options) : method discountResult :=
  let discountedPrice := finalPrice order in
  let appliedDiscounts := [] in
  (* Customer tier discount *)
  let '(discountedPrice, appliedDiscounts) :=
    match customerTier (metadata order) with
    | premium =>
        let discount := discountedPrice * Num 0.1 in
        (discountedPrice - discount,
         appliedDiscounts ++ [mkDiscount tier discount (Some 10%Q) None])
    | _ => (discountedPrice, appliedDiscounts)
    end in
  (* Volume discount *)
  let '(discountedPrice, appliedDiscounts) :=
    if isLargeOrder (metadata order) then
      let discount := discountedPrice * Num 0.05 in
      (discountedPrice - discount,
       appliedDiscounts ++ [mkDiscount volume discount (Some 5%Q) None])
    else (discountedPrice, appliedDiscounts) in
  (* Promotional discount *)
  let '(discountedPrice, appliedDiscounts) :=
    match promotionalCode options with
    | Some code =>
        if truthy_str (Some code) then
          let promoDiscount :=
            calculatePromotionalDiscount discountedPrice code in
          if promoDiscount > Num 0 then
            (discountedPrice - promoDiscount,
             appliedDiscounts
               ++ [mkDiscount promotional promoDiscount None (Some code)])
          else (discountedPrice, appliedDiscounts)
        else (discountedPrice, appliedDiscounts)
    | None => (discountedPrice, appliedDiscounts)
    end in
  (* Seasonal discount *)
  date <- new_Date ;;
  let currentMonth := getMonth date in
  let '(discountedPrice, appliedDiscounts) :=
    if Nat.eqb currentMonth 11 then
      let discount := discountedPrice * Num 0.15 in
      (discountedPrice - discount,
       appliedDiscounts ++ [mkDiscount seasonal discount (Some 15%Q) None])
    else (discountedPrice, appliedDiscounts) in
  ret (mkDiscountResult (Js.max (Num 0) discountedPrice) appliedDiscounts).

(** [order.customer.isValid] throws when [order.customer] is absent; it
    is only read when [options.skipInvalidCustomers] is set.
    Lines 238-243. *)
Definition shouldCompleteOrder (order : processedOrder) (options : Options)
    : completion bool :=
  if andb (strictMode options) (discountedPrice order <= Num 0)
  then ret false
  else if andb (requireMinimumValue options) (discountedPrice order < Num 10)
  then ret false
  else if skipInvalidCustomers options then
    match order_customer (source order) with
    | None =>
        Throw "Cannot read properties of undefined (reading 'isValid')"
    | Some c => if negb (customer_isValid c) then ret false else ret true
    end
  else ret true.

(** *** Bookkeeping (lines 245-308) *)

(** Lines 280-290. *)
Definition updateStatistics (order : option processedOrder)
    (status : string) : method unit :=
  (if status =? "success" then
     update (set_statistics (fun s =>
       mkStatistics (S (successCount s)) (failureCount s)
         (totalValue s) (averageOrderValue s))) ;;
     price <- lift (property "discountedPrice" order discountedPrice) ;;
     update (set_statistics (fun s =>
       mkStatistics (successCount s) (failureCount s)
         (totalValue s + price) (averageOrderValue s)))
   else
     update (set_statistics (fun s =>
       mkStatistics (successCount s) (S (failureCount s))
         (totalValue s) (averageOrderValue s)))) ;;
  update (set_statistics (fun s =>
    mkStatistics (successCount s) (failureCount s) (totalValue s)
      (totalValue s / Js.max (Num 1) (of_nat (successCount s))))).

(** Lines 245-255. *)
Definition handleValidationFailure (order : option Order)
    (validationResult : ValidationResult) (index : nat) : method unit :=
  date <- new_Date ;;
  let failure :=
    mkFailure order index "validation_failed"
      (Some (errors validationResult)) None (toISOString date) in
  update (push_failed failure) ;;
  updateStatistics None "failure".

(** Lines 257-266. *)
Definition handleCompletionFailure (order : option Order) (index : nat)
    : method unit :=
  date <- new_Date ;;
  let failure :=
    mkFailure order index "completion_failed" None None (toISOString date) in
  update (push_failed failure) ;;
  updateStatistics None "failure".

(** [error] is the message of the caught error.  Lines 268-278. *)
Definition handleError (error : string) (order : option Order) (index : nat)
    : method unit :=
  date <- new_Date ;;
  let failure :=
    mkFailure order index "error" None (Some error) (toISOString date) in
  update (push_failed failure) ;;
  updateStatistics None "failure".

(** [end - start]; a [null] start counts as [0].  Lines 292-296. *)
Definition finalizeProcessing : method unit :=
  date <- new_Date ;;
  update (set_metadata (fun m =>
    mkStateMetadata (processingStartTime m) (Some (getTime date))
      (totalProcessingTime m) (statistics_of m))) ;;
  update (set_metadata (fun m =>
    let stop := match processingEndTime m with Some t => t | None => 0%Z end in
    let start :=
      match processingStartTime m with Some t => t | None => 0%Z end in
    mkStateMetadata (processingStartTime m) (processingEndTime m)
      (Some (stop - start)%Z) (statistics_of m))).

(** [results.filter(r => r !== null)]. *)
Fixpoint not_null {A : Type} (results : list (option A)) : list A :=
  match results with
  | [] => []
  | Some r :: rest => r :: not_null rest
  | None :: rest => not_null rest
  end.

(** Lines 298-308. *)
Definition buildResponse (results : list (option processedOrder))
    (options : Options) : method response :=
  s <- get_state ;;
  ret (mkResponse true
         (List.length (processedOrders s))
         (List.length (failedOrders s))
         (List.length (orders s))
         (if includeDetails options then Some (not_null results) else None)
         (includeStatistics options)
         (includeMetadata options)).

(** *** [processOrders] (lines 24-70) *)

(** [{...order}]: spreading [null] yields an object without fields. *)
Definition spread (order : option Order) : Order :=
  match order with
  | Some o => o
  | None => mkOrder None None None None
  end.

(** The body of the [try] block (lines 32-60). *)
Definition processOrders_try (order : option Order) (options : Options)
    (index : nat) : method (option processedOrder) :=
  validationResult <- lift (performComprehensiveValidation order options) ;;
  if negb (isValid validationResult) then
    handleValidationFailure order validationResult index ;;
    ret None
  else
    processedOrder <- transformAndEnrichOrder (spread order) options ;;
    pricingResult <- lift (calculateComplexPricing processedOrder options) ;;
    let processedOrder := set_pricing processedOrder pricingResult in
    discountResult <- applyMultiLevelDiscounts processedOrder options ;;
    let processedOrder := set_discounts processedOrder discountResult in
    complete <- lift (shouldCompleteOrder processedOrder options) ;;
    if (complete : bool) then
      update (push_processed processedOrder) ;;
      updateStatistics (Some processedOrder) "success" ;;
      ret (Some processedOrder)
    else
      handleCompletionFailure order index ;;
      ret None.

(** The callback given to [this.state.orders.map] (lines 30-65). *)
Definition processOrders_callback (options : Options)
    (order : option Order) (index : nat) : method (option processedOrder) :=
  try_catch (processOrders_try order options index)
    (fun error => handleError error order index ;; ret None).

(** [orders] is [None] when the argument is not an array.  Lines 24-70. *)
Definition processOrders (orders : option (list (option Order)))
    (options : Options) : method response :=
  date <- new_Date ;;
  update (set_metadata (fun m =>
    mkStateMetadata (Some (getTime date)) (processingEndTime m)
      (totalProcessingTime m) (statistics_of m))) ;;
  update (fun s =>
    mkState (match orders with Some l => l | None => [] end)
      (processedOrders s) (failedOrders s) (state_metadata s)) ;;
  s <- get_state ;;
  results <- map_indexed (processOrders_callback options)
               (OrderProcessor.orders s) 0 ;;
  finalizeProcessing ;;
  buildResponse results options.

End Host.

End OrderProcessor.

(** ** The refactored functions (lines 329-516) *)

Module Refactored.

Local Open Scope js_scope.

(** *** Constants for business rules (lines 333-349) *)

Definition TAX_RATE : number := Num 0.1.
Definition STANDARD_FEE : number := Num 2.50.
Definition LARGE_ORDER_FEE : number := Num 5.00.
Definition LARGE_ORDER_THRESHOLD : number := Num 10.
Definition MINIMUM_ORDER_VALUE : number := Num 10.

Record tierRule : Type := mkTierRule {
  threshold : number;
  tier_discount : number
}.

(** [CUSTOMER_TIERS[tier.toUpperCase()]]. *)
Definition CUSTOMER_TIERS (tier : CustomerTier) : tierRule :=
  match tier with
  | premium => mkTierRule (Num 1000) (Num 0.1)
  | gold => mkTierRule (Num 500) (Num 0)
  | standard => mkTierRule (Num 0) (Num 0)
  end.

Definition PROMO_CODES : list (string * Q) :=
  [("SAVE10", 0.1%Q); ("SAVE20", 0.2%Q); ("SAVE50", 0.5%Q)].

(** *** Records returned by the functions *)

Record validation : Type := mkValidation {
  valid : bool;
  error : option string
}.

Record discounts : Type := mkDiscounts {
  ds_tier : number;
  ds_volume : number;
  ds_promotional : number;
  ds_seasonal : number
}.

Record pricing : Type := mkPricing {
  subtotal : number;
  tax : number;
  fee : number;
  total : number;
  pricing_discounts : discounts;
  finalPrice : number
}.

Record summary : Type := mkSummary {
  id : option string;
  customerId : option string;
  itemCount : nat;
  summary_pricing : pricing
}.

(** [{success: false, error}] or [{success: true, order}]. *)
Record result : Type := mkResult {
  success : bool;
  result_error : option string;
  result_order : option summary
}.

Record report : Type := mkReport {
  report_total : nat;
  successful : nat;
  failed : nat;
  report_orders : list summary
}.

(** *** Validation (lines 352-372) *)

(** The [for (const item of order.items)] loop: returns the error of the
    first invalid item; a [null] entry throws on [item.id]. *)
Fixpoint checkItems (entries : list (option Item))
    : completion (option validation) :=
  match entries with
  | [] => ret None
  | entry :: rest =>
      id <- property "id" entry item_id ;;
      price <- property "price" entry item_price ;;
      quantity <- property "quantity" entry item_quantity ;;
      if orb (negb (truthy_str id))
          (orb (negb (truthy price))
            (orb (price <= Num 0)
              (orb (negb (truthy quantity)) (quantity <= Num 0))))
      then ret (Some (mkValidation false (Some "Invalid item data")))
      else checkItems rest
  end.

(** Lines 352-372. *)
Definition validateOrder (order : option Order) : completion validation :=
  match order with
  | None => ret (mkValidation false (Some "Order must have an id"))
  | Some order =>
      if negb (truthy_str (order_id order)) then
        ret (mkValidation false (Some "Order must have an id"))
      else
        match order_items order with
        | None | Some (ItemsArray []) =>
            ret (mkValidation false (Some "Order must have at least one item"))
        | Some ItemsObject => Throw "order.items is not iterable"
        | Some (ItemsArray entries) =>
            invalid <- checkItems entries ;;
            match invalid with
            | Some failure => ret failure
            | None =>
                match order_customer order with
                | None =>
                    ret (mkValidation false (Some "Invalid customer data"))
                | Some c =>
                    if orb (negb (truthy_str (customer_id c)))
                           (negb (isValidEmail (customer_email c)))
                    then
                      ret (mkValidation false (Some "Invalid customer data"))
                    else ret (mkValidation true None)
                end
            end
        end
  end.

(** *** Calculation functions (lines 379-393) *)

(** [items] is the value of [order.items].  Lines 379-381. *)
Definition calculateSubtotal (items : option itemsValue)
    : completion number :=
  match items with
  | Some (ItemsArray entries) =>
      reduce
        (fun total item =>
           price <- property "price" item item_price ;;
           quantity <- property "quantity" item item_quantity ;;
           ret (total + price * quantity))
        entries (Num 0)
  | Some ItemsObject => Throw "items.reduce is not a function"
  | None => Throw "Cannot read properties of undefined (reading 'reduce')"
  end.

(** Lines 383-385. *)
Definition calculateTax (subtotal : number) : number :=
  subtotal * TAX_RATE.

(** Lines 387-389. *)
Definition calculateFee (itemCount : number) : number :=
  if itemCount > LARGE_ORDER_THRESHOLD then LARGE_ORDER_FEE else STANDARD_FEE.

(** Lines 391-393. *)
Definition calculateTotal (subtotal tax fee : number) : number :=
  subtotal + tax + fee.

(** *** Discount functions (lines 396-427) *)

(** Lines 396-402. *)
Definition getCustomerTier (customer : option Customer) : CustomerTier :=
  let totalSpent :=
    match customer with
    | Some c =>
        match customer_purchaseHistory c with
        | Some h => totalSpent h
        | None => NaN
        end
    | None => NaN
    end || Num 0 in
  if totalSpent >= threshold (CUSTOMER_TIERS premium) then premium
  else if totalSpent >= threshold (CUSTOMER_TIERS gold) then gold
  else standard.

(** Lines 404-407. *)
Definition applyTierDiscount (price : number) (tier : CustomerTier)
    : number :=
  let discountRate := tier_discount (CUSTOMER_TIERS tier) || Num 0 in
  price * discountRate.

(** Lines 409-414. *)
Definition applyVolumeDiscount (price itemCount : number) : number :=
  if itemCount > LARGE_ORDER_THRESHOLD
  then price * Num 0.05
  else Num 0.

(** Lines 416-419. *)
Definition applyPromoDiscount (price : number) (promoCode : string)
    : number :=
  let discountRate :=
    if member_truthy (get PROMO_CODES promoCode)
    then member_number (get PROMO_CODES promoCode)
    else Num 0 in
  price * discountRate.

(** [date] is the value of [new Date()].  Lines 421-427. *)
Definition applySeasonalDiscount (date : Date) (price : number) : number :=
  let currentMonth := getMonth date in
  if Nat.eqb currentMonth 11
  then price * Num 0.15
  else Num 0.

(** [order.items[0].price] and [order.items.length]. *)
Definition first_price (items : option itemsValue) : completion number :=
  match items with
  | Some (ItemsArray (entry :: _)) => property "price" entry item_price
  | Some (ItemsArray []) | Some ItemsObject =>
      Throw "Cannot read properties of undefined (reading 'price')"
  | None => Throw "Cannot read properties of undefined (reading '0')"
  end.

Definition items_length (items : option itemsValue) : completion number :=
  match items with
  | Some (ItemsArray entries) => ret (of_nat (List.length entries))
  | Some ItemsObject => ret NaN
  | None => Throw "Cannot read properties of undefined (reading 'length')"
  end.

(** [date] is the value [new Date()] takes in [applySeasonalDiscount].
    Lines 429-458. *)
Definition calculateFinalPrice (date : Date) (order : Order)
    (promoCode : option string) : completion pricing :=
  subtotal <- calculateSubtotal (order_items order) ;;
  let tax := calculateTax subtotal in
  again <- calculateSubtotal (order_items order) ;;
  price <- first_price (order_items order) ;;
  let fee := calculateFee (again / price) in
  let total := calculateTotal subtotal tax fee in
  (* Apply discounts *)
  let tier := getCustomerTier (order_customer order) in
  let tierDiscount := applyTierDiscount total tier in
  length <- items_length (order_items order) ;;
  let volumeDiscount := applyVolumeDiscount total length in
  let promoDiscount :=
    match promoCode with
    | Some code =>
        if truthy_str (Some code) then applyPromoDiscount total code
        else Num 0
    | None => Num 0
    end in
  let seasonalDiscount := applySeasonalDiscount date total in
  let totalDiscount :=
    tierDiscount + volumeDiscount + promoDiscount + seasonalDiscount in
  let finalPrice := Js.max (Num 0) (total - totalDiscount) in
  ret (mkPricing subtotal tax fee total
         (mkDiscounts tierDiscount volumeDiscount promoDiscount
            seasonalDiscount)
         finalPrice).

(** *** Main processing functions (lines 461-500) *)

(** Lines 461-486. *)
Definition processOrder (date : Date) (order : option Order)
    (promoCode : option string) : completion result :=
  validation <- validateOrder order ;;
  if negb (valid validation) then
    ret (mkResult false (error validation) None)
  else
    match order with
    | None => Throw "Cannot read properties of null (reading 'items')"
    | Some order =>
        pricing <- calculateFinalPrice date order promoCode ;;
        if finalPrice pricing < MINIMUM_ORDER_VALUE then
          ret (mkResult false (Some "Order value below minimum") None)
        else
          customerId <-
            match order_customer order with
            | Some c => ret (customer_id c)
            | None =>
                Throw "Cannot read properties of undefined (reading 'id')"
            end ;;
          let itemCount :=
            match order_items order with
            | Some (ItemsArray entries) => List.length entries
            | _ => 0%nat
            end in
          ret (mkResult true None
                 (Some (mkSummary (order_id order) customerId itemCount
                          pricing)))
    end.

(** [orders.map(order => processOrder(order, promoCode))]; [now i] is the
    value of [new Date()] while the order at position [i] is priced. *)
Fixpoint map_orders (now : nat -> Date) (orders : list (option Order))
    (promoCode : option string) (index : nat) : completion (list result) :=
  match orders with
  | [] => ret []
  | order :: rest =>
      r <- processOrder (now index) order promoCode ;;
      rs <- map_orders now rest promoCode (S index) ;;
      ret (r :: rs)
  end.

Fixpoint orders_of (results : list result) : list summary :=
  match results with
  | [] => []
  | r :: rest =>
      match result_order r with
      | Some o => o :: orders_of rest
      | None => orders_of rest
      end
  end.

(** Lines 488-500. *)
Definition processOrders (now : nat -> Date) (orders : list (option Order))
    (promoCode : option string) : completion report :=
  results <- map_orders now orders promoCode 0 ;;
  let successful := filter success results in
  let failed := filter (fun r => negb (success r)) results in
  ret (mkReport (List.length orders) (List.length successful)
         (List.length failed) (orders_of successful)).

End Refactored.

(** ** The pricing arithmetic over IEEE 754 binary64

    The modules above compute with exact rationals.  The numbers of
    JavaScript are binary64, and where a property is decided by rounding
    the rationals cannot tell.  The arithmetic of the class on an order
    that has passed validation (lines 133-134, 140 and 147-236) is
    therefore embedded once more, over the binary64 numbers of the kernel
    (round to nearest, ties to even, as in JavaScript), operation by
    operation in the order of the source.  A decimal literal stands for the
    nearest binary64 number, as it does in JavaScript. *)

Module Binary64.

Import PrimFloat.

Local Open Scope float_scope.

#[local] Set Warnings "-inexact-float".

(** [!!x]: [0], [-0] and [NaN] are falsy. *)
Definition truthy (x : float) : bool := negb (orb (is_nan x) (x =? 0)).

(** [x || d]. *)
Definition or_else (x d : float) : float := if truthy x then x else d.

(** [Math.max(x, y)]: [NaN] if either argument is [NaN]; [+0] counts as
    larger than [-0]. *)
Definition max (x y : float) : float :=
  if orb (is_nan x) (is_nan y) then nan
  else if x <? y then y
  else if y <? x then x
  else if x =? 0 then x + y
  else x.

Record Item : Type := mkItem {
  item_price : float;
  item_quantity : float
}.

(** The fields of a validated order that pricing reads: the items, which
    are objects, and [customer.purchaseHistory.totalSpent], [None] when
    the customer has no purchase history and [NaN] when the history has
    no [totalSpent]. *)
Record Order : Type := mkOrder {
  order_items : list Item;
  purchaseHistory : option float
}.

(** The fields of [options] that pricing reads; [taxRate] is [NaN] when
    absent. *)
Record Options : Type := mkOptions {
  taxRate : float;
  applyFees : option bool;
  adjustments : option (list float);
  promotionalCode : option string
}.

(** Line 133. *)
Definition totalItems (o : Order) : float :=
  fold_left (fun sum item => sum + item_quantity item) (order_items o) 0.

(** Line 134. *)
Definition subtotal (o : Order) : float :=
  fold_left (fun sum item => sum + item_price item * item_quantity item)
    (order_items o) 0.

(** Line 140. *)
Definition isLargeOrder (o : Order) : bool := 10 <? totalItems o.

(** Lines 230-236. *)
Definition determineCustomerTier (o : Order) : CustomerTier :=
  match purchaseHistory o with
  | None => standard
  | Some spent =>
      let totalSpent := or_else spent 0 in
      if 1000 <? totalSpent then premium
      else if 500 <? totalSpent then gold
      else standard
  end.

(** The [finalPrice] of lines 147-178. *)
Definition calculateComplexPricing (o : Order) (options : Options) : float :=
  let basePrice := subtotal o in
  let taxRate := or_else (taxRate options) 0.1 in
  let taxes := basePrice * taxRate in
  let basePrice := basePrice + taxes in
  let basePrice :=
    match applyFees options with
    | Some false => basePrice
    | _ =>
        let feeAmount := if isLargeOrder o then 5.00 else 2.50 in
        basePrice + feeAmount
    end in
  match adjustments options with
  | Some adjs =>
      basePrice + fold_left (fun sum amount => sum + amount) adjs 0
  | None => basePrice
  end.

(** The object literal [codes] (lines 222-226). *)
Definition codes : list (string * float) :=
  [("SAVE10", 0.1); ("SAVE20", 0.2); ("SAVE50", 0.5)].

Fixpoint lookup (table : list (string * float)) (key : string)
    : option float :=
  match table with
  | [] => None
  | (k, v) :: rest => if (k =? key)%string then Some v else lookup rest key
  end.

(** Lines 221-228; a name inherited from [Object.prototype] is truthy and
    [NaN] in the product. *)
Definition calculatePromotionalDiscount (price : float) (code : string)
    : float :=
  match lookup codes code with
  | Some rate => if truthy rate then price * rate else 0
  | None => if inherited code then price * nan else 0
  end.

(** [{discountedPrice, discounts}], each discount with its type and
    amount. *)
Record discountResult : Type := mkDiscountResult {
  dr_discountedPrice : float;
  dr_discounts : list (OrderProcessor.discountType * float)
}.

(** Lines 180-219; [finalPrice], [customerTier] and [isLargeOrder] are
    the fields of the processed order the method reads, [month] is
    [new Date().getMonth()]. *)
Definition applyMultiLevelDiscounts (finalPrice : float)
    (customerTier : CustomerTier) (isLargeOrder : bool) (options : Options)
    (month : nat) : discountResult :=
  let discountedPrice := finalPrice in
  let appliedDiscounts := [] in
  (* Customer tier discount *)
  let '(discountedPrice, appliedDiscounts) :=
    match customerTier with
    | premium =>
        let discount := discountedPrice * 0.1 in
        (discountedPrice - discount,
         appliedDiscounts ++ [(OrderProcessor.tier, discount)])
    | _ => (discountedPrice, appliedDiscounts)
    end in
  (* Volume discount *)
  let '(discountedPrice, appliedDiscounts) :=
    if isLargeOrder then
      let discount := discountedPrice * 0.05 in
      (discountedPrice - discount,
       appliedDiscounts ++ [(OrderProcessor.volume, discount)])
    else (discountedPrice, appliedDiscounts) in
  (* Promotional discount *)
  let '(discountedPrice, appliedDiscounts) :=
    match promotionalCode options with
    | Some code =>
        if truthy_str (Some code) then
          let promoDiscount :=
            calculatePromotionalDiscount discountedPrice code in
          if 0 <? promoDiscount then
            (discountedPrice - promoDiscount,
             appliedDiscounts
               ++ [(OrderProcessor.promotional, promoDiscount)])
          else (discountedPrice, appliedDiscounts)
        else (discountedPrice, appliedDiscounts)
    | None => (discountedPrice, appliedDiscounts)
    end in
  (* Seasonal discount *)
  let currentMonth := month in
  let '(discountedPrice, appliedDiscounts) :=
    if Nat.eqb currentMonth 11 then
      let discount := discountedPrice * 0.15 in
      (discountedPrice - discount,
       appliedDiscounts ++ [(OrderProcessor.seasonal, discount)])
    else (discountedPrice, appliedDiscounts) in
  mkDiscountResult (max 0 discountedPrice) appliedDiscounts.

(** [applyMultiLevelDiscounts] with the volume step (lines 191-196) moved
    before the tier step (lines 184-189); not in the source, used to
    compare the two orders of application. *)
Definition applyVolumeThenTier (finalPrice : float)
    (customerTier : CustomerTier) (isLargeOrder : bool) (options : Options)
    (month : nat) : discountResult :=
  let discountedPrice := finalPrice in
  let appliedDiscounts := [] in
  (* Volume discount *)
  let '(discountedPrice, appliedDiscounts) :=
    if isLargeOrder then
      let discount := discountedPrice * 0.05 in
      (discountedPrice - discount,
       appliedDiscounts ++ [(OrderProcessor.volume, discount)])
    else (discountedPrice, appliedDiscounts) in
  (* Customer tier discount *)
  let '(discountedPrice, appliedDiscounts) :=
    match customerTier with
    | premium =>
        let discount := discountedPrice * 0.1 in
        (discountedPrice - discount,
         appliedDiscounts ++ [(OrderProcessor.tier, discount)])
    | _ => (discountedPrice, appliedDiscounts)
    end in
  (* Promotional discount *)
  let '(discountedPrice, appliedDiscounts) :=
    match promotionalCode options with
    | Some code =>
        if truthy_str (Some code) then
          let promoDiscount :=
            calculatePromotionalDiscount discountedPrice code in
          if 0 <? promoDiscount then
            (discountedPrice - promoDiscount,
             appliedDiscounts
               ++ [(OrderProcessor.promotional, promoDiscount)])
          else (discountedPrice, appliedDiscounts)
        else (discountedPrice, appliedDiscounts)
    | None => (discountedPrice, appliedDiscounts)
    end in
  (* Seasonal discount *)
  let currentMonth := month in
  let '(discountedPrice, appliedDiscounts) :=
    if Nat.eqb currentMonth 11 then
      let discount := discountedPrice * 0.15 in
      (discountedPrice - discount,
       appliedDiscounts ++ [(OrderProcessor.seasonal, discount)])
    else (discountedPrice, appliedDiscounts) in
  mkDiscountResult (max 0 discountedPrice) appliedDiscounts.

End Binary64.

(** ** Reference definitions for the stated properties *)

Module Spec.

Import OrderProcessor.

(** *** The discount stack as the specification words it (section 4.3)

    The rules are applied one after the other; each amount is the rule's
    rate times the total remaining after the earlier rules.  A rule marked
    [only_positive] is skipped, and not recorded, unless its amount is
    above 0. *)
Fixpoint sequential (rules : list (discountType * Q * bool))
    (running : number) : list (discountType * number) * number :=
  match rules with
  | [] => ([], running)
  | (kind, rate, only_positive) :: rest =>
      let amount := (running * Num rate)%js in
      if andb only_positive (negb (amount > Num 0)%js)
      then sequential rest running
      else
        let '(entries, final) := sequential rest (running - amount)%js in
        ((kind, amount) :: entries, final)
  end.

(** The rules that apply to an order, in the fixed order tier, volume,
    promotional, seasonal. *)
Definition applicable (tier_of_customer : CustomerTier) (large : bool)
    (promo : option string) (month : nat)
    : list (discountType * Q * bool) :=
  (match tier_of_customer with
   | premium => [(tier, 0.1%Q, false)]
   | _ => []
   end)
  ++ (if large then [(volume, 0.05%Q, false)] else [])
  ++ (match promo with
      | Some code =>
          if truthy_str (Some code) then
            match lookup codes code with
            | Some rate =>
                if truthy (Num rate) then [(promotional, rate, true)] else []
            | None => []
            end
          else []
      | None => []
      end)
  ++ (if Nat.eqb month 11 then [(seasonal, 0.15%Q, false)] else []).

(** A discount of the given kind is recorded. *)
Definition records (kind : discountType) (entries : list discount) : bool :=
  existsb
    (fun d =>
       match kind, d_type d with
       | tier, tier | volume, volume
       | promotional, promotional | seasonal, seasonal => true
       | _, _ => false
       end)
    entries.

(** The entries of [order.items] when it is an array. *)
Definition entries_of (o : Order) : list (option Item) :=
  match order_items o with
  | Some (ItemsArray entries) => entries
  | _ => []
  end.

(** The sum of the quantities of the items. *)
Fixpoint total_quantity (entries : list (option Item)) : Q :=
  match entries with
  | [] => 0
  | Some {| item_quantity := Num q |} :: rest => q + total_quantity rest
  | _ :: rest => total_quantity rest
  end.

(** [totalSpent], [0] when the purchase history or the field is absent. *)
Definition spent (customer : option Customer) : Q :=
  match customer with
  | Some {| customer_purchaseHistory := Some {| totalSpent := Num q |} |} => q
  | _ => 0
  end.

(** An item that fails one of the item rules of section 4.1. *)
Definition invalid_item (it : Item) : Prop :=
  truthy_str (item_id it) = false
  \/ orb (negb (truthy (item_price it))) (item_price it <= Num 0)%js = true
  \/ orb (negb (truthy (item_quantity it))) (item_quantity it <= Num 0)%js
     = true.

(** An item-level error entry naming the item at [index]. *)
Definition names_item (index : nat) (entry : string) : Prop :=
  entry = ("Item " ++ show_nat index ++ " missing id")%string
  \/ entry = ("Item " ++ show_nat index ++ " has invalid price")%string
  \/ entry = ("Item " ++ show_nat index ++ " has invalid quantity")%string.

(** No character of [s] is a space. *)
Fixpoint no_space (s : string) : bool :=
  match s with
  | EmptyString => true
  | String c rest => negb (Ascii.eqb c " ") && no_space rest
  end.

(** *** The discount stack with the tier and volume steps exchanged

    [applyMultiLevelDiscounts] (lines 180-219) with the volume step (lines
    191-196) moved before the tier step (lines 184-189); used to compare
    the two orders of application. *)
Definition applyVolumeThenTier (order : processedOrder) (options : Options)
    : method discountResult :=
  let discountedPrice := OrderProcessor.finalPrice order in
  let appliedDiscounts := [] in
  let '(discountedPrice, appliedDiscounts) :=
    if isLargeOrder (metadata order) then
      let discount := (discountedPrice * Num 0.05)%js in
      ((discountedPrice - discount)%js,
       appliedDiscounts ++ [mkDiscount volume discount (Some 5%Q) None])
    else (discountedPrice, appliedDiscounts) in
  let '(discountedPrice, appliedDiscounts) :=
    match customerTier (metadata order) with
    | premium =>
        let discount := (discountedPrice * Num 0.1)%js in
        ((discountedPrice - discount)%js,
         appliedDiscounts ++ [mkDiscount tier discount (Some 10%Q) None])
    | _ => (discountedPrice, appliedDiscounts)
    end in
  let '(discountedPrice, appliedDiscounts) :=
    match promotionalCode options with
    | Some code =>
        if truthy_str (Some code) then
          let promoDiscount :=
            calculatePromotionalDiscount discountedPrice code in
          if (promoDiscount > Num 0)%js then
            ((discountedPrice - promoDiscount)%js,
             appliedDiscounts
               ++ [mkDiscount promotional promoDiscount None (Some code)])
          else (discountedPrice, appliedDiscounts)
        else (discountedPrice, appliedDiscounts)
    | None => (discountedPrice, appliedDiscounts)
    end in
  (date <- new_Date ;;
   let currentMonth := getMonth date in
   let '(discountedPrice, appliedDiscounts) :=
     if Nat.eqb currentMonth 11 then
       let discount := (discountedPrice * Num 0.15)%js in
       ((discountedPrice - discount)%js,
        appliedDiscounts ++ [mkDiscount seasonal discount (Some 15%Q) None])
     else (discountedPrice, appliedDiscounts) in
   ret (mkDiscountResult (Js.max (Num 0) discountedPrice) appliedDiscounts)
  )%monad.

(** *** The outcome of pricing one order

    What a run of the [map] callback tells about its order: the processed
    order without its [processedAt] stamp, or the failure record without
    its [timestamp]. *)
Inductive OrderOutcome : Type :=
| Accepted (order : processedOrder)
| Rejected (reason : string) (errors : option (list string))
    (message : option string)
| Faulted (message : string).

Definition unstamp (o : processedOrder) : processedOrder :=
  mkProcessed (source o) "" (processingOptions o) (totalItems o)
    (OrderProcessor.subtotal o) (metadata o) (OrderProcessor.finalPrice o)
    (pricingBreakdown o) (discountedPrice o) (appliedDiscounts o).

(** A processed order with another [processedAt] stamp. *)
Definition restamp (stamp : string) (o : processedOrder) : processedOrder :=
  mkProcessed (source o) stamp (processingOptions o) (totalItems o)
    (OrderProcessor.subtotal o) (metadata o) (OrderProcessor.finalPrice o)
    (pricingBreakdown o) (discountedPrice o) (appliedDiscounts o).

Definition outcome (run : completion (option processedOrder) * world)
    : OrderOutcome :=
  match run with
  | (Normal (Some o), _) => Accepted (unstamp o)
  | (Normal None, w) =>
      match rev (failedOrders (this w)) with
      | f :: _ => Rejected (f_reason f) (f_errors f) (f_error f)
      | [] => Faulted "no failure recorded"
      end
  | (Throw e, _) => Faulted e
  end.

(** *** Derived forms used to state the effect of a method *)

(** The world after one more [new Date()]. *)
Definition tick (w : world) : world :=
  mkWorld (this w) (now w) (S (reads w)).

Definition put (s : state) (w : world) : world :=
  mkWorld s (now w) (reads w).

(** A fresh processor whose clock stands at [date], and the value a method
    returns there. *)
Definition frozen (date : Date) : world :=
  mkWorld constructor (fun _ => date) 0.

Definition value_at {A : Type} (date : Date) (m : method A) : completion A :=
  fst (m (frozen date)).

(** The last assignment of [updateStatistics] (lines 287-289). *)
Definition average (s : statistics) : statistics :=
  mkStatistics (successCount s) (failureCount s) (totalValue s)
    (totalValue s / Js.max (Num 1) (of_nat (successCount s)))%js.

(** The state after a failure record is pushed and counted. *)
Definition record_failure (f : failure) (s : state) : state :=
  set_statistics average
    (set_statistics
       (fun s => mkStatistics (successCount s) (S (failureCount s))
                   (totalValue s) (averageOrderValue s))
       (push_failed f s)).

(** The state after a processed order is pushed and counted. *)
Definition record_success (o : processedOrder) (s : state) : state :=
  set_statistics average
    (set_statistics
       (fun s => mkStatistics (successCount s) (failureCount s)
                   (totalValue s + discountedPrice o)%js
                   (averageOrderValue s))
       (set_statistics
          (fun s => mkStatistics (S (successCount s)) (failureCount s)
                      (totalValue s) (averageOrderValue s))
          (push_processed o s))).

(** What one run of the [map] callback on [order] leaves behind: the
    order is pushed onto [processedOrders] and returned, or a failure
    record for it is pushed onto [failedOrders] and [null] is returned;
    never both, never neither. *)
Definition one_outcome (order : option Order) (index : nat)
    (r : option processedOrder) (before after : state) : Prop :=
  orders after = orders before /\
  ((exists po, r = Some po
      /\ processedOrders after = processedOrders before ++ [po]
      /\ failedOrders after = failedOrders before)
   \/ (exists f, r = None
      /\ failedOrders after = failedOrders before ++ [f]
      /\ processedOrders after = processedOrders before
      /\ f_order f = order /\ f_index f = index)).

(** The array [processOrders] iterates over. *)
Definition batch (orders : option (list (option Order)))
    : list (option Order) :=
  match orders with Some l => l | None => [] end.

(** *** The validation rules of section 4.1, one by one

    Each function gives the entries one rule contributes to the error
    list, on its own. *)

Definition required_errors (o : Order) : list string :=
  (if truthy_str (order_id o) then []
   else ["Missing required field: id"])
  ++ (match order_items o with
      | Some _ => []
      | None => ["Missing required field: items"]
      end)
  ++ (match order_customer o with
      | Some _ => []
      | None => ["Missing required field: customer"]
      end).

Definition item_errors (index : nat) (it : Item) : list string :=
  (if truthy_str (item_id it) then []
   else [("Item " ++ show_nat index ++ " missing id")%string])
  ++ (if orb (negb (truthy (item_price it))) (item_price it <= Num 0)%js
      then [("Item " ++ show_nat index ++ " has invalid price")%string]
      else [])
  ++ (if orb (negb (truthy (item_quantity it)))
           (item_quantity it <= Num 0)%js
      then [("Item " ++ show_nat index ++ " has invalid quantity")%string]
      else []).

Fixpoint items_errors (entries : list (option Item)) (index : nat)
    : list string :=
  match entries with
  | [] => []
  | Some it :: rest => item_errors index it ++ items_errors rest (S index)
  | None :: rest => items_errors rest (S index)
  end.

Definition items_field_errors (o : Order) : list string :=
  match order_items o with
  | None => []
  | Some ItemsObject => ["Items must be an array"]
  | Some (ItemsArray []) => ["Order must contain at least one item"]
  | Some (ItemsArray entries) => items_errors entries 0
  end.

Definition customer_errors (o : Order) : list string :=
  match order_customer o with
  | None => []
  | Some c =>
      (if truthy_str (customer_id c) then [] else ["Customer missing id"])
      ++ (if andb (truthy_str (customer_email c))
                  (isValidEmail (customer_email c))
          then [] else ["Customer missing valid email"])
  end.

(** Every entry of the array is an object (none is [null]). *)
Definition objects (entries : list (option Item)) : Prop :=
  Forall (fun e => e <> None) entries.

Definition items_are_objects (o : Order) : Prop :=
  forall entries, order_items o = Some (ItemsArray entries) -> objects entries.

(** No entry of [options.adjustments] is [null]. *)
Definition adjustments_are_objects (options : Options) : Prop :=
  forall adjs, adjustments options = Some adjs ->
    Forall (fun a => a <> None) adjs.

(** An item that passes the item rules. *)
Definition valid_item (it : Item) : Prop :=
  truthy_str (item_id it) = true
  /\ (exists p, item_price it = Num p /\ (0 < p)%Q)
  /\ (exists q, item_quantity it = Num q /\ (0 < q)%Q).

Definition valid_entries (entries : list (option Item)) : Prop :=
  Forall (fun e => exists it, e = Some it /\ valid_item it) entries.

(** *** The e-mail pattern read as a decomposition

    [/^[^\s@]+@[^\s@]+\.[^\s@]+$/] matches [s] when [s] splits into three
    non-empty runs of characters that are neither whitespace nor ["@"],
    the first two joined by ["@"] and the last two by ["."]. *)
Definition email_shape (s : string) : Prop :=
  exists l d t : string,
    s = (l ++ "@" ++ d ++ "." ++ t)%string
    /\ l <> "" /\ d <> "" /\ t <> ""
    /\ all_plain l = true /\ all_plain d = true /\ all_plain t = true.

(** *** Orders that meet every rule of section 4.1 *)
Definition well_formed (o : Order) : Prop :=
  truthy_str (order_id o) = true
  /\ (exists entries,
        order_items o = Some (ItemsArray entries)
        /\ entries <> [] /\ valid_entries entries)
  /\ (exists c,
        order_customer o = Some c
        /\ truthy_str (customer_id c) = true
        /\ isValidEmail (customer_email c) = true).

(** The order without its [createdAt] field. *)
Definition without_createdAt (o : Order) : Order :=
  mkOrder (order_id o) (order_items o) (order_customer o) None.

(** *** What a call of [processOrders] leaves in the processor

    Each order of the batch leaves one event: it is accepted, or a failure
    record is filed for it. *)
Inductive event : Type :=
| Accept (order : processedOrder)
| Reject (record : failure).

Definition apply_event (s : state) (e : event) : state :=
  match e with
  | Accept po => record_success po s
  | Reject f => record_failure f s
  end.

(** What the [map] callback returns for the event. *)
Definition returned (e : event) : option processedOrder :=
  match e with
  | Accept po => Some po
  | Reject _ => None
  end.

Fixpoint accepted (events : list event) : list processedOrder :=
  match events with
  | [] => []
  | Accept po :: rest => po :: accepted rest
  | Reject _ :: rest => accepted rest
  end.

Fixpoint rejected (events : list event) : list failure :=
  match events with
  | [] => []
  | Accept _ :: rest => rejected rest
  | Reject f :: rest => f :: rejected rest
  end.

(** The order has passed every gate the options switch on (lines
    238-243): none of the three tests of [shouldCompleteOrder] that apply
    is true of it.  The tests are those of the source, so a price of
    [NaN], for which both comparisons are false, passes the first two. *)
Definition passes_gate (options : Options) (po : processedOrder) : Prop :=
  (strictMode options = true -> (discountedPrice po <= Num 0)%js = false)
  /\ (requireMinimumValue options = true ->
      (discountedPrice po < Num 10)%js = false)
  /\ (skipInvalidCustomers options = true ->
      exists c, order_customer (source po) = Some c
                /\ customer_isValid c = true).

(** A failure record has one of the three shapes of lines 245-278. *)
Definition tagged (f : failure) : Prop :=
  (f_reason f = "validation_failed"
   /\ (exists es, f_errors f = Some es /\ es <> []) /\ f_error f = None)
  \/ (f_reason f = "completion_failed"
      /\ f_errors f = None /\ f_error f = None)
  \/ (f_reason f = "error"
      /\ f_errors f = None /\ exists message, f_error f = Some message).

(** The event belongs to [order], met at position [index] of the batch. *)
Definition explains_one (options : Options) (order : option Order)
    (index : nat) (e : event) : Prop :=
  match e with
  | Accept po =>
      order = Some (source po)
      /\ processingOptions po = options
      /\ passes_gate options po
  | Reject f => f_order f = order /\ f_index f = index /\ tagged f
  end.

(** One event per order, in the order of the batch. *)
Inductive explains (options : Options)
    : nat -> list (option Order) -> list event -> Prop :=
| explains_nil (index : nat) : explains options index [] []
| explains_cons (index : nat) (order : option Order)
    (rest : list (option Order)) (e : event) (es : list event) :
    explains_one options order index e ->
    explains options (S index) rest es ->
    explains options index (order :: rest) (e :: es).

(** The state once lines 26-27 have run at time [t]. *)
Definition started (t : Z) (batch : list (option Order)) (s : state)
    : state :=
  mkState batch (processedOrders s) (failedOrders s)
    (mkStateMetadata (Some t)
       (processingEndTime (state_metadata s))
       (totalProcessingTime (state_metadata s))
       (statistics_of (state_metadata s))).

(** The state once [finalizeProcessing] has run at time [t]. *)
Definition finished (t : Z) (s : state) : state :=
  set_metadata (fun m =>
    mkStateMetadata (processingStartTime m) (Some t)
      (Some (t - match processingStartTime m with
                 | Some start => start
                 | None => 0
                 end)%Z)
      (statistics_of m)) s.

(** The sum of the prices of the processed orders, as [totalValue]
    accumulates it. *)
Definition value_of (l : list processedOrder) : number :=
  fold_left (fun t o => (t + discountedPrice o)%js) l (Num 0).

(** The statistics agree with the two lists. *)
Definition consistent (s : state) : Prop :=
  let st := statistics_of (state_metadata s) in
  successCount st = List.length (processedOrders s)
  /\ failureCount st = List.length (failedOrders s)
  /\ totalValue st =~ value_of (processedOrders s)
  /\ averageOrderValue st
     =~ (totalValue st / Js.max (Num 1) (of_nat (successCount st)))%js.

(** The rate [options.taxRate || 0.1] (line 157): an absent rate and a
    rate of 0 both give 0.1. *)
Definition tax_rate_used (options : Options) : Q :=
  match taxRate options with
  | Num r => if Qeq_bool r 0 then 0.1 else r
  | NaN => 0.1
  end.

(** The codes of the object literal [codes] (lines 222-226). *)
Definition known_codes : list string := ["SAVE10"; "SAVE20"; "SAVE50"].

(** The options without their [promotionalCode]. *)
Definition without_promotionalCode (options : Options) : Options :=
  mkOptions (taxRate options) (applyFees options) (adjustments options) None
    (strictMode options) (requireMinimumValue options)
    (skipInvalidCustomers options) (includeDetails options)
    (includeStatistics options) (includeMetadata options).

(** The messages a failed result of the refactored [processOrder] can
    carry (lines 354, 358, 363, 368, 473). *)
Definition refusals : list string :=
  ["Order must have an id"; "Order must have at least one item";
   "Invalid item data"; "Invalid customer data";
   "Order value below minimum"].

(** The tiers in ascending order. *)
Definition tier_rank (t : CustomerTier) : nat :=
  match t with
  | standard => 0
  | gold => 1
  | premium => 2
  end.

End Spec.

(** ** Inputs used in the examples *)

Module Example.

Import OrderProcessor.

(** The order of the usage examples (lines 321-327 and 503-513). *)
Definition order1 : Order :=
  mkOrder (Some "123")
    (Some (ItemsArray [Some (mkItem (Some "item1") (Num 10) (Num 2))]))
    (Some (mkCustomer (Some "cust1") (Some "test@example.com")
             (Some (mkHistory (Num 1200))) false))
    None.

(** [{taxRate: 0.1, promotionalCode: 'SAVE10'}]. *)
Definition options1 : Options :=
  mkOptions (Num 0.1) None None (Some "SAVE10")
    false false false false false false.

(** [{includeStatistics: true}]. *)
Definition options_statistics : Options :=
  mkOptions NaN None None None false false false false true false.

(** [{adjustments: [null]}]. *)
Definition options_null_adjustment : Options :=
  mkOptions NaN None (Some [None]) None false false false false false false.

Definition january : Date := mkDate 1704067200000 "2024-01-01T00:00:00.000Z" 0.
Definition december : Date :=
  mkDate 1733011200000 "2024-12-01T00:00:00.000Z" 11.

Definition no_dates : string -> number := fun _ => NaN.

(** A fresh processor with the clock standing at [date]. *)
Definition fresh (date : Date) : world :=
  mkWorld constructor (fun _ => date) 0.

Definition with_spent (amount : Q) : Customer :=
  mkCustomer (Some "cust1") (Some "test@example.com")
    (Some (mkHistory (Num amount))) false.

(** Two items, both invalid on their own: a negative price and a zero
    quantity. *)
Definition two_invalid_items : Order :=
  mkOrder (Some "124")
    (Some (ItemsArray
       [Some (mkItem (Some "a") (Num (-1)) (Num 1));
        Some (mkItem (Some "b") (Num 5) (Num 0))]))
    (Some (with_spent 0)) None.

(** Two line items of quantity 1 each, the first one cheap. *)
Definition cheap_first : Order :=
  mkOrder (Some "125")
    (Some (ItemsArray
       [Some (mkItem (Some "a") (Num 1) (Num 1));
        Some (mkItem (Some "b") (Num 100) (Num 1))]))
    (Some (with_spent 0)) None.

(** One line item of quantity 11. *)
Definition eleven_of_one : Order :=
  mkOrder (Some "126")
    (Some (ItemsArray [Some (mkItem (Some "a") (Num 10) (Num 11))]))
    (Some (with_spent 0)) None.

(** A premium customer ordering 11 units. *)
Definition premium_large : Order :=
  mkOrder (Some "127")
    (Some (ItemsArray [Some (mkItem (Some "a") (Num 10) (Num 11))]))
    (Some (with_spent 1200)) None.

(** An order whose [items] array holds [null]. *)
Definition null_item : Order :=
  mkOrder (Some "128") (Some (ItemsArray [None])) (Some (with_spent 0)) None.

(** [premium_large] after enrichment and pricing with [options1]:
    110 + 11 of tax + 5.00 of fee. *)
Definition premium_large_priced : processedOrder :=
  mkProcessed premium_large "2024-01-01T00:00:00.000Z" options1
    (Num 11) (Num 110) (mkOrderMetadata 1 false true premium)
    (Num 126) (Some (mkBreakdown (Num 110) (Num 11) (Num 5.00) (Num 0)))
    NaN None.

(** A processor that has been used before, with a clock that moves on
    within January. *)
Definition used_processor : world :=
  mkWorld
    (mkState [None] [] []
       (mkStateMetadata (Some 5%Z) (Some 9%Z) (Some 4%Z)
          (mkStatistics 3 4 (Num 70) (Num 23))))
    (fun n => mkDate (1704067200000 + Z.of_nat n) "2024-01-01T00:00:00.007Z" 0)
    7.

Definition new_year : Date :=
  mkDate 1735689600000 "2025-01-01T00:00:00.000Z" 0.

(** [{promotionalCode: 'constructor'}]. *)
Definition options_constructor : Options :=
  mkOptions NaN None None (Some "constructor")
    false false false false false false.

(** The order of the usage example with a [createdAt] that does not
    parse. *)
Definition order_soon : Order :=
  mkOrder (Some "123") (order_items order1) (order_customer order1)
    (Some "soon").

(** [{taxRate: 0}]. *)
Definition options_tax_zero : Options :=
  mkOptions (Num 0) None None None false false false false false false.

Import PrimFloat.

(** A premium customer ordering 12 units at 10, with binary64 numbers. *)
Definition premium_twelve : Binary64.Order :=
  Binary64.mkOrder [Binary64.mkItem 10 12] (Some 1200%float).

(** The same customer ordering 11 units at 10. *)
Definition premium_eleven : Binary64.Order :=
  Binary64.mkOrder [Binary64.mkItem 10 11] (Some 1200%float).

(** [{}], as the binary64 embedding reads it. *)
Definition no_options : Binary64.Options :=
  Binary64.mkOptions nan None None None.

End Example.

(** ** Facts about numbers *)

Module JsFacts.

Lemma le_Num (a b : Q) : (Num a <= Num b)%js = true <-> (a <= b)%Q.
Proof. apply Qle_bool_iff. Qed.

Lemma lt_Num (a b : Q) : (Num a < Num b)%js = true <-> (a < b)%Q.
Proof.
  unfold Js.lt. rewrite negb_true_iff. split; intro H.
  - apply Qnot_le_lt. intro L. apply Qle_bool_iff in L. congruence.
  - destruct (Qle_bool b a) eqn:E; [|reflexivity].
    apply Qle_bool_iff in E. exfalso. exact (Qlt_not_le _ _ H E).
Qed.

Lemma gt_Num (a b : Q) : (Num a > Num b)%js = true <-> (b < a)%Q.
Proof. apply lt_Num. Qed.

Lemma ge_Num (a b : Q) : (Num a >= Num b)%js = true <-> (b <= a)%Q.
Proof. apply le_Num. Qed.

Lemma lt_Num_false (a b : Q) : (Num a < Num b)%js = false <-> (b <= a)%Q.
Proof.
  rewrite <- not_true_iff_false, lt_Num. split; intro H.
  - apply Qnot_lt_le, H.
  - apply Qle_not_lt, H.
Qed.

Lemma le_Num_false (a b : Q) : (Num a <= Num b)%js = false <-> (b < a)%Q.
Proof.
  rewrite <- not_true_iff_false, le_Num. split; intro H.
  - apply Qnot_le_lt, H.
  - apply Qlt_not_le, H.
Qed.

Lemma truthy_Num (q : Q) : truthy (Num q) = true <-> ~ (q == 0)%Q.
Proof.
  unfold truthy. rewrite negb_true_iff, <- not_true_iff_false, Qeq_bool_iff.
  reflexivity.
Qed.

Lemma truthy_Num_false (q : Q) : truthy (Num q) = false <-> (q == 0)%Q.
Proof.
  unfold truthy. rewrite negb_false_iff, Qeq_bool_iff. reflexivity.
Qed.

(** [Math.max(0, x)] of a number is a number that is not negative. *)
Lemma max_zero (q : Q) :
  exists r, Js.max (Num 0) (Num q) = Num r /\ (0 <= r)%Q.
Proof.
  unfold Js.max. destruct (Qle_bool 0 q) eqn:E.
  - exists q. split; [reflexivity|]. apply Qle_bool_iff, E.
  - exists 0%Q. split; [reflexivity|]. apply Qle_refl.
Qed.

Lemma mul_NaN_r (x : number) : (x * NaN)%js = NaN.
Proof. destruct x; reflexivity. Qed.

Lemma same_refl (x : number) : x =~ x.
Proof. destruct x; simpl; [exact I | reflexivity]. Qed.

Lemma same_trans (x y z : number) : x =~ y -> y =~ z -> x =~ z.
Proof.
  destruct x, y, z; simpl; try tauto. intros H1 H2. now rewrite H1.
Qed.

Lemma same_sym (x y : number) : x =~ y -> y =~ x.
Proof. destruct x, y; simpl; try tauto. intro H. now symmetry. Qed.

End JsFacts.

(** ** Customer tiers *)

Module TierFacts.

Import JsFacts.

(** [x || 0] of a rational is the rational. *)
Lemma or_zero (q : Q) : exists r, (Num q || Num 0)%js = Num r /\ (r == q)%Q.
Proof.
  unfold or_else. destruct (truthy (Num q)) eqn:E.
  - exists q. split; reflexivity.
  - exists 0%Q. split; [reflexivity|]. apply truthy_Num_false in E.
    now symmetry.
Qed.

(** The amount [getCustomerTier] and [determineCustomerTier] compare with
    the thresholds is [Spec.spent]. *)
Lemma getCustomerTier_spent (customer : option Customer) :
  exists r, (r == Spec.spent customer)%Q /\
    Refactored.getCustomerTier customer =
      if (Num r >= Num 1000)%js then premium
      else if (Num r >= Num 500)%js then gold else standard.
Proof.
  unfold Refactored.getCustomerTier, Spec.spent.
  destruct customer as [[cid email [[[|q]]|] v]|]; simpl;
    try (exists 0%Q; split; reflexivity).
  destruct (or_zero q) as [r [E R]]. rewrite E. exists r. split; auto.
Qed.

(** The refactored [getCustomerTier] uses the inclusive thresholds 1000
    and 500. *)
Lemma getCustomerTier_thresholds (customer : option Customer) :
  let s := Spec.spent customer in
  (Refactored.getCustomerTier customer = premium <-> (1000 <= s)%Q)
  /\ (Refactored.getCustomerTier customer = gold
      <-> (500 <= s)%Q /\ (s < 1000)%Q)
  /\ (Refactored.getCustomerTier customer = standard <-> (s < 500)%Q).
Proof.
  intro s. destruct (getCustomerTier_spent customer) as [r [R E]].
  fold s in R. rewrite E. clear E.
  destruct (Num r >= Num 1000)%js eqn:A.
  - apply ge_Num in A. rewrite R in A.
    repeat split; intros; try discriminate; try assumption.
    + destruct H as [_ H]. exfalso. exact (Qlt_not_le _ _ H A).
    + exfalso. apply (Qlt_not_le _ _ H). apply Qle_trans with 1000%Q; auto.
      discriminate.
  - apply le_Num_false in A. rewrite R in A.
    destruct (Num r >= Num 500)%js eqn:B.
    + apply ge_Num in B. rewrite R in B.
      repeat split; intros; try discriminate; try assumption.
      * exfalso. exact (Qlt_not_le _ _ A H).
      * exfalso. exact (Qlt_not_le _ _ H B).
    + apply le_Num_false in B. rewrite R in B.
      repeat split; intros; try discriminate; try assumption.
      * exfalso. exact (Qlt_not_le _ _ A H).
      * destruct H as [H _]. exfalso. exact (Qlt_not_le _ _ B H).
Qed.

(** [OrderProcessor.determineCustomerTier] uses the same amount with the
    exclusive thresholds: premium above 1000, gold above 500. *)
Lemma determineCustomerTier_thresholds (customer : option Customer) :
  let s := Spec.spent customer in
  (OrderProcessor.determineCustomerTier customer = premium <-> (1000 < s)%Q)
  /\ (OrderProcessor.determineCustomerTier customer = gold
      <-> (500 < s)%Q /\ (s <= 1000)%Q)
  /\ (OrderProcessor.determineCustomerTier customer = standard
      <-> (s <= 500)%Q).
Proof.
  intro s.
  assert (exists r, (r == s)%Q /\
    OrderProcessor.determineCustomerTier customer =
      if (Num r > Num 1000)%js then premium
      else if (Num r > Num 500)%js then gold else standard) as [r [R E]].
  { unfold OrderProcessor.determineCustomerTier, s, Spec.spent.
    destruct customer as [[cid email [[[|q]]|] v]|]; simpl;
      try (exists 0%Q; split; reflexivity).
    destruct (or_zero q) as [r [E R]]. rewrite E. exists r. split; auto. }
  rewrite E. clear E.
  destruct (Num r > Num 1000)%js eqn:A.
  - apply gt_Num in A. rewrite R in A.
    repeat split; intros; try discriminate; try assumption.
    + destruct H as [_ H]. exfalso. exact (Qlt_not_le _ _ A H).
    + exfalso. apply (Qlt_not_le _ _ A). apply Qle_trans with 500%Q; auto.
      discriminate.
  - apply lt_Num_false in A. rewrite R in A.
    destruct (Num r > Num 500)%js eqn:B.
    + apply gt_Num in B. rewrite R in B.
      repeat split; intros; try discriminate; try assumption.
      * exfalso. exact (Qlt_not_le _ _ H A).
      * exfalso. exact (Qlt_not_le _ _ B H).
    + apply lt_Num_false in B. rewrite R in B.
      repeat split; intros; try discriminate; try assumption.
      * exfalso. exact (Qlt_not_le _ _ H A).
      * destruct H as [H _]. exfalso. exact (Qlt_not_le _ _ H B).
Qed.

(** C6.  The derived tier is to be premium from a total spent of exactly
    1000 and gold from exactly 500.  [determineCustomerTier] of the class
    derives gold at exactly 1000 and standard at exactly 500, where the
    refactored [getCustomerTier] derives premium and gold. *)
Theorem determineCustomerTier_at_thresholds :
  OrderProcessor.determineCustomerTier (Some (Example.with_spent 1000)) = gold
  /\ OrderProcessor.determineCustomerTier (Some (Example.with_spent 500))
     = standard
  /\ Refactored.getCustomerTier (Some (Example.with_spent 1000)) = premium
  /\ Refactored.getCustomerTier (Some (Example.with_spent 500)) = gold.
Proof. repeat split; reflexivity. Qed.

End TierFacts.

(** ** The effect of the methods on the processor and the clock *)

Module Run.

Import OrderProcessor Spec.

Ltac case_completion :=
  match goal with
  | |- context [match ?c with Normal _ => _ | Throw _ => _ end] => destruct c
  end.

Lemma handleError_run (error : string) (order : option Order) (index : nat)
    (w : world) :
  handleError error order index w
  = (Normal tt,
     put (record_failure
            (mkFailure order index "error" None (Some error)
               (toISOString (now w (reads w))))
            (this w))
         (tick w)).
Proof. reflexivity. Qed.

Lemma handleValidationFailure_run (order : option Order)
    (v : ValidationResult) (index : nat) (w : world) :
  handleValidationFailure order v index w
  = (Normal tt,
     put (record_failure
            (mkFailure order index "validation_failed" (Some (errors v)) None
               (toISOString (now w (reads w))))
            (this w))
         (tick w)).
Proof. reflexivity. Qed.

Lemma handleCompletionFailure_run (order : option Order) (index : nat)
    (w : world) :
  handleCompletionFailure order index w
  = (Normal tt,
     put (record_failure
            (mkFailure order index "completion_failed" None None
               (toISOString (now w (reads w))))
            (this w))
         (tick w)).
Proof. reflexivity. Qed.

Lemma success_run (o : processedOrder) (w : world) :
  (update (push_processed o) ;; updateStatistics (Some o) "success")%monad w
  = (Normal tt, put (record_success o (this w)) w).
Proof. reflexivity. Qed.

(** [transformAndEnrichOrder] reads the clock once and leaves the
    processor alone; its value depends on the world through the date read
    only. *)
Lemma transformAndEnrichOrder_frame (order : Order) (options : Options)
    (w : world) :
  transformAndEnrichOrder order options w
  = (value_at (now w (reads w)) (transformAndEnrichOrder order options),
     tick w).
Proof.
  unfold transformAndEnrichOrder, value_at, frozen, tick, new_Date, lift.
  cbn [bind ret Monad_method fst this now reads].
  repeat (case_completion; cbn [fst]; try reflexivity).
Qed.

Lemma applyMultiLevelDiscounts_frame (order : processedOrder)
    (options : Options) (w : world) :
  applyMultiLevelDiscounts order options w
  = (value_at (now w (reads w)) (applyMultiLevelDiscounts order options),
     tick w).
Proof.
  unfold applyMultiLevelDiscounts, value_at, frozen, tick, new_Date.
  repeat match goal with
  | |- context [let '(a, b) := ?p in _] => destruct p
  end.
  cbn [bind ret Monad_method fst this now reads].
  destruct (Nat.eqb _ _); reflexivity.
Qed.

(** [applyMultiLevelDiscounts] never throws. *)
Lemma applyMultiLevelDiscounts_returns (order : processedOrder)
    (options : Options) (date : Date) :
  exists r, value_at date (applyMultiLevelDiscounts order options) = Normal r.
Proof.
  unfold applyMultiLevelDiscounts, value_at, frozen, new_Date.
  repeat match goal with
  | |- context [let '(a, b) := ?p in _] => destruct p
  end.
  cbn [bind ret Monad_method fst this now reads].
  destruct (Nat.eqb _ _); eexists; reflexivity.
Qed.

(** The [try] block, stage by stage. *)
Lemma processOrders_try_unfold (Date_parse : string -> number)
    (options : Options) (order : option Order) (index : nat) (w : world) :
  processOrders_try Date_parse order options index w =
  match performComprehensiveValidation Date_parse order options with
  | Throw e => (Throw e, w)
  | Normal v =>
    if negb (isValid v) then
      (Normal None,
       put (record_failure
              (mkFailure order index "validation_failed" (Some (errors v))
                 None (toISOString (now w (reads w))))
              (this w))
           (tick w))
    else
      match value_at (now w (reads w))
              (transformAndEnrichOrder (spread order) options) with
      | Throw e => (Throw e, tick w)
      | Normal po =>
        match calculateComplexPricing po options with
        | Throw e => (Throw e, tick w)
        | Normal pr =>
          match value_at (now w (S (reads w)))
                  (applyMultiLevelDiscounts (set_pricing po pr) options) with
          | Throw e => (Throw e, tick (tick w))
          | Normal dr =>
            let done := set_discounts (set_pricing po pr) dr in
            match shouldCompleteOrder done options with
            | Throw e => (Throw e, tick (tick w))
            | Normal true =>
                (Normal (Some done),
                 put (record_success done (this w)) (tick (tick w)))
            | Normal false =>
                (Normal None,
                 put (record_failure
                        (mkFailure order index "completion_failed" None None
                           (toISOString (now w (S (S (reads w))))))
                        (this w))
                     (tick (tick (tick w))))
            end
          end
        end
      end
  end.
Proof.
  unfold processOrders_try.
  cbn [bind ret Monad_method lift].
  destruct (performComprehensiveValidation Date_parse order options) as [v|e];
    [|reflexivity].
  destruct (isValid v); cbn [negb]; [|reflexivity].
  rewrite transformAndEnrichOrder_frame.
  destruct (value_at _ (transformAndEnrichOrder _ _)) as [po|e]; [|reflexivity].
  destruct (calculateComplexPricing po options) as [pr|e]; [|reflexivity].
  rewrite applyMultiLevelDiscounts_frame.
  cbn [now reads tick].
  destruct (value_at _ (applyMultiLevelDiscounts _ _)) as [dr|e];
    [|reflexivity].
  destruct (shouldCompleteOrder _ _) as [[|]|e]; reflexivity.
Qed.

Ltac finish :=
  cbn;
  repeat match goal with
  | |- _ /\ _ => split
  | |- True => exact I
  | |- _ = _ => reflexivity
  | |- exists _ : string, _ => eexists; reflexivity
  | |- _ \/ _ =>
      first [ left; eexists; repeat split; reflexivity
            | right; eexists; repeat split; reflexivity ]
  end.

(** The callback returns for every order, leaves exactly one outcome,
    and turns a throw of the [try] block into a failure record with reason
    ["error"] and the message thrown. *)
Lemma processOrders_callback_cases (Date_parse : string -> number)
    (options : Options) (order : option Order) (index : nat) (w : world) :
  exists r w',
    processOrders_callback Date_parse options order index w = (Normal r, w')
    /\ one_outcome order index r (this w) (this w')
    /\ match processOrders_try Date_parse order options index w with
       | (Throw e, _) =>
           r = None /\ exists stamp,
             failedOrders (this w') =
               failedOrders (this w)
                 ++ [mkFailure order index "error" None (Some e) stamp]
       | _ => True
       end.
Proof.
  unfold processOrders_callback, try_catch, one_outcome.
  rewrite processOrders_try_unfold.
  destruct (performComprehensiveValidation Date_parse order options) as [v|e].
  2:{ eexists; eexists; split; [reflexivity|]. finish. }
  destruct (negb (isValid v)).
  { eexists; eexists; split; [reflexivity|]. finish. }
  destruct (value_at _ (transformAndEnrichOrder _ _)) as [po|e].
  2:{ eexists; eexists; split; [reflexivity|]. finish. }
  destruct (calculateComplexPricing po options) as [pr|e].
  2:{ eexists; eexists; split; [reflexivity|]. finish. }
  destruct (value_at _ (applyMultiLevelDiscounts _ _)) as [dr|e].
  2:{ eexists; eexists; split; [reflexivity|]. finish. }
  cbv zeta.
  destruct (shouldCompleteOrder _ _) as [[|]|e];
    (eexists; eexists; split; [reflexivity|]); finish.
Qed.

(** Mapping the callback over a batch returns one result per order and
    grows the two lists of the processor by one entry per order. *)
Lemma map_indexed_callback (Date_parse : string -> number)
    (options : Options) (l : list (option Order)) :
  forall (index : nat) (w : world),
  exists rs w',
    map_indexed (processOrders_callback Date_parse options) l index w
      = (Normal rs, w')
    /\ List.length rs = List.length l
    /\ orders (this w') = orders (this w)
    /\ (List.length (processedOrders (this w'))
         + List.length (failedOrders (this w')))%nat
       = (List.length (processedOrders (this w))
          + List.length (failedOrders (this w)) + List.length l)%nat.
Proof.
  induction l as [|order rest IH]; intros index w.
  - exists [], w. cbn. repeat split; lia.
  - destruct (processOrders_callback_cases Date_parse options order index w)
      as (r & w1 & E & [O G] & _).
    destruct (IH (S index) w1) as (rs & w2 & E2 & L & O2 & N).
    exists (r :: rs), w2.
    cbn [map_indexed bind ret Monad_method]. rewrite E, E2.
    repeat split.
    + cbn. now rewrite L.
    + now rewrite O2.
    + rewrite N. cbn [List.length].
      destruct G as [(po & _ & P & F) | (f & _ & F & P & _)];
        rewrite P, F, ?length_app; cbn [List.length]; lia.
Qed.

(** C5.  Every order given to the [map] callback of [processOrders]
    yields exactly one outcome: the callback always returns, and either the
    order is pushed onto [processedOrders] or one failure record for it is
    pushed onto [failedOrders].  Whenever the [try] block throws (in
    validation, enrichment, pricing or the acceptance gate), the callback
    returns [null] and the record pushed has reason ["error"] and carries
    the message thrown.  [processOrders] itself always returns, for a batch
    of any content, reports the length of the batch as [total], and has
    then grown the two lists by exactly one entry per order: the orders
    after a faulty one are still processed. *)
Theorem every_order_yields_one_outcome (Date_parse : string -> number)
    (options : Options) :
  (forall (order : option Order) (index : nat) (w : world),
     exists r w',
       processOrders_callback Date_parse options order index w
         = (Normal r, w')
       /\ one_outcome order index r (this w) (this w')
       /\ match processOrders_try Date_parse order options index w with
          | (Throw e, _) =>
              r = None /\ exists stamp,
                failedOrders (this w') =
                  failedOrders (this w)
                    ++ [mkFailure order index "error" None (Some e) stamp]
          | _ => True
          end)
  /\ (forall (orders : option (list (option Order))) (w : world),
       exists resp w',
         processOrders Date_parse orders options w = (Normal resp, w')
         /\ total resp = List.length (batch orders)
         /\ (List.length (processedOrders (this w'))
              + List.length (failedOrders (this w')))%nat
            = (List.length (processedOrders (this w))
               + List.length (failedOrders (this w))
               + List.length (batch orders))%nat).
Proof.
  split.
  - intros. apply processOrders_callback_cases.
  - intros orders w. unfold processOrders.
    cbn [bind ret Monad_method new_Date update get_state this now reads].
    match goal with
    | |- context [map_indexed _ ?l 0 ?w0] =>
        destruct (map_indexed_callback Date_parse options l 0 w0)
          as (rs & w1 & E & L & O & N)
    end.
    cbn [this OrderProcessor.orders processedOrders failedOrders]
      in E, O, N |- *.
    rewrite E.
    eexists; eexists; split; [reflexivity|].
    cbn. fold (batch orders). rewrite O. split; [reflexivity|].
    unfold set_metadata in N. cbn in N. exact N.
Qed.

(** A fault in pricing: [options.adjustments] holds a [null] entry, so
    [calculateComplexPricing] throws on [adj.amount] for an order that
    passed validation; the fault is recorded as a failure with reason
    ["error"] and its message. *)
Example null_adjustment_is_rejected :
  let order := Some Example.order1 in
  let w := Example.fresh Example.january in
  (exists v, performComprehensiveValidation Example.no_dates order
               Example.options_null_adjustment = Normal v
             /\ isValid v = true)
  /\ (exists e,
       fst (processOrders_try Example.no_dates order
              Example.options_null_adjustment 0 w) = Throw e)
  /\ exists resp w',
       processOrders Example.no_dates (Some [order])
         Example.options_null_adjustment w = (Normal resp, w')
       /\ processed resp = 0%nat /\ failed resp = 1%nat /\ total resp = 1%nat
       /\ map f_reason (failedOrders (this w')) = ["error"]
       /\ map f_error (failedOrders (this w'))
          = [Some "Cannot read properties of null (reading 'amount')"].
Proof.
  split; [|split].
  - eexists. split; reflexivity.
  - eexists. vm_compute. reflexivity.
  - eexists; eexists. split; [vm_compute; reflexivity|].
    repeat split; reflexivity.
Qed.

(** A fault on the first order of a batch ([item.id] of a [null] item):
    the order after it is still processed. *)
Example batch_continues_after_fault :
  exists resp w',
    processOrders Example.no_dates
      (Some [Some Example.null_item; Some Example.order1])
      Example.options1 (Example.fresh Example.january) = (Normal resp, w')
    /\ processed resp = 1%nat /\ failed resp = 1%nat /\ total resp = 2%nat
    /\ map f_reason (failedOrders (this w')) = ["error"]
    /\ map f_index (failedOrders (this w')) = [0%nat]
    /\ map source (processedOrders (this w')) = [Example.order1].
Proof.
  eexists; eexists. split; [vm_compute; reflexivity|].
  repeat split; reflexivity.
Qed.

End Run.

(** ** Validation *)

Module ValidationFacts.

Import OrderProcessor Spec JsFacts.

Local Open Scope js_scope.

(** *** Item indices in error entries *)

Lemma string_of_uint_no_space (d : Decimal.uint) :
  no_space (NilEmpty.string_of_uint d) = true.
Proof. induction d; cbn; auto. Qed.

Lemma space_free_prefix (a : string) :
  forall b x y,
  no_space a = true -> no_space b = true ->
  (a ++ String " " x)%string = (b ++ String " " y)%string -> a = b.
Proof.
  induction a as [|c a IH]; intros [|d b] x y A B E; cbn in *.
  - reflexivity.
  - injection E as C _. subst d. discriminate.
  - injection E as C _. subst c. discriminate.
  - injection E as C E. subst d.
    apply andb_prop in A as [_ A]. apply andb_prop in B as [_ B].
    f_equal. eapply IH; eassumption.
Qed.

Lemma show_nat_inj (i j : nat) : show_nat i = show_nat j -> i = j.
Proof.
  unfold show_nat. intro E. apply DecimalNat.Unsigned.to_uint_inj.
  apply (f_equal NilEmpty.uint_of_string) in E.
  rewrite 2!NilEmpty.usu in E. congruence.
Qed.

(** An error entry names one item only. *)
Lemma names_item_inj (i j : nat) (entry : string) :
  names_item i entry -> names_item j entry -> i = j.
Proof.
  unfold names_item. intros I J. apply show_nat_inj.
  destruct I as [I | [I | I]], J as [J | [J | J]]; subst entry;
    cbn in J; injection J as J;
    (eapply space_free_prefix;
     [apply string_of_uint_no_space | apply string_of_uint_no_space |];
     cbn; first [exact J | symmetry; exact J]).
Qed.

(** *** The error list is the concatenation of the rules *)

Lemma checkRequiredFields_complete (o : Order) (errs : list string) :
  checkRequiredFields o errs = errs ++ required_errors o.
Proof.
  unfold checkRequiredFields, required_errors, requiredFields, has_field.
  cbn.
  destruct (truthy_str (order_id o)), (order_items o), (order_customer o);
    cbn; rewrite <- ?app_assoc, ?app_nil_r; reflexivity.
Qed.

Lemma checkItems_complete (entries : list (option Item)) :
  forall index errs,
  objects entries ->
  checkItems entries index errs = Normal (errs ++ items_errors entries index).
Proof.
  induction entries as [|[it|] rest IH]; intros index errs O.
  - cbn. now rewrite app_nil_r.
  - inversion O; subst. cbn [checkItems property bind ret Monad_completion].
    rewrite IH by assumption. unfold items_errors; fold items_errors.
    unfold item_errors.
    destruct (truthy_str (item_id it));
    destruct (orb (negb (truthy (item_price it))) (item_price it <= Num 0));
    destruct (orb (negb (truthy (item_quantity it)))
                (item_quantity it <= Num 0));
    cbn [app negb]; rewrite <- ?app_assoc; reflexivity.
  - inversion O; subst. congruence.
Qed.

(** A [null] item makes the loop throw: it returns only on objects. *)
Lemma checkItems_returns (entries : list (option Item)) :
  forall index errs errs',
  checkItems entries index errs = Normal errs' -> objects entries.
Proof.
  induction entries as [|[it|] rest IH]; intros index errs errs' E.
  - constructor.
  - constructor; [discriminate|].
    cbn [checkItems property bind ret Monad_completion] in E.
    eapply IH; eassumption.
  - discriminate.
Qed.

Lemma checkItemsField_complete (o : Order) (errs : list string) :
  items_are_objects o ->
  checkItemsField o errs = Normal (errs ++ items_field_errors o).
Proof.
  unfold checkItemsField, items_field_errors, items_are_objects. intro O.
  destruct (order_items o) as [[[|e rest]|]|]; cbn [ret Monad_completion];
    rewrite ?app_nil_r; try reflexivity.
  apply checkItems_complete, O. reflexivity.
Qed.

Lemma checkItemsField_returns (o : Order) (errs errs' : list string) :
  checkItemsField o errs = Normal errs' -> items_are_objects o.
Proof.
  unfold checkItemsField, items_are_objects. intros E entries I.
  rewrite I in E. destruct entries as [|e rest]; [constructor|].
  eapply checkItems_returns; eassumption.
Qed.

Lemma checkCustomer_complete (o : Order) (errs : list string) :
  checkCustomer o errs = errs ++ customer_errors o.
Proof.
  unfold checkCustomer, customer_errors.
  destruct (order_customer o) as [c|]; [|now rewrite app_nil_r].
  destruct (truthy_str (customer_id c)), (truthy_str (customer_email c)),
    (isValidEmail (customer_email c));
    cbn; rewrite <- ?app_assoc, ?app_nil_r; reflexivity.
Qed.

(** Validation of an order whose items are objects returns, and its error
    list holds the entries of every rule: no rule is skipped because an
    earlier one failed. *)
Lemma validation_complete (Date_parse : string -> number) (o : Order)
    (options : Options) :
  items_are_objects o ->
  exists v,
    performComprehensiveValidation Date_parse (Some o) options = Normal v
    /\ errors v
       = required_errors o ++ items_field_errors o ++ customer_errors o
    /\ isValid v = Nat.eqb (List.length (errors v)) 0.
Proof.
  intro O. unfold performComprehensiveValidation.
  rewrite checkRequiredFields_complete,
    (checkItemsField_complete _ _ O).
  cbn [bind ret Monad_completion]. rewrite checkCustomer_complete.
  eexists. split; [reflexivity|]. cbn [errors isValid].
  rewrite <- app_assoc. split; reflexivity.
Qed.

(** Validation returns only when the items are objects. *)
Lemma validation_returns (Date_parse : string -> number) (o : Order)
    (options : Options) (v : ValidationResult) :
  performComprehensiveValidation Date_parse (Some o) options = Normal v ->
  items_are_objects o.
Proof.
  unfold performComprehensiveValidation. intro E.
  destruct (checkItemsField o (checkRequiredFields o [])) as [errs|e] eqn:C;
    [|discriminate].
  eapply checkItemsField_returns; eassumption.
Qed.

(** *** Two invalid items *)

Lemma invalid_item_reported (index : nat) (it : Item) :
  invalid_item it ->
  exists entry, In entry (item_errors index it) /\ names_item index entry.
Proof.
  unfold invalid_item, item_errors, names_item. intros [H | [H | H]].
  - rewrite H. eexists. split; [left; reflexivity | auto].
  - rewrite H. eexists. split.
    + apply in_or_app. right. apply in_or_app. left. left. reflexivity.
    + auto.
  - rewrite H. eexists. split.
    + apply in_or_app. right. apply in_or_app. right. left. reflexivity.
    + auto.
Qed.

Lemma items_errors_at (entries : list (option Item)) :
  forall index k it entry,
  nth_error entries k = Some (Some it) ->
  In entry (item_errors (index + k) it) ->
  In entry (items_errors entries index).
Proof.
  induction entries as [|e rest IH]; intros index [|k] it entry N I;
    cbn in N; try discriminate.
  - injection N as N. subst e. rewrite Nat.add_0_r in I.
    cbn. apply in_or_app. now left.
  - assert (In entry (items_errors rest (S index))) as R.
    { eapply IH; [eassumption|]. now rewrite Nat.add_succ_comm. }
    destruct e; cbn; [apply in_or_app; now right | exact R].
Qed.

(** [performComprehensiveValidation] on an order with two invalid items:
    the error list holds an entry naming the one and a different entry
    naming the other. *)
Lemma two_invalid_items_two_entries (Date_parse : string -> number)
    (o : Order) (options : Options) (entries : list (option Item))
    (i j : nat) (a b : Item) :
  order_items o = Some (ItemsArray entries) ->
  objects entries ->
  nth_error entries i = Some (Some a) ->
  nth_error entries j = Some (Some b) ->
  i <> j ->
  invalid_item a -> invalid_item b ->
  exists v ea eb,
    performComprehensiveValidation Date_parse (Some o) options = Normal v
    /\ isValid v = false
    /\ In ea (errors v) /\ names_item i ea
    /\ In eb (errors v) /\ names_item j eb
    /\ ea <> eb.
Proof.
  intros I O A B D IA IB.
  assert (items_are_objects o) as OO.
  { intros l E. rewrite I in E. injection E as E. now subst l. }
  destruct (validation_complete Date_parse o options OO) as (v & V & E & G).
  destruct (invalid_item_reported i a IA) as (ea & Ia & Na).
  destruct (invalid_item_reported j b IB) as (eb & Ib & Nb).
  assert (items_field_errors o = items_errors entries 0) as F.
  { unfold items_field_errors. rewrite I.
    destruct entries; [destruct i; discriminate | reflexivity]. }
  assert (forall k it entry, nth_error entries k = Some (Some it) ->
            In entry (item_errors k it) -> In entry (errors v)) as R.
  { intros k it entry N M. rewrite E, F. apply in_or_app. right.
    apply in_or_app. left. eapply items_errors_at; eassumption. }
  exists v, ea, eb. repeat split; eauto.
  - rewrite G. destruct (errors v) as [|x l] eqn:L; [|reflexivity].
    exfalso. exact (R i a ea A Ia).
  - intro Q. subst eb. apply D. eapply names_item_inj; eassumption.
Qed.

(** C4.  Validation is to report every failing rule, so two invalid
    items give two item-level entries.  The refactored [validateOrder]
    returns at the first invalid item with the single entry
    ['Invalid item data'], which names no item; on the same order
    [performComprehensiveValidation] of the class reports both items. *)
Theorem validateOrder_stops_at_first_invalid_item :
  Refactored.validateOrder (Some Example.two_invalid_items)
    = Normal (Refactored.mkValidation false (Some "Invalid item data"))
  /\ performComprehensiveValidation Example.no_dates
       (Some Example.two_invalid_items) Example.options1
     = Normal (mkValidation false
                 ["Item 0 has invalid price"; "Item 1 has invalid quantity"]
                 []).
Proof. split; reflexivity. Qed.

(** *** Orders that pass validation *)

Lemma item_errors_nil (index : nat) (it : Item) :
  item_errors index it = [] -> valid_item it.
Proof.
  unfold item_errors, valid_item.
  destruct (truthy_str (item_id it)); [|discriminate].
  destruct (item_price it) as [|p]; [discriminate|].
  destruct (item_quantity it) as [|q];
    [destruct (orb _ _); discriminate|].
  destruct (orb (negb (truthy (Num p))) (Num p <= Num 0)) eqn:P;
    [discriminate|].
  destruct (orb (negb (truthy (Num q))) (Num q <= Num 0)) eqn:Q;
    [discriminate|].
  intros _. apply orb_false_elim in P as [_ P], Q as [_ Q].
  apply le_Num_false in P, Q. eauto 10.
Qed.

Lemma items_errors_nil (entries : list (option Item)) :
  forall index,
  objects entries -> items_errors entries index = [] -> valid_entries entries.
Proof.
  induction entries as [|[it|] rest IH]; intros index O E.
  - constructor.
  - cbn in E. apply app_eq_nil in E as [E1 E2]. inversion O; subst.
    constructor; [|eapply IH; eassumption].
    exists it. split; [reflexivity|]. eapply item_errors_nil; eassumption.
  - inversion O; subst. congruence.
Qed.

(** What passing validation tells about an order. *)
Lemma valid_order_shape (Date_parse : string -> number)
    (order : option Order) (options : Options) (v : ValidationResult) :
  performComprehensiveValidation Date_parse order options = Normal v ->
  isValid v = true ->
  exists o entries c,
    order = Some o
    /\ truthy_str (order_id o) = true
    /\ order_items o = Some (ItemsArray entries)
    /\ entries <> [] /\ valid_entries entries
    /\ order_customer o = Some c
    /\ truthy_str (customer_id c) = true
    /\ isValidEmail (customer_email c) = true.
Proof.
  intros V I. destruct order as [o|]; [|cbn in V; injection V as V; subst v;
    discriminate].
  pose proof (validation_returns _ _ _ _ V) as O.
  destruct (validation_complete Date_parse o options O) as (v' & V' & E & G).
  rewrite V in V'. injection V' as V'. subst v'.
  rewrite G in I. apply Nat.eqb_eq, length_zero_iff_nil in I.
  rewrite E in I. apply app_eq_nil in I as [R I].
  apply app_eq_nil in I as [F C].
  unfold required_errors in R. unfold customer_errors in C.
  unfold items_field_errors in F.
  destruct (truthy_str (order_id o)) eqn:TI; [|discriminate].
  destruct (order_items o) as [[entries|]|] eqn:EI; try discriminate.
  destruct (order_customer o) as [c|] eqn:EC; [|discriminate].
  destruct (truthy_str (customer_id c)) eqn:TC; [|discriminate].
  destruct (truthy_str (customer_email c)); [|discriminate].
  destruct (isValidEmail (customer_email c)) eqn:TE; [|discriminate].
  destruct entries as [|e rest]; [discriminate|].
  exists o, (e :: rest), c.
  repeat split; try reflexivity; try assumption; try discriminate.
  eapply items_errors_nil; [|exact F]. apply O. exact EI.
Qed.

End ValidationFacts.

(** ** Pricing and discounts *)

Module PricingFacts.

Import OrderProcessor Spec JsFacts Run ValidationFacts.

Local Open Scope js_scope.


(** *** Enrichment and pricing of a valid order *)

(** On valid entries the first [reduce] of [transformAndEnrichOrder]
    returns the sum of the quantities. *)
Lemma reduce_quantities (entries : list (option Item)) :
  valid_entries entries ->
  forall acc : Q,
  exists r,
    reduce (fun sum item =>
              (quantity <- property "quantity" item item_quantity ;;
               ret (sum + quantity))%monad)
      entries (Num acc) = Normal (Num r)
    /\ (r == acc + total_quantity entries)%Q.
Proof.
  induction 1 as [|e rest (it & E & _ & _ & q & Q & _) _ IH]; intro acc.
  - exists acc. split; [reflexivity|]. cbn. ring.
  - subst e. cbn [reduce property bind ret Monad_completion].
    rewrite Q. cbn [Js.add].
    destruct (IH (acc + q)%Q) as (r & R & H). exists r. split; [exact R|].
    rewrite H. cbn [total_quantity]. destruct it; cbn in Q |- *.
    rewrite Q. ring.
Qed.

(** On valid entries the [reduce] for the subtotal returns a number. *)
Lemma reduce_subtotal (entries : list (option Item)) :
  valid_entries entries ->
  forall acc : Q,
  exists r,
    reduce (fun sum item =>
              (price <- property "price" item item_price ;;
               quantity <- property "quantity" item item_quantity ;;
               ret (sum + price * quantity))%monad)
      entries (Num acc) = Normal (Num r).
Proof.
  induction 1 as [|e rest (it & E & _ & (p & P & _) & q & Q & _) _ IH];
    intro acc.
  - exists acc. reflexivity.
  - subst e. cbn [reduce property bind ret Monad_completion].
    rewrite P, Q. cbn [Js.add Js.mul]. apply IH.
Qed.

(** Enrichment of an order with valid entries: [totalItems] is the sum of
    the quantities and [isLargeOrder] compares it with 10. *)
Lemma transform_valid (o : Order) (options : Options) (date : Date)
    (entries : list (option Item)) :
  order_items o = Some (ItemsArray entries) ->
  valid_entries entries ->
  exists q s,
    value_at date (transformAndEnrichOrder o options)
    = Normal (mkProcessed o (toISOString date) options (Num q) (Num s)
                (mkOrderMetadata (List.length entries)
                   (Nat.ltb 1 (List.length entries)) (Num q > Num 10)
                   (determineCustomerTier (order_customer o)))
                NaN None NaN None)
    /\ (q == total_quantity entries)%Q.
Proof.
  intros I V.
  destruct (reduce_quantities entries V 0) as (q & Eq & Hq).
  destruct (reduce_subtotal entries V 0) as (s & Es).
  exists q, s. split; [|rewrite Hq; ring].
  unfold value_at, frozen, transformAndEnrichOrder, items_array, new_Date, lift.
  rewrite I. cbn [bind ret Monad_method Monad_completion fst this now reads].
  cbn [bind ret Monad_completion] in Eq, Es.
  rewrite Eq, Es. reflexivity.
Qed.

(** The sum of the adjustments, when it returns, is a number. *)
Lemma reduce_adjustments (adjs : list (option adjustment)) :
  forall (acc : Q) (x : number),
  reduce (fun sum adj =>
            (amount <- property "amount" adj adj_amount ;;
             ret (sum + Num amount))%monad)
    adjs (Num acc) = Normal x ->
  exists r, x = Num r.
Proof.
  induction adjs as [|[a|] rest IH]; intros acc x E.
  - injection E as E. eauto.
  - cbn [reduce property bind ret Monad_completion Js.add] in E. eauto.
  - discriminate.
Qed.

Lemma or_else_number (x : number) (d : Q) : exists r, (x || Num d) = Num r.
Proof.
  unfold or_else. destruct x as [|q]; cbn; [eauto|].
  destruct (negb (Qeq_bool q 0)); eauto.
Qed.

(** Pricing a numeric subtotal gives a numeric [finalPrice]; the fee,
    unless [applyFees] is [false], is 5.00 for a large order and 2.50
    otherwise. *)
Lemma pricing_number (po : processedOrder) (options : Options) (s : Q)
    (pr : pricingResult) :
  subtotal po = Num s ->
  calculateComplexPricing po options = Normal pr ->
  (exists p, pr_finalPrice pr = Num p)
  /\ bd_subtotal (pr_breakdown pr) = Num s
  /\ (applyFees options <> Some false ->
      bd_fees (pr_breakdown pr)
      = if isLargeOrder (metadata po) then Num 5.00 else Num 2.50).
Proof.
  intros S E. unfold calculateComplexPricing in E. rewrite S in E.
  destruct (or_else_number (taxRate options) 0.1) as (t & T).
  rewrite T in E. cbn [Js.mul Js.add] in E.
  destruct (applyFees options) as [[|]|];
    destruct (isLargeOrder (metadata po));
    destruct (adjustments options) as [adjs|];
    cbn [bind ret Monad_completion Js.add] in E;
    try (destruct (reduce _ adjs (Num 0)) as [x|] eqn:R; [|discriminate];
         apply reduce_adjustments in R as (r & ->));
    injection E as E; subst pr; cbn;
    (split; [eauto | split; [reflexivity | intro; congruence]]).
Qed.

(** The discount stack turns a numeric price into a numeric price of at
    least 0. *)
Lemma discounts_number (po : processedOrder) (options : Options)
    (date : Date) (p : Q) :
  finalPrice po = Num p ->
  exists dr r,
    value_at date (applyMultiLevelDiscounts po options) = Normal dr
    /\ dr_discountedPrice dr = Num r /\ (0 <= r)%Q.
Proof.
  intro F. unfold value_at, frozen, applyMultiLevelDiscounts, new_Date.
  rewrite F. unfold calculatePromotionalDiscount, get.
  destruct (customerTier (metadata po));
    destruct (isLargeOrder (metadata po));
    destruct (promotionalCode options) as [code|];
    try destruct (truthy_str (Some code));
    try destruct (lookup codes code) as [rate|];
    try destruct (inherited code);
    cbn [member_truthy member_number];
    try destruct (truthy (Num rate));
    cbn [Js.mul Js.sub fst snd];
    try match goal with
        | |- context [if (?a > ?b)%js then _ else _] =>
            let G := fresh "G" in
            destruct (a > b)%js eqn:G;
            try (vm_compute in G; discriminate G)
        end;
    cbn [bind ret Monad_method fst this now reads];
    destruct (Nat.eqb (getMonth date) 11);
    cbn [Js.mul Js.sub fst];
    match goal with
    | |- context [Js.max (Num 0) (Num ?q)] =>
        destruct (max_zero q) as (r & M & H); rewrite M
    end;
    (eexists; exists r; split;
     [reflexivity | split; [reflexivity | exact H]]).
Qed.

(** *** The refactored functions on a valid order *)

Lemma refactored_checkItems_valid (entries : list (option Item)) :
  Refactored.checkItems entries = Normal None -> valid_entries entries.
Proof.
  induction entries as [|[it|] rest IH]; intro E.
  - constructor.
  - cbn [Refactored.checkItems property bind ret Monad_completion] in E.
    destruct (truthy_str (item_id it)) eqn:I; [|discriminate].
    destruct (item_price it) as [|p] eqn:P; [discriminate|].
    destruct (truthy (Num p)); [|discriminate].
    destruct (Num p <= Num 0) eqn:P0; [discriminate|].
    destruct (item_quantity it) as [|q] eqn:Q; [discriminate|].
    destruct (truthy (Num q)); [|discriminate].
    destruct (Num q <= Num 0) eqn:Q0; [discriminate|].
    cbn [negb orb] in E. apply le_Num_false in P0, Q0.
    constructor; [|exact (IH E)].
    exists it. split; [reflexivity|]. unfold valid_item. eauto 10.
  - discriminate.
Qed.

Lemma refactored_checkItems_failure (entries : list (option Item))
    (f : Refactored.validation) :
  Refactored.checkItems entries = Normal (Some f) ->
  Refactored.valid f = false.
Proof.
  induction entries as [|[it|] rest IH]; cbn; try discriminate.
  destruct (orb _ _); [|exact IH].
  intro C. injection C as C. now subst f.
Qed.

Lemma validateOrder_shape (order : option Order) (v : Refactored.validation) :
  Refactored.validateOrder order = Normal v ->
  Refactored.valid v = true ->
  exists o e rest,
    order = Some o
    /\ order_items o = Some (ItemsArray (e :: rest))
    /\ valid_entries (e :: rest).
Proof.
  unfold Refactored.validateOrder. intros E V.
  destruct order as [o|]; [|injection E as E; subst v; discriminate].
  destruct (truthy_str (order_id o));
    [|injection E as E; subst v; discriminate].
  cbn [negb] in E.
  destruct (order_items o) as [[[|e rest]|]|] eqn:I;
    try (injection E as E; subst v; discriminate); try discriminate.
  destruct (Refactored.checkItems (e :: rest)) as [[f|]|] eqn:C;
    cbn [bind ret Monad_completion] in E; try discriminate.
  - apply refactored_checkItems_failure in C. injection E as E. subst f.
    congruence.
  - exists o, e, rest. split; [reflexivity|]. split; [exact I|].
    now apply refactored_checkItems_valid.
Qed.

Lemma calculateFee_number (x : number) :
  exists f, Refactored.calculateFee x = Num f.
Proof.
  unfold Refactored.calculateFee.
  destruct (_ > _)%js; eexists; reflexivity.
Qed.

Lemma applyTierDiscount_number (t : Q) (tier : CustomerTier) :
  exists d, Refactored.applyTierDiscount (Num t) tier = Num d.
Proof. destruct tier; eexists; reflexivity. Qed.

Lemma applyVolumeDiscount_number (t : Q) (x : number) :
  exists d, Refactored.applyVolumeDiscount (Num t) x = Num d.
Proof.
  unfold Refactored.applyVolumeDiscount.
  destruct (_ > _)%js; eexists; reflexivity.
Qed.

Lemma applyPromoDiscount_number (t : Q) (code : string) :
  inherited code = false ->
  exists d, Refactored.applyPromoDiscount (Num t) code = Num d.
Proof.
  unfold Refactored.applyPromoDiscount, get. intro H. rewrite H.
  destruct (lookup Refactored.PROMO_CODES code) as [rate|];
    cbn [member_truthy member_number].
  - destruct (truthy (Num rate)); eexists; reflexivity.
  - eexists; reflexivity.
Qed.

(** A promotional code that names a property of [Object.prototype] makes
    the refactored discount [NaN]. *)
Lemma applyPromoDiscount_inherited (price : number) (code : string) :
  inherited code = true ->
  Refactored.applyPromoDiscount price code = NaN.
Proof.
  unfold inherited, Object_prototype. cbn [existsb]. intro H.
  repeat match type of H with
  | (_ || _)%bool = true => apply orb_prop in H; destruct H as [H|H]
  end;
  try discriminate H;
  apply String.eqb_eq in H; subst code; destruct price; reflexivity.
Qed.

Lemma applySeasonalDiscount_number (date : Date) (t : Q) :
  exists d, Refactored.applySeasonalDiscount date (Num t) = Num d.
Proof.
  unfold Refactored.applySeasonalDiscount.
  destruct (Nat.eqb _ _); eexists; reflexivity.
Qed.

Lemma calculateFinalPrice_number (date : Date) (o : Order)
    (promoCode : option string) (e : option Item)
    (rest : list (option Item)) :
  order_items o = Some (ItemsArray (e :: rest)) ->
  valid_entries (e :: rest) ->
  (forall code, promoCode = Some code -> inherited code = false) ->
  exists pr r,
    Refactored.calculateFinalPrice date o promoCode = Normal pr
    /\ Refactored.finalPrice pr = Num r /\ (0 <= r)%Q.
Proof.
  intros I V C.
  destruct (reduce_subtotal _ V 0) as (s & S).
  cbn [bind ret Monad_completion] in S.
  inversion V as [|x l (it & X & _ & (p & P & P0) & _) _]; subst.
  unfold Refactored.calculateFinalPrice, Refactored.calculateSubtotal,
    Refactored.first_price, Refactored.items_length.
  rewrite I. cbn [bind ret Monad_completion property].
  rewrite S. cbn [bind ret Monad_completion]. rewrite P.
  destruct (calculateFee_number (Num s / Num p)) as (f & ->).
  unfold Refactored.calculateTotal, Refactored.calculateTax,
    Refactored.TAX_RATE.
  cbn [Js.add Js.mul].
  match goal with
  | |- context [Refactored.applyTierDiscount (Num ?t) ?tier] =>
      destruct (applyTierDiscount_number t tier) as (d1 & ->);
      destruct (applyVolumeDiscount_number t
                  (of_nat (List.length (Some it :: rest)))) as (d2 & ->);
      destruct (applySeasonalDiscount_number date t) as (d4 & ->);
      assert (exists d3,
        match promoCode with
        | Some code =>
            if truthy_str (Some code)
            then Refactored.applyPromoDiscount (Num t) code else Num 0
        | None => Num 0
        end = Num d3) as (d3 & ->)
  end.
  { destruct promoCode as [code|]; [|eexists; reflexivity].
    destruct (truthy_str (Some code)); [|eexists; reflexivity].
    apply applyPromoDiscount_number, C. reflexivity. }
  cbn [Js.add Js.sub].
  match goal with
  | |- context [Js.max (Num 0) (Num ?q)] =>
      destruct (max_zero q) as (r & M & H); rewrite M
  end.
  eexists; exists r. split; [reflexivity | split; [reflexivity | exact H]].
Qed.

Lemma reduce_adjustments_returns (adjs : list (option adjustment)) :
  Forall (fun a => a <> None) adjs ->
  forall acc : Q,
  exists r,
    reduce (fun sum adj =>
              (amount <- property "amount" adj adj_amount ;;
               ret (sum + Num amount))%monad)
      adjs (Num acc) = Normal (Num r).
Proof.
  induction 1 as [|[a|] rest A _ IH]; intro acc.
  - exists acc. reflexivity.
  - cbn [reduce property bind ret Monad_completion Js.add]. apply IH.
  - congruence.
Qed.

(** Pricing returns unless [options.adjustments] holds a [null]. *)
Lemma pricing_returns (po : processedOrder) (options : Options) :
  adjustments_are_objects options ->
  exists pr, calculateComplexPricing po options = Normal pr.
Proof.
  unfold adjustments_are_objects, calculateComplexPricing. intro A.
  destruct (match applyFees options with
            | Some false => _ | _ => _ end) as [fees basePrice].
  destruct (adjustments options) as [adjs|]; [|eexists; reflexivity].
  destruct (reduce_adjustments_returns adjs (A adjs eq_refl) 0) as (r & R).
  cbn [bind ret Monad_completion] in R |- *. rewrite R.
  eexists; reflexivity.
Qed.

(** In the class, for an order that passes validation the final price
    is a number that is not negative, whatever the options and the dates
    read: enrichment returns, pricing returns unless an adjustment is
    [null], and every result of pricing leads [applyMultiLevelDiscounts] to
    a [discountedPrice] of at least 0. *)
Lemma class_final_price_never_negative (Date_parse : string -> number)
    (order : option Order) (options : Options) (enriched discounted : Date)
    (v : ValidationResult) :
  performComprehensiveValidation Date_parse order options = Normal v ->
  isValid v = true ->
  exists po,
    value_at enriched (transformAndEnrichOrder (spread order) options)
      = Normal po
    /\ (adjustments_are_objects options ->
        exists pr, calculateComplexPricing po options = Normal pr)
    /\ forall pr,
         calculateComplexPricing po options = Normal pr ->
         exists dr r,
           value_at discounted
             (applyMultiLevelDiscounts (set_pricing po pr) options)
             = Normal dr
           /\ dr_discountedPrice dr = Num r /\ (0 <= r)%Q.
Proof.
  intros V I.
  destruct (valid_order_shape _ _ _ _ V I)
    as (o & entries & c & -> & _ & It & _ & VE & _).
  destruct (transform_valid o options enriched entries It VE)
    as (q & s & T & _).
  cbn [spread]. rewrite T. eexists. split; [reflexivity|].
  split; [apply pricing_returns|].
  intros pr P.
  assert (exists p, pr_finalPrice pr = Num p) as (p & F)
    by (eapply pricing_number; [|exact P]; reflexivity).
  apply discounts_number with (p := p). exact F.
Qed.

(** In the refactored functions the same holds when the promotional code
    names no property of [Object.prototype]. *)
Lemma refactored_final_price_never_negative (date : Date)
    (order : option Order) (promoCode : option string)
    (v : Refactored.validation) :
  Refactored.validateOrder order = Normal v ->
  Refactored.valid v = true ->
  (forall code, promoCode = Some code -> inherited code = false) ->
  exists pr r,
    Refactored.calculateFinalPrice date (spread order) promoCode = Normal pr
    /\ Refactored.finalPrice pr = Num r /\ (0 <= r)%Q.
Proof.
  intros V I C.
  destruct (validateOrder_shape _ _ V I) as (o & e & rest & -> & It & VE).
  cbn [spread]. eapply calculateFinalPrice_number; eassumption.
Qed.

(** The codes that name a property of [Object.prototype] are truthy. *)
Lemma inherited_truthy (code : string) :
  inherited code = true -> truthy_str (Some code) = true.
Proof.
  destruct code; [discriminate | reflexivity].
Qed.

(** With such a code the refactored [calculateFinalPrice] returns a
    [finalPrice] of [NaN] for every order that passes [validateOrder]. *)
Lemma refactored_final_price_NaN (date : Date) (order : option Order)
    (code : string) (v : Refactored.validation) :
  Refactored.validateOrder order = Normal v ->
  Refactored.valid v = true ->
  inherited code = true ->
  exists pr,
    Refactored.calculateFinalPrice date (spread order) (Some code)
      = Normal pr
    /\ Refactored.finalPrice pr = NaN.
Proof.
  intros V I C.
  destruct (validateOrder_shape _ _ V I) as (o & e & rest & -> & It & VE).
  cbn [spread].
  destruct (reduce_subtotal _ VE 0) as (s & S).
  cbn [bind ret Monad_completion] in S.
  inversion VE as [|x l (it & X & _ & (p & P & P0) & _) _]; subst.
  unfold Refactored.calculateFinalPrice, Refactored.calculateSubtotal,
    Refactored.first_price, Refactored.items_length.
  rewrite It. cbn [bind ret Monad_completion property].
  rewrite S. cbn [bind ret Monad_completion]. rewrite P.
  rewrite (inherited_truthy code C), (applyPromoDiscount_inherited _ code C).
  eexists. split; [reflexivity|]. cbn [Refactored.finalPrice].
  match goal with
  | |- Js.max _ (_ - (?a + ?b + NaN + ?c)) = _ =>
      destruct a, b, c; cbn [Js.add]
  end;
  match goal with
  | |- Js.max _ (?t - NaN) = _ => destruct t; reflexivity
  end.
Qed.

(** C8.  The final price is to be at least 0 for every valid order and
    every promotional code.  With the code ['constructor'], a property every
    object literal inherits, the refactored [applyPromoDiscount] multiplies
    the total by a function: the promotional discount, the total discount
    and [Math.max(0, ...)] of them are [NaN], which is not at least 0, and
    [processOrder] accepts the order at that price.  The class, given the
    same code, skips the discount ([promoDiscount > 0] is false) and ends
    at 22.05. *)
Theorem refactored_final_price_NaN_for_inherited_code :
  (exists pr,
     Refactored.processOrder Example.january (Some Example.order1)
       (Some "constructor")
     = Normal (Refactored.mkResult true None
                 (Some (Refactored.mkSummary (Some "123") (Some "cust1") 1
                          pr)))
     /\ Refactored.ds_promotional (Refactored.pricing_discounts pr) = NaN
     /\ Refactored.finalPrice pr = NaN
     /\ (Refactored.finalPrice pr >= Num 0) = false)
  /\ (exists po,
       fst (processOrders_callback Example.no_dates
              Example.options_constructor (Some Example.order1) 0
              (Example.fresh Example.january))
       = Normal (Some po)
       /\ discountedPrice po =~ Num 22.05
       /\ (discountedPrice po >= Num 0) = true).
Proof.
  split.
  - eexists. split; [vm_compute; reflexivity|]. repeat split.
  - eexists. split; [vm_compute; reflexivity|]. split; reflexivity.
Qed.

(** An order the callback accepts carries a [discountedPrice] of at
    least 0. *)
Lemma accepted_price_nonnegative (Date_parse : string -> number)
    (order : option Order) (options : Options) (index : nat)
    (w w' : world) (po : processedOrder) :
  processOrders_try Date_parse order options index w
    = (Normal (Some po), w') ->
  exists r, discountedPrice po = Num r /\ (0 <= r)%Q.
Proof.
  rewrite processOrders_try_unfold.
  destruct (performComprehensiveValidation Date_parse order options)
    as [v|e] eqn:V; [|discriminate].
  destruct (isValid v) eqn:I; cbn [negb]; [|discriminate].
  destruct (class_final_price_never_negative Date_parse order options
              (now w (reads w)) (now w (S (reads w))) v V I)
    as (po0 & T & _ & D).
  rewrite T.
  destruct (calculateComplexPricing po0 options) as [pr|e] eqn:P;
    [|discriminate].
  destruct (D pr eq_refl) as (dr & r & E & R & H). rewrite E. cbv zeta.
  destruct (shouldCompleteOrder _ _) as [[|]|]; try discriminate.
  intro Q. injection Q as Q _. subst po. exists r. split; [exact R|exact H].
Qed.


(** *** The discount stack of the class

    [applyMultiLevelDiscounts] is the sequential stack of section 4.3: the
    entries it records, in their order, and the price it returns are those
    of [sequential] on the rules that apply, each amount being a rate times
    the total left by the rules before it.  It records a volume discount
    exactly for a large order. *)
Lemma discounts_are_sequential (po : processedOrder) (options : Options)
    (date : Date) :
  let rules :=
    applicable (customerTier (metadata po)) (isLargeOrder (metadata po))
      (promotionalCode options) (getMonth date) in
  exists dr,
    value_at date (applyMultiLevelDiscounts po options) = Normal dr
    /\ map (fun d => (d_type d, d_amount d)) (dr_discounts dr)
       = fst (sequential rules (finalPrice po))
    /\ dr_discountedPrice dr
       = Js.max (Num 0) (snd (sequential rules (finalPrice po)))
    /\ records volume (dr_discounts dr) = isLargeOrder (metadata po).
Proof.
  unfold value_at, frozen, applyMultiLevelDiscounts, new_Date, applicable,
    calculatePromotionalDiscount, get.
  destruct (customerTier (metadata po));
    destruct (isLargeOrder (metadata po));
    destruct (promotionalCode options) as [code|];
    try destruct (truthy_str (Some code));
    try destruct (lookup codes code) as [rate|];
    try destruct (inherited code);
    cbn [member_truthy member_number];
    try destruct (truthy (Num rate)) eqn:TR;
    rewrite ?mul_NaN_r;
    cbn [app sequential andb negb fst snd];
    try match goal with
        | |- context [if (?a > ?b)%js then _ else _] =>
            let G := fresh "G" in
            destruct (a > b)%js eqn:G;
            try (vm_compute in G; discriminate G)
        end;
    cbn [bind ret Monad_method fst this now reads negb];
    destruct (Nat.eqb (getMonth date) 11);
    cbn [app sequential andb negb fst snd];
    (eexists; split; [reflexivity|]; split; [|split]; reflexivity).
Qed.

(** *** The basis of the fee and of the volume discount in the class *)

Lemma large_by_total_quantity (q : Q) (entries : list (option Item)) :
  (q == total_quantity entries)%Q ->
  ((Num q > Num 10) = true <-> (10 < total_quantity entries)%Q).
Proof. intro E. rewrite gt_Num, E. reflexivity. Qed.

(** In the class, for an order that passes validation, [isLargeOrder]
    holds exactly when the sum of the quantities is above 10; that flag
    selects the fee (5.00 or 2.50, unless fees are switched off) and decides
    whether a volume discount is recorded. *)
Lemma fee_and_volume_by_total_quantity (Date_parse : string -> number)
    (order : option Order) (options : Options) (v : ValidationResult)
    (enriched discounted : Date) :
  performComprehensiveValidation Date_parse order options = Normal v ->
  isValid v = true ->
  exists o entries po,
    order = Some o
    /\ order_items o = Some (ItemsArray entries)
    /\ value_at enriched (transformAndEnrichOrder (spread order) options)
       = Normal po
    /\ (isLargeOrder (metadata po) = true
        <-> (10 < total_quantity entries)%Q)
    /\ forall pr,
         calculateComplexPricing po options = Normal pr ->
         (applyFees options <> Some false ->
          bd_fees (pr_breakdown pr)
          = if isLargeOrder (metadata po) then Num 5.00 else Num 2.50)
         /\ exists dr,
              value_at discounted
                (applyMultiLevelDiscounts (set_pricing po pr) options)
                = Normal dr
              /\ records volume (dr_discounts dr)
                 = isLargeOrder (metadata po).
Proof.
  intros V I.
  destruct (valid_order_shape _ _ _ _ V I)
    as (o & entries & c & -> & _ & It & _ & VE & _).
  destruct (transform_valid o options enriched entries It VE)
    as (q & s & T & Q).
  exists o, entries. eexists. split; [reflexivity|]. split; [exact It|].
  split; [exact T|]. cbn [metadata isLargeOrder].
  split; [apply large_by_total_quantity, Q|].
  intros pr P. split.
  - intro F. pose proof P as P'.
    eapply pricing_number in P' as (_ & _ & G); [|reflexivity]. exact (G F).
  - match type of P with
    | calculateComplexPricing ?po _ = _ =>
        destruct (discounts_are_sequential (set_pricing po pr) options
                    discounted) as (dr & D & _ & _ & R)
    end.
    exists dr. split; [exact D | exact R].
Qed.

(** *** The date matters through "is it December" only *)

Lemma processOrder_december_only (d1 d2 : Date) (order : option Order)
    (promoCode : option string) :
  Nat.eqb (getMonth d1) 11 = Nat.eqb (getMonth d2) 11 ->
  Refactored.processOrder d1 order promoCode
  = Refactored.processOrder d2 order promoCode.
Proof.
  intro H.
  unfold Refactored.processOrder, Refactored.calculateFinalPrice,
    Refactored.applySeasonalDiscount.
  rewrite H. reflexivity.
Qed.

Lemma applyMultiLevelDiscounts_december_only (d1 d2 : Date)
    (po : processedOrder) (options : Options) :
  Nat.eqb (getMonth d1) 11 = Nat.eqb (getMonth d2) 11 ->
  value_at d1 (applyMultiLevelDiscounts po options)
  = value_at d2 (applyMultiLevelDiscounts po options).
Proof.
  intro H. unfold value_at, frozen, applyMultiLevelDiscounts, new_Date.
  repeat match goal with
  | |- context [let '(a, b) := ?p in _] => destruct p
  end.
  cbn [bind ret Monad_method fst this now reads].
  rewrite H. destruct (Nat.eqb (getMonth d2) 11); reflexivity.
Qed.

(** *** Example 1 *)

(** C1.  Example 1 expects, for order "123" with promotional code SAVE10
    outside December: subtotal 20, tax 2, fee 2.5, total 24.5, tier discount
    2.45, volume discount 0, promotional discount 2.205 (10% of 22.05) and a
    final price of 19.845.  The refactored [processOrder] accepts the order
    with the same subtotal, tax, fee, total, tier and volume discount, but
    takes the promotional discount from the total: 2.45, not 2.205, and
    ends at 19.6, not 19.845. *)
Theorem refactored_example1 (date : Date) :
  getMonth date <> 11%nat ->
  exists pr,
    Refactored.processOrder date (Some Example.order1) (Some "SAVE10")
    = Normal (Refactored.mkResult true None
                (Some (Refactored.mkSummary (Some "123") (Some "cust1") 1
                         pr)))
    /\ Refactored.subtotal pr =~ Num 20
    /\ Refactored.tax pr =~ Num 2
    /\ Refactored.fee pr =~ Num 2.5
    /\ Refactored.total pr =~ Num 24.5
    /\ Refactored.ds_tier (Refactored.pricing_discounts pr) =~ Num 2.45
    /\ Refactored.ds_volume (Refactored.pricing_discounts pr) =~ Num 0
    /\ Refactored.ds_promotional (Refactored.pricing_discounts pr)
       =~ Num 2.45
    /\ Refactored.ds_seasonal (Refactored.pricing_discounts pr) =~ Num 0
    /\ Refactored.finalPrice pr =~ Num 19.6
    /\ ~ Refactored.ds_promotional (Refactored.pricing_discounts pr)
         =~ Num 2.205
    /\ ~ Refactored.finalPrice pr =~ Num 19.845.
Proof.
  intro H.
  rewrite (processOrder_december_only date Example.january)
    by (apply Nat.eqb_neq in H; rewrite H; reflexivity).
  eexists. split; [vm_compute; reflexivity|].
  repeat split; try (intro; discriminate); vm_compute; reflexivity.
Qed.

Lemma refactored_example1_witness :
  getMonth Example.january <> 11%nat
  /\ exists pr,
    Refactored.processOrder Example.january (Some Example.order1)
      (Some "SAVE10")
    = Normal (Refactored.mkResult true None
                (Some (Refactored.mkSummary (Some "123") (Some "cust1") 1
                         pr)))
    /\ Refactored.finalPrice pr =~ Num 19.6.
Proof.
  assert (getMonth Example.january <> 11%nat) as H by (cbn; lia).
  split; [exact H|].
  destruct (refactored_example1 Example.january H)
    as (pr & E & _ & _ & _ & _ & _ & _ & _ & _ & F & _).
  exists pr. split; [exact E | exact F].
Defined.


(** The class on Example 1, on any processor and any clock that does
    not read December: the callback accepts the order with exactly the
    figures of the example. *)
Lemma class_example1 (Date_parse : string -> number) (index : nat)
    (w : world) :
  getMonth (now w (S (reads w))) <> 11%nat ->
  exists po bd tierDiscount promoDiscount,
    processOrders_callback Date_parse Example.options1
      (Some Example.order1) index w
    = (Normal (Some po), put (record_success po (this w)) (tick (tick w)))
    /\ pricingBreakdown po = Some bd
    /\ bd_subtotal bd =~ Num 20
    /\ bd_taxes bd =~ Num 2
    /\ bd_fees bd =~ Num 2.5
    /\ finalPrice po =~ Num 24.5
    /\ appliedDiscounts po = Some [tierDiscount; promoDiscount]
    /\ d_type tierDiscount = tier
    /\ d_amount tierDiscount =~ Num 2.45
    /\ d_type promoDiscount = promotional
    /\ d_code promoDiscount = Some "SAVE10"
    /\ d_amount promoDiscount =~ Num 2.205
    /\ discountedPrice po =~ Num 19.845.
Proof.
  intro H. apply Nat.eqb_neq in H.
  unfold processOrders_callback, try_catch.
  rewrite processOrders_try_unfold.
  change (performComprehensiveValidation Date_parse (Some Example.order1)
            Example.options1) with (Normal (mkValidation true [] [])).
  cbn [isValid negb spread].
  eassert (value_at (now w (reads w))
             (transformAndEnrichOrder Example.order1 Example.options1)
           = Normal _) as T by (vm_compute; reflexivity).
  rewrite T. clear T.
  match goal with
  | |- context [calculateComplexPricing ?po ?o] =>
      eassert (calculateComplexPricing po o = Normal _) as P
        by (vm_compute; reflexivity);
      rewrite P; clear P
  end.
  rewrite (applyMultiLevelDiscounts_december_only _ Example.january)
    by (rewrite H; reflexivity).
  match goal with
  | |- context [value_at ?d ?m] =>
      eassert (value_at d m = Normal _) as D by (vm_compute; reflexivity);
      rewrite D; clear D
  end.
  cbv zeta.
  match goal with
  | |- context [shouldCompleteOrder ?po ?o] =>
      change (shouldCompleteOrder po o) with (@Normal bool true)
  end.
  cbv iota beta.
  eexists; eexists; eexists; eexists. split; [reflexivity|].
  repeat split; vm_compute; reflexivity.
Qed.

(** C2.  Each discount is to be a percentage of the total left by the
    discounts before it.  In the refactored [calculateFinalPrice] every
    discount is computed from the pre-discount [total], and their sum is
    subtracted at the end; on Example 1 the promotional discount is 10% of
    24.5 and not 10% of the 22.05 left after the tier discount, and the
    final price is not that of the sequential stack. *)
Theorem calculateFinalPrice_discounts_on_total :
  (forall (date : Date) (o : Order) (promoCode : option string),
     match Refactored.calculateFinalPrice date o promoCode with
     | Normal pr =>
         let ds := Refactored.pricing_discounts pr in
         let total := Refactored.total pr in
         Refactored.ds_tier ds
         = Refactored.applyTierDiscount total
             (Refactored.getCustomerTier (order_customer o))
         /\ Refactored.ds_volume ds
            = Refactored.applyVolumeDiscount total
                (of_nat (List.length (entries_of o)))
         /\ Refactored.ds_promotional ds
            = match promoCode with
              | Some code =>
                  if truthy_str (Some code)
                  then Refactored.applyPromoDiscount total code
                  else Num 0
              | None => Num 0
              end
         /\ Refactored.ds_seasonal ds
            = Refactored.applySeasonalDiscount date total
         /\ Refactored.finalPrice pr
            = Js.max (Num 0)
                (total - (Refactored.ds_tier ds + Refactored.ds_volume ds
                          + Refactored.ds_promotional ds
                          + Refactored.ds_seasonal ds))
     | Throw _ => True
     end)
  /\ exists pr,
       Refactored.calculateFinalPrice Example.january Example.order1
         (Some "SAVE10") = Normal pr
       /\ Refactored.total pr =~ Num 24.5
       /\ Refactored.ds_tier (Refactored.pricing_discounts pr) =~ Num 2.45
       /\ Refactored.ds_promotional (Refactored.pricing_discounts pr)
          =~ Refactored.total pr * Num 0.1
       /\ ~ Refactored.ds_promotional (Refactored.pricing_discounts pr)
            =~ (Refactored.total pr
                 - Refactored.ds_tier (Refactored.pricing_discounts pr))
                * Num 0.1
       /\ ~ Refactored.finalPrice pr
            =~ snd (sequential
                       [(tier, 0.1%Q, false); (promotional, 0.1%Q, true)]
                       (Refactored.total pr)).
Proof.
  split.
  - intros date o promoCode.
    unfold Refactored.calculateFinalPrice, Refactored.calculateSubtotal,
      Refactored.first_price, Refactored.items_length, entries_of.
    destruct (order_items o) as [[entries|]|]; cbn [bind Monad_completion];
      try exact I.
    destruct (reduce _ entries (Num 0)) as [s|]; [|exact I].
    destruct entries as [|e rest]; [exact I|].
    destruct (property "price" e item_price) as [p|]; [|exact I].
    cbn [bind ret Monad_completion Refactored.pricing_discounts
           Refactored.total Refactored.ds_tier Refactored.ds_volume
           Refactored.ds_promotional Refactored.ds_seasonal
           Refactored.finalPrice].
    repeat split; reflexivity.
  - eexists. split; [vm_compute; reflexivity|].
    repeat split; try (intro; discriminate); vm_compute; reflexivity.
Qed.

(** C3.  The fee is to be 5.00 exactly when the sum of the quantities is
    above 10, and the volume discount is to be decided on the same basis.
    The refactored [calculateFinalPrice] decides the fee on
    [subtotal / items[0].price] and the volume discount on the number of
    line items: an order of two units (prices 1 and 100) pays the fee of
    5.00, and an order of eleven units in one line pays the fee of 5.00 yet
    gets no volume discount.  Both orders pass [validateOrder]. *)
Theorem calculateFinalPrice_large_order_basis :
  (* two line items, total quantity 2 *)
  (Refactored.validateOrder (Some Example.cheap_first)
     = Normal (Refactored.mkValidation true None)
   /\ (total_quantity (entries_of Example.cheap_first) == 2)%Q
   /\ exists pr,
        Refactored.calculateFinalPrice Example.january Example.cheap_first
          None = Normal pr
        /\ Refactored.fee pr = Num 5.00
        /\ Refactored.ds_volume (Refactored.pricing_discounts pr) = Num 0)
  (* one line item, total quantity 11 *)
  /\ (Refactored.validateOrder (Some Example.eleven_of_one)
       = Normal (Refactored.mkValidation true None)
     /\ (total_quantity (entries_of Example.eleven_of_one) == 11)%Q
     /\ exists pr,
          Refactored.calculateFinalPrice Example.january
            Example.eleven_of_one None = Normal pr
          /\ Refactored.fee pr = Num 5.00
          /\ Refactored.ds_volume (Refactored.pricing_discounts pr) = Num 0).
Proof.
  repeat split; try reflexivity;
    (eexists; split; [vm_compute; reflexivity|]; split; reflexivity).
Qed.

(** The class on the same two orders: fee 2.50 and no volume discount
    for the two units, fee 5.00 and a volume discount for the eleven. *)
Example class_large_order_basis :
  (exists po pr dr,
     value_at Example.january
       (transformAndEnrichOrder Example.cheap_first Example.options1)
       = Normal po
     /\ calculateComplexPricing po Example.options1 = Normal pr
     /\ value_at Example.january
          (applyMultiLevelDiscounts (set_pricing po pr) Example.options1)
          = Normal dr
     /\ bd_fees (pr_breakdown pr) = Num 2.50
     /\ records volume (dr_discounts dr) = false)
  /\ (exists po pr dr,
       value_at Example.january
         (transformAndEnrichOrder Example.eleven_of_one Example.options1)
         = Normal po
       /\ calculateComplexPricing po Example.options1 = Normal pr
       /\ value_at Example.january
            (applyMultiLevelDiscounts (set_pricing po pr) Example.options1)
            = Normal dr
       /\ bd_fees (pr_breakdown pr) = Num 5.00
       /\ records volume (dr_discounts dr) = true).
Proof.
  split; (eexists; eexists; eexists;
    split; [vm_compute; reflexivity|];
    split; [vm_compute; reflexivity|];
    split; [vm_compute; reflexivity|];
    split; reflexivity).
Qed.


(** *** Tier before volume, or volume before tier, in exact arithmetic *)

Lemma max_same (a b : Q) :
  (a == b)%Q -> Js.max (Num 0) (Num a) =~ Js.max (Num 0) (Num b).
Proof.
  intro E. unfold Js.max. rewrite E.
  destruct (Qle_bool 0 b); cbn; [exact E | reflexivity].
Qed.

Lemma gt_same (a b : Q) : (a == b)%Q -> (Num a > Num 0) = (Num b > Num 0).
Proof. intro E. unfold Js.gt, Js.lt. now rewrite E. Qed.

Lemma tier_then_volume (p : Q) :
  (p - p * 0.1 - (p - p * 0.1) * 0.05 == p - p * 0.05 - (p - p * 0.05) * 0.1)%Q.
Proof. ring. Qed.

(** Over the rationals the stack with tier before volume and the stack
    with volume before tier end at the same price, whatever the order, the
    options and the date: [p * 0.9 * 0.95 = p * 0.95 * 0.9].  Where the two
    differ in the source ([RoundingFacts]), they differ by rounding. *)
Lemma final_price_same (po : processedOrder) (options : Options)
    (date : Date) :
  exists r1 r2,
    value_at date (applyMultiLevelDiscounts po options) = Normal r1
    /\ value_at date (applyVolumeThenTier po options) = Normal r2
    /\ dr_discountedPrice r1 =~ dr_discountedPrice r2.
Proof.
  unfold value_at, frozen, applyMultiLevelDiscounts, applyVolumeThenTier,
    new_Date, calculatePromotionalDiscount, get.
  destruct (finalPrice po) as [|p].
  - destruct (customerTier (metadata po));
      destruct (isLargeOrder (metadata po));
      destruct (promotionalCode options) as [code|];
      try destruct (truthy_str (Some code));
      try destruct (lookup codes code) as [rate|];
      try destruct (inherited code);
      cbn [member_truthy member_number];
      try destruct (truthy (Num rate));
      cbn [Js.mul Js.sub fst snd];
      try match goal with
          | |- context [if (?a > ?b)%js then _ else _] =>
              let G := fresh "G" in
              destruct (a > b)%js eqn:G;
              try (vm_compute in G; discriminate G)
          end;
      cbn [bind ret Monad_method fst this now reads];
      destruct (Nat.eqb (getMonth date) 11);
      (eexists; eexists; split; [reflexivity|]; split; [reflexivity|]);
      exact I.
  - pose proof (tier_then_volume p) as TV.
    destruct (customerTier (metadata po));
      destruct (isLargeOrder (metadata po));
      destruct (promotionalCode options) as [code|];
      try destruct (truthy_str (Some code));
      try destruct (lookup codes code) as [rate|];
      try destruct (inherited code);
      cbn [member_truthy member_number];
      try destruct (truthy (Num rate));
      cbn [Js.mul Js.sub fst snd];
      try match goal with
          | rate : Q |- _ =>
              rewrite (gt_same _ _
                         (Qmult_comp _ _ TV rate rate (Qeq_refl rate)))
          end;
      try match goal with
          | |- context [if (?a > ?b)%js then _ else _] =>
              let G := fresh "G" in
              destruct (a > b)%js eqn:G;
              try (vm_compute in G; discriminate G)
          end;
      cbn [bind ret Monad_method fst this now reads];
      destruct (Nat.eqb (getMonth date) 11);
      (eexists; eexists; split; [reflexivity|]; split; [reflexivity|]);
      cbn [dr_discountedPrice]; apply max_same;
      try reflexivity; try (rewrite TV; reflexivity).
Qed.

(** [Example.premium_large_priced] is what enrichment and pricing make of
    [Example.premium_large]. *)
Example premium_large_priced_by_pipeline :
  exists po pr,
    value_at Example.january
      (transformAndEnrichOrder Example.premium_large Example.options1)
      = Normal po
    /\ calculateComplexPricing po Example.options1 = Normal pr
    /\ finalPrice (set_pricing po pr)
       =~ finalPrice Example.premium_large_priced
    /\ metadata (set_pricing po pr) = metadata Example.premium_large_priced.
Proof.
  eexists; eexists.
  split; [vm_compute; reflexivity|].
  split; [vm_compute; reflexivity|].
  split; vm_compute; reflexivity.
Qed.

End PricingFacts.

(** ** Determinism and the state of the processor *)

Module StateFacts.

Import OrderProcessor Spec JsFacts Run ValidationFacts PricingFacts.

Local Open Scope js_scope.


(** *** The outcome does not depend on the processor or the time of day *)

(** The date read by [transformAndEnrichOrder] ends in [processedAt] and
    nowhere else. *)
Lemma transformAndEnrichOrder_stamp (o : Order) (options : Options)
    (d1 d2 : Date) :
  value_at d2 (transformAndEnrichOrder o options)
  = match value_at d1 (transformAndEnrichOrder o options) with
    | Normal po => Normal (restamp (toISOString d2) po)
    | Throw e => Throw e
    end.
Proof.
  unfold transformAndEnrichOrder, value_at, frozen, new_Date, lift.
  cbn [bind ret Monad_method fst this now reads].
  repeat (case_completion; cbn [fst]; try reflexivity).
Qed.

Lemma calculateComplexPricing_restamp (stamp : string) (po : processedOrder)
    (options : Options) :
  calculateComplexPricing (restamp stamp po) options
  = calculateComplexPricing po options.
Proof. reflexivity. Qed.

Lemma applyMultiLevelDiscounts_restamp (stamp : string)
    (po : processedOrder) (pr : pricingResult) (options : Options)
    (date : Date) :
  value_at date
    (applyMultiLevelDiscounts (set_pricing (restamp stamp po) pr) options)
  = value_at date (applyMultiLevelDiscounts (set_pricing po pr) options).
Proof. reflexivity. Qed.

Lemma shouldCompleteOrder_restamp (stamp : string) (po : processedOrder)
    (pr : pricingResult) (dr : discountResult) (options : Options) :
  shouldCompleteOrder
    (set_discounts (set_pricing (restamp stamp po) pr) dr) options
  = shouldCompleteOrder (set_discounts (set_pricing po pr) dr) options.
Proof. reflexivity. Qed.

Lemma outcome_of_failure (f : failure) (s : state) (w : world) :
  outcome (Normal None, put (record_failure f s) w)
  = Rejected (f_reason f) (f_errors f) (f_error f).
Proof.
  unfold outcome, put, record_failure. cbn. rewrite rev_app_distr.
  reflexivity.
Qed.

(** C9.  Pricing is deterministic.  In the class, two runs of the [map]
    callback on the same order with the same options give the same outcome
    (the processed order apart from its [processedAt] stamp, or the reason,
    error list and message of the failure), on any two processors, at any
    two positions of a batch, whenever the two clocks agree on the month.
    In the refactored functions [processOrder] returns the same result for
    two dates of the same month. *)
Theorem pricing_is_deterministic (Date_parse : string -> number)
    (options : Options) (order : option Order) :
  (forall (index1 index2 : nat) (w1 w2 : world),
     (forall n m, getMonth (now w1 n) = getMonth (now w2 m)) ->
     outcome (processOrders_callback Date_parse options order index1 w1)
     = outcome (processOrders_callback Date_parse options order index2 w2))
  /\ (forall (promoCode : option string) (d1 d2 : Date),
       getMonth d1 = getMonth d2 ->
       Refactored.processOrder d1 order promoCode
       = Refactored.processOrder d2 order promoCode).
Proof.
  split.
  - intros index1 index2 w1 w2 M.
    unfold processOrders_callback, try_catch.
    rewrite !processOrders_try_unfold.
    destruct (performComprehensiveValidation Date_parse order options)
      as [v|e].
    2:{ cbn [bind ret Monad_method]. rewrite !handleError_run.
        rewrite !outcome_of_failure. reflexivity. }
    destruct (negb (isValid v)).
    { rewrite !outcome_of_failure. reflexivity. }
    rewrite (transformAndEnrichOrder_stamp _ _ (now w1 (reads w1))
               (now w2 (reads w2))).
    destruct (value_at (now w1 (reads w1)) _) as [po|e].
    2:{ cbn [bind ret Monad_method]. rewrite !handleError_run.
        rewrite !outcome_of_failure. reflexivity. }
    rewrite calculateComplexPricing_restamp.
    destruct (calculateComplexPricing po options) as [pr|e].
    2:{ cbn [bind ret Monad_method]. rewrite !handleError_run.
        rewrite !outcome_of_failure. reflexivity. }
    rewrite applyMultiLevelDiscounts_restamp.
    rewrite (applyMultiLevelDiscounts_december_only
               (now w2 (S (reads w2))) (now w1 (S (reads w1))))
      by (now rewrite (M (S (reads w1)) (S (reads w2)))).
    destruct (value_at (now w1 (S (reads w1))) _) as [dr|e].
    2:{ cbn [bind ret Monad_method]. rewrite !handleError_run.
        rewrite !outcome_of_failure. reflexivity. }
    cbv zeta. rewrite shouldCompleteOrder_restamp.
    destruct (shouldCompleteOrder _ options) as [[|]|e].
    + reflexivity.
    + rewrite !outcome_of_failure. reflexivity.
    + cbn [bind ret Monad_method]. rewrite !handleError_run.
      rewrite !outcome_of_failure. reflexivity.
  - intros promoCode d1 d2 M. apply processOrder_december_only.
    now rewrite M.
Qed.

Lemma pricing_is_deterministic_witness :
  (forall n m,
     getMonth (now (Example.fresh Example.january) n)
     = getMonth (now Example.used_processor m))
  /\ outcome (processOrders_callback Example.no_dates Example.options1
                (Some Example.order1) 0 (Example.fresh Example.january))
     = outcome (processOrders_callback Example.no_dates Example.options1
                  (Some Example.order1) 3 Example.used_processor)
  /\ Refactored.processOrder Example.january (Some Example.order1)
       (Some "SAVE10")
     = Refactored.processOrder Example.new_year (Some Example.order1)
         (Some "SAVE10").
Proof.
  assert (forall n m,
            getMonth (now (Example.fresh Example.january) n)
            = getMonth (now Example.used_processor m)) as M
    by (intros n m; reflexivity).
  destruct (pricing_is_deterministic Example.no_dates Example.options1
              (Some Example.order1)) as [A B].
  split; [exact M|]. split.
  - apply (A 0%nat 3%nat _ _ M).
  - apply B. reflexivity.
Defined.

(** The same two runs differ in what the outcome leaves out:
    the [processedAt] stamp of the processed order. *)
Example stamps_differ :
  exists a b,
    fst (processOrders_callback Example.no_dates Example.options1
           (Some Example.order1) 0 (Example.fresh Example.january))
      = Normal (Some a)
    /\ fst (processOrders_callback Example.no_dates Example.options1
              (Some Example.order1) 3 Example.used_processor)
      = Normal (Some b)
    /\ processedAt a <> processedAt b
    /\ unstamp a = unstamp b.
Proof.
  eexists; eexists.
  split; [vm_compute; reflexivity|].
  split; [vm_compute; reflexivity|].
  split; [discriminate | reflexivity].
Qed.

(** The month does matter: in December the seasonal discount is applied
    on top. *)
Example december_differs :
  exists a b da db,
    fst (processOrders_callback Example.no_dates Example.options1
           (Some Example.order1) 0 (Example.fresh Example.january))
      = Normal (Some a)
    /\ fst (processOrders_callback Example.no_dates Example.options1
              (Some Example.order1) 0 (Example.fresh Example.december))
      = Normal (Some b)
    /\ appliedDiscounts a = Some da /\ records seasonal da = false
    /\ appliedDiscounts b = Some db /\ records seasonal db = true
    /\ discountedPrice a =~ Num 19.845
    /\ discountedPrice b =~ Num 16.86825.
Proof.
  do 4 eexists.
  split; [vm_compute; reflexivity|].
  split; [vm_compute; reflexivity|].
  split; [reflexivity|]. split; [reflexivity|].
  split; [reflexivity|]. split; [reflexivity|].
  split; vm_compute; reflexivity.
Qed.

(** *** Counts and statistics across calls *)

(** The counts [processOrders] reports include what earlier calls left on
    the processor. *)
Lemma counts_carry_over (Date_parse : string -> number)
    (orders : option (list (option Order))) (options : Options)
    (w : world) :
  exists resp w',
    processOrders Date_parse orders options w = (Normal resp, w')
    /\ total resp = List.length (batch orders)
    /\ (processed resp + failed resp)%nat
       = (List.length (processedOrders (this w))
          + List.length (failedOrders (this w)) + total resp)%nat.
Proof.
  unfold processOrders.
  cbn [bind ret Monad_method new_Date update get_state this now reads].
  match goal with
  | |- context [map_indexed _ ?l 0 ?w0] =>
      destruct (map_indexed_callback Date_parse options l 0 w0)
        as (rs & w1 & E & L & O & N)
  end.
  cbn [this OrderProcessor.orders processedOrders failedOrders]
    in E, O, N |- *.
  rewrite E.
  eexists; eexists; split; [reflexivity|].
  cbn. fold (batch orders). rewrite O. split; [reflexivity|].
  unfold set_metadata in N. cbn in N. exact N.
Qed.

(** C10.  A call of [processOrders] is to report counts and statistics of
    its own batch, whatever was processed before.  On one processor
    instance, the second of two calls with the same one-order batch reports
    [processed = 2] of [total = 1], a [successCount] of 2 and twice the
    value: [processedOrders], [failedOrders] and the statistics are never
    reset, while [orders] is.  The statistics object of the first response
    is the one the second call updates, so it shows the later figures too.
    The refactored [processOrders] keeps no state and reports 1 of 1. *)
Theorem processor_counts_accumulate :
  let batch := Some [Some Example.order1] in
  let options := Example.options_statistics in
  exists resp1 w1 resp2 w2 s1 s2,
    processOrders Example.no_dates batch options
      (Example.fresh Example.january) = (Normal resp1, w1)
    /\ processOrders Example.no_dates batch options w1 = (Normal resp2, w2)
    /\ (processed resp1, failed resp1, total resp1) = (1, 0, 1)%nat
    /\ (processed resp2, failed resp2, total resp2) = (2, 0, 1)%nat
    /\ response_statistics resp1 (this w1) = Some s1
    /\ response_statistics resp2 (this w2) = Some s2
    /\ response_statistics resp1 (this w2) = Some s2
    /\ (successCount s1, successCount s2) = (1, 2)%nat
    /\ totalValue s1 =~ Num 22.05
    /\ totalValue s2 =~ Num 44.1
    /\ exists report,
         Refactored.processOrders (fun _ => Example.january)
           [Some Example.order1] None = Normal report
         /\ (Refactored.report_total report, Refactored.successful report,
             Refactored.failed report) = (1, 1, 0)%nat.
Proof.
  cbv zeta. do 6 eexists.
  split; [vm_compute; reflexivity|].
  split; [vm_compute; reflexivity|].
  split; [reflexivity|]. split; [reflexivity|].
  split; [vm_compute; reflexivity|].
  split; [vm_compute; reflexivity|].
  split; [reflexivity|].
  split; [reflexivity|].
  split; [vm_compute; reflexivity|].
  split; [vm_compute; reflexivity|].
  eexists. split; [vm_compute; reflexivity | reflexivity].
Qed.

End StateFacts.

(** ** Where rounding decides *)

Module RoundingFacts.

Import PrimFloat.

Local Open Scope float_scope.

#[local] Set Warnings "-inexact-float".

(** C7.  There is an order on which both the tier discount and the volume
    discount are nonzero and on which applying the tier discount before
    the volume discount gives another final price than applying the volume
    discount before the tier discount.  A premium customer ordering 12
    units at 10 is priced at 137 before discounts; tier before volume, as
    [applyMultiLevelDiscounts] does it, ends at 117.13499999999999, volume
    before tier at 117.13500000000001.  The two prices differ by one
    rounding step of binary64. *)
Theorem tier_volume_order_changes_price :
  exists order : Binary64.Order,
    let options := Example.no_options in
    let month := getMonth Example.january in
    let finalPrice := Binary64.calculateComplexPricing order options in
    let customerTier := Binary64.determineCustomerTier order in
    let isLargeOrder := Binary64.isLargeOrder order in
    let tier_first :=
      Binary64.applyMultiLevelDiscounts finalPrice customerTier isLargeOrder
        options month in
    let volume_first :=
      Binary64.applyVolumeThenTier finalPrice customerTier isLargeOrder
        options month in
    finalPrice = 137
    /\ Binary64.dr_discounts tier_first
       = [(OrderProcessor.tier, 13.700000000000001);
          (OrderProcessor.volume, 6.165)]
    /\ Binary64.dr_discounts volume_first
       = [(OrderProcessor.volume, 6.8500000000000005);
          (OrderProcessor.tier, 13.015)]
    /\ Forall (fun d => Binary64.truthy (snd d) = true)
         (Binary64.dr_discounts tier_first
          ++ Binary64.dr_discounts volume_first)
    /\ Binary64.dr_discountedPrice tier_first = 117.13499999999999
    /\ Binary64.dr_discountedPrice volume_first = 117.13500000000001
    /\ (Binary64.dr_discountedPrice tier_first
        =? Binary64.dr_discountedPrice volume_first) = false
    /\ Binary64.dr_discountedPrice tier_first
       <> Binary64.dr_discountedPrice volume_first.
Proof.
  exists Example.premium_twelve. cbv zeta.
  repeat match goal with
  | |- _ /\ _ => split
  end.
  1-3, 5-7: vm_compute; reflexivity.
  - vm_compute. repeat constructor.
  - intro H.
    assert (E : (Binary64.dr_discountedPrice
                   (Binary64.applyMultiLevelDiscounts
                      (Binary64.calculateComplexPricing Example.premium_twelve
                         Example.no_options)
                      (Binary64.determineCustomerTier Example.premium_twelve)
                      (Binary64.isLargeOrder Example.premium_twelve)
                      Example.no_options (getMonth Example.january))
                 =? Binary64.dr_discountedPrice
                      (Binary64.applyVolumeThenTier
                         (Binary64.calculateComplexPricing
                            Example.premium_twelve Example.no_options)
                         (Binary64.determineCustomerTier
                            Example.premium_twelve)
                         (Binary64.isLargeOrder Example.premium_twelve)
                         Example.no_options (getMonth Example.january)))
                = false) by (vm_compute; reflexivity).
    rewrite H in E. vm_compute in E. discriminate E.
Qed.

(** Not every order tells the two apart: for the same customer ordering
    11 units, priced at 126 before discounts, both end at 107.73. *)
Example orders_of_application_can_agree :
  let order := Example.premium_eleven in
  let options := Example.no_options in
  let month := getMonth Example.january in
  let finalPrice := Binary64.calculateComplexPricing order options in
  let customerTier := Binary64.determineCustomerTier order in
  let isLargeOrder := Binary64.isLargeOrder order in
  finalPrice = 126
  /\ Binary64.dr_discountedPrice
       (Binary64.applyMultiLevelDiscounts finalPrice customerTier
          isLargeOrder options month) = 107.73
  /\ Binary64.dr_discountedPrice
       (Binary64.applyVolumeThenTier finalPrice customerTier isLargeOrder
          options month) = 107.73.
Proof. repeat split; vm_compute; reflexivity. Qed.

End RoundingFacts.

(** ** The e-mail pattern *)

Module EmailFacts.

Import Spec.

Lemma all_plain_app (a b : string) :
  all_plain (a ++ b) = all_plain a && all_plain b.
Proof.
  induction a as [|c a IH]; cbn; [reflexivity|].
  now rewrite IH, andb_assoc.
Qed.

Lemma plain_not_at (c : ascii) : plain c = true -> Ascii.eqb c "@" = false.
Proof.
  unfold plain. intro H. apply andb_prop in H. destruct H as [_ H].
  now apply negb_true_iff in H.
Qed.

(** Splitting at the first ["@"] finds the plain prefix. *)
Lemma split_at_sign_plain (l r : string) :
  all_plain l = true ->
  split_at_sign (l ++ String "@" r) = Some (l, r).
Proof.
  induction l as [|c l IH]; cbn; [reflexivity|].
  intro H. apply andb_prop in H. destruct H as [Hc Hl].
  now rewrite (plain_not_at c Hc), (IH Hl).
Qed.

Lemma split_at_sign_app (s l r : string) :
  split_at_sign s = Some (l, r) -> s = (l ++ String "@" r)%string.
Proof.
  revert l r. induction s as [|c s IH]; cbn; [discriminate|].
  intros l r. destruct (Ascii.eqb_spec c "@") as [->|N].
  - intro H. injection H as <- <-. reflexivity.
  - destruct (split_at_sign s) as [[l' r']|]; [|discriminate].
    intro H. injection H as <- <-. cbn. now rewrite (IH l' r' eq_refl).
Qed.

Lemma dot_then_more_app (a t : string) :
  t <> "" -> dot_then_more (a ++ String "." t) = true.
Proof.
  intro T. induction a as [|c a IH]; cbn.
  - destruct t; [contradiction|reflexivity].
  - rewrite IH. apply orb_true_r.
Qed.

Lemma dot_then_more_split (s : string) :
  dot_then_more s = true ->
  exists a t, s = (a ++ String "." t)%string /\ t <> "".
Proof.
  induction s as [|c s IH]; cbn; [discriminate|].
  intro H. apply orb_prop in H. destruct H as [H|H].
  - apply andb_prop in H. destruct H as [Hc Hs].
    apply Ascii.eqb_eq in Hc. subst c.
    exists "", s. split; [reflexivity|].
    intros ->. discriminate Hs.
  - destruct (IH H) as (a & t & -> & T).
    exists (String c a), t. split; [reflexivity|exact T].
Qed.

(** X1.  [isValidEmail] accepts exactly the strings the pattern
    [/^[^\s@]+@[^\s@]+\.[^\s@]+$/] describes: a non-empty local part, one
    ["@"], and a domain made of two non-empty parts joined by a ["."], none
    of the three parts holding whitespace or a further ["@"]. *)
Theorem isValidEmail_matches_pattern (s : string) :
  isValidEmail (Some s) = true <-> email_shape s.
Proof.
  unfold isValidEmail, email_shape. split.
  - destruct (split_at_sign s) as [[l dom]|] eqn:S; [|discriminate].
    intro H.
    apply andb_prop in H. destruct H as [H Hdot].
    apply andb_prop in H. destruct H as [H Hdom].
    apply andb_prop in H. destruct H as [Hne Hl].
    apply split_at_sign_app in S.
    destruct dom as [|c rest]; [discriminate Hdot|].
    cbn [inner_dot] in Hdot.
    destruct (dot_then_more_split rest Hdot) as (a & t & -> & T).
    change (String c (a ++ String "." t))
      with ((String c a) ++ String "." t)%string in *.
    rewrite all_plain_app in Hdom.
    apply andb_prop in Hdom. destruct Hdom as [Hd Ht].
    cbn [all_plain] in Ht. apply andb_prop in Ht. destruct Ht as [_ Ht].
    exists l, (String c a), t. repeat split; try assumption.
    + intros ->. discriminate Hne.
    + discriminate.
  - intros (l & d & t & -> & L & D & T & Hl & Hd & Ht).
    change (l ++ "@" ++ d ++ "." ++ t)%string
      with (l ++ String "@" (d ++ String "." t))%string.
    rewrite (split_at_sign_plain l _ Hl).
    rewrite Hl, all_plain_app, Hd. cbn [all_plain]. rewrite Ht.
    destruct l; [contradiction|]. cbn [String.eqb negb andb].
    destruct d as [|c d]; [contradiction|].
    cbn [append inner_dot].
    rewrite (dot_then_more_app d t T).
    reflexivity.
Qed.

End EmailFacts.

(** ** Which orders pass validation *)

Module AcceptanceFacts.

Import OrderProcessor Spec JsFacts Run ValidationFacts PricingFacts.

Local Open Scope js_scope.

Lemma valid_entries_objects (entries : list (option Item)) :
  valid_entries entries -> objects entries.
Proof.
  unfold valid_entries, objects. intro H.
  eapply Forall_impl; [|exact H].
  intros e (it & -> & _). discriminate.
Qed.

Lemma valid_item_tests (it : Item) :
  valid_item it ->
  truthy_str (item_id it) = true
  /\ orb (negb (truthy (item_price it))) (item_price it <= Num 0) = false
  /\ orb (negb (truthy (item_quantity it))) (item_quantity it <= Num 0)
     = false.
Proof.
  intros (I & (p & P & Pp) & (q & Q' & Qq)).
  rewrite P, Q'. repeat split; [exact I| |].
  - apply orb_false_iff. split.
    + apply negb_false_iff, truthy_Num. lra.
    + apply le_Num_false. exact Pp.
  - apply orb_false_iff. split.
    + apply negb_false_iff, truthy_Num. lra.
    + apply le_Num_false. exact Qq.
Qed.

Lemma valid_entries_no_errors (entries : list (option Item)) :
  valid_entries entries -> forall index, items_errors entries index = [].
Proof.
  induction 1 as [|e rest (it & -> & V) _ IH]; intro index; cbn;
    [reflexivity|].
  rewrite IH. unfold item_errors.
  destruct (valid_item_tests it V) as (-> & -> & ->). reflexivity.
Qed.

Lemma valid_email_truthy (email : option string) :
  isValidEmail email = true -> truthy_str email = true.
Proof.
  destruct email as [[|c s]|]; cbn; try discriminate. reflexivity.
Qed.

Lemma order1_well_formed : well_formed Example.order1.
Proof.
  unfold well_formed. repeat split.
  - eexists. repeat split; [discriminate|].
    repeat constructor. eexists. split; [reflexivity|].
    repeat split; eexists; split; reflexivity.
  - eexists. repeat split.
Qed.

(** The class accepts a well-formed order. *)
Lemma well_formed_passes (Date_parse : string -> number) (o : Order)
    (options : Options) :
  well_formed o ->
  exists v,
    performComprehensiveValidation Date_parse (Some o) options = Normal v
    /\ isValid v = true.
Proof.
  intros (I & (entries & It & Ne & V) & (c & C & Ci & Ce)).
  destruct (validation_complete Date_parse o options) as (v & R & E & B).
  { intros entries' It'. rewrite It in It'. injection It' as <-.
    now apply valid_entries_objects. }
  exists v. split; [exact R|].
  rewrite B, E.
  unfold required_errors, items_field_errors, customer_errors.
  rewrite I, It, C, Ci, Ce, (valid_email_truthy _ Ce).
  destruct entries as [|e rest]; [contradiction|].
  now rewrite (valid_entries_no_errors _ V 0).
Qed.

Lemma refactored_checkItems_passes (entries : list (option Item)) :
  valid_entries entries -> Refactored.checkItems entries = Normal None.
Proof.
  induction 1 as [|e rest (it & -> & V) _ IH]; cbn; [reflexivity|].
  destruct (valid_item_tests it V) as (I & P & Q').
  apply orb_false_iff in P. destruct P as [P1 P2].
  apply orb_false_iff in Q'. destruct Q' as [Q1 Q2].
  rewrite I, P1, P2, Q1, Q2. cbn. exact IH.
Qed.

(** The refactored [validateOrder] accepts exactly the well-formed
    orders. *)
Lemma validateOrder_well_formed (order : option Order) :
  Refactored.validateOrder order
    = Normal (Refactored.mkValidation true None)
  <-> exists o, order = Some o /\ well_formed o.
Proof.
  split.
  - intro H.
    destruct (validateOrder_shape order _ H eq_refl)
      as (o & e & rest & -> & It & V).
    exists o. split; [reflexivity|].
    unfold Refactored.validateOrder in H.
    destruct (truthy_str (order_id o)) eqn:I; [|discriminate H].
    cbn [negb] in H. rewrite It in H.
    rewrite (refactored_checkItems_passes _ V) in H.
    cbn [bind Monad_completion] in H.
    destruct (order_customer o) as [c|] eqn:C; [|discriminate H].
    destruct (truthy_str (customer_id c)) eqn:Ci; [|discriminate H].
    destruct (isValidEmail (customer_email c)) eqn:Ce; [|discriminate H].
    repeat split; [exact I| |].
    + exists (e :: rest). repeat split; [exact It|discriminate|exact V].
    + exists c. auto.
  - intros (o & -> & I & (entries & It & Ne & V) & (c & C & Ci & Ce)).
    unfold Refactored.validateOrder.
    rewrite I, It. cbn [negb].
    destruct entries as [|e rest]; [contradiction|].
    rewrite (refactored_checkItems_passes _ V).
    cbn [bind Monad_completion]. now rewrite C, Ci, Ce.
Qed.

(** X2.  [performComprehensiveValidation] returns [isValid: true] for
    exactly the orders that have an id, a non-empty array of items each
    with an id, a price above 0 and a quantity above 0, and a customer with
    an id and an e-mail address matching the pattern. *)
Theorem validation_accepts_exactly_well_formed
    (Date_parse : string -> number) (order : option Order)
    (options : Options) :
  (exists v,
     performComprehensiveValidation Date_parse order options = Normal v
     /\ isValid v = true)
  <-> exists o, order = Some o /\ well_formed o.
Proof.
  split.
  - intros (v & R & B).
    destruct (valid_order_shape Date_parse order options v R B)
      as (o & entries & c & -> & I & It & Ne & V & C & Ci & Ce).
    exists o. split; [reflexivity|].
    repeat split; [exact I| |].
    + exists entries. auto.
    + exists c. auto.
  - intros (o & -> & W). now apply well_formed_passes.
Qed.

(** X3.  The validator of the class and the refactored [validateOrder]
    accept the same orders: one returns [isValid: true] exactly when the
    other returns [{valid: true}]. *)
Theorem validators_accept_the_same_orders (Date_parse : string -> number)
    (order : option Order) (options : Options) :
  (exists v,
     performComprehensiveValidation Date_parse order options = Normal v
     /\ isValid v = true)
  <-> Refactored.validateOrder order
      = Normal (Refactored.mkValidation true None).
Proof.
  rewrite validateOrder_well_formed. split.
  - intros (v & R & B).
    destruct (valid_order_shape Date_parse order options v R B)
      as (o & entries & c & -> & I & It & Ne & V & C & Ci & Ce).
    exists o. split; [reflexivity|].
    repeat split; [exact I| |].
    + exists entries. auto.
    + exists c. auto.
  - intros (o & -> & W). now apply well_formed_passes.
Qed.

(** *** The [createdAt] check *)

(** X4.  [createdAt] never decides validity.  Validation of an order
    returns the same verdict and the same errors as for the order without
    its [createdAt]; the field only adds the warning
    ['Invalid createdAt date'], and does so exactly when it is a non-empty
    string that the host cannot parse. *)
Theorem createdAt_only_warns (Date_parse : string -> number) (o : Order)
    (options : Options) (v : ValidationResult) :
  performComprehensiveValidation Date_parse (Some o) options = Normal v ->
  performComprehensiveValidation Date_parse (Some (without_createdAt o))
    options = Normal (mkValidation (isValid v) (errors v) [])
  /\ warnings v
     = match order_createdAt o with
       | Some date =>
           if andb (negb (date =? "")%string)
                (negb (isValidDate Date_parse date))
           then ["Invalid createdAt date"]
           else []
       | None => []
       end.
Proof.
  unfold performComprehensiveValidation.
  change (checkItemsField (without_createdAt o)) with (checkItemsField o).
  change (checkRequiredFields (without_createdAt o))
    with (checkRequiredFields o).
  destruct (checkItemsField o (checkRequiredFields o [])) as [errs|e];
    cbn [bind ret Monad_completion]; [|discriminate].
  intro H. injection H as <-. cbn [isValid errors warnings].
  split; [reflexivity|].
  unfold checkDates. destruct (order_createdAt o) as [date|]; reflexivity.
Qed.

Lemma createdAt_only_warns_witness :
  exists v,
    performComprehensiveValidation Example.no_dates
      (Some Example.order_soon)
      Example.options1 = Normal v
    /\ performComprehensiveValidation Example.no_dates
         (Some (without_createdAt Example.order_soon))
         Example.options1 = Normal (mkValidation (isValid v) (errors v) [])
    /\ isValid v = true
    /\ warnings v = ["Invalid createdAt date"].
Proof.
  eexists. split; [reflexivity|].
  split; [|split].
  - apply (createdAt_only_warns Example.no_dates Example.order_soon
             Example.options1).
    reflexivity.
  - reflexivity.
  - reflexivity.
Defined.

(** *** A [null] among the items *)

Lemma checkItems_null (entries : list (option Item)) :
  forall index errs,
  In None entries ->
  checkItems entries index errs
  = Throw "Cannot read properties of null (reading 'id')".
Proof.
  induction entries as [|[it|] rest IH]; intros index errs H.
  - destruct H.
  - destruct H as [H|H]; [discriminate H|].
    cbn. now apply IH.
  - reflexivity.
Qed.

Lemma objects_or_null (entries : list (option Item)) :
  objects entries \/ In None entries.
Proof.
  induction entries as [|[it|] rest [IH|IH]].
  - left. constructor.
  - left. constructor; [discriminate|exact IH].
  - right. now right.
  - right. now left.
  - right. now left.
Qed.

(** X5.  A [null] among the items is a fault, not a validation error.
    [performComprehensiveValidation] throws exactly when [order.items] is
    an array holding [null]; whatever the message of the error, the
    callback of [processOrders] then returns [null], files the order
    under reason ['error'] with that message, the order and its index,
    and leaves [processedOrders] as it was. *)
Theorem null_item_is_filed_as_error (Date_parse : string -> number)
    (o : Order) (options : Options) :
  ((exists e,
      performComprehensiveValidation Date_parse (Some o) options = Throw e)
   <-> exists entries,
         order_items o = Some (ItemsArray entries) /\ In None entries)
  /\ (forall (e : string) (index : nat) (w : world),
        performComprehensiveValidation Date_parse (Some o) options = Throw e
        -> exists w',
             processOrders_callback Date_parse options (Some o) index w
               = (Normal None, w')
             /\ processedOrders (this w') = processedOrders (this w)
             /\ failedOrders (this w')
                = failedOrders (this w)
                  ++ [mkFailure (Some o) index "error" None (Some e)
                        (toISOString (now w (reads w)))]).
Proof.
  split; [split|].
  - intros (e & H).
    unfold performComprehensiveValidation, checkItemsField in H.
    destruct (order_items o) as [[[|entry rest]|]|] eqn:It;
      try discriminate H.
    destruct (objects_or_null (entry :: rest)) as [O|N].
    + rewrite (checkItems_complete _ 0 _ O) in H. discriminate H.
    + now exists (entry :: rest).
  - intros (entries & It & N).
    exists "Cannot read properties of null (reading 'id')".
    unfold performComprehensiveValidation, checkItemsField.
    rewrite It. destruct entries as [|entry rest]; [destruct N|].
    now rewrite (checkItems_null _ 0 _ N).
  - intros e index w H.
    unfold processOrders_callback, try_catch.
    rewrite processOrders_try_unfold, H.
    eexists. split; [reflexivity|]. split; reflexivity.
Qed.

End AcceptanceFacts.

(** ** What a call of [processOrders] leaves behind *)

Module BatchFacts.

Import OrderProcessor Spec JsFacts Run ValidationFacts PricingFacts.

Local Open Scope js_scope.

Lemma isValid_by_errors (Date_parse : string -> number)
    (order : option Order) (options : Options) (v : ValidationResult) :
  performComprehensiveValidation Date_parse order options = Normal v ->
  isValid v = Nat.eqb (List.length (errors v)) 0.
Proof.
  unfold performComprehensiveValidation.
  destruct order as [o|].
  - destruct (checkItemsField _ _) as [errs|e];
      cbn [bind ret Monad_completion]; [|discriminate].
    intro H. now injection H as <-.
  - cbn. intro H. now injection H as <-.
Qed.

(** What the gate has checked when it lets an order through. *)
Lemma shouldCompleteOrder_true (po : processedOrder) (options : Options) :
  shouldCompleteOrder po options = Normal true -> passes_gate options po.
Proof.
  unfold shouldCompleteOrder, passes_gate. intro H.
  destruct (strictMode options);
    destruct (discountedPrice po <= Num 0);
    destruct (requireMinimumValue options);
    destruct (discountedPrice po < Num 10);
    destruct (skipInvalidCustomers options);
    cbn [andb] in H; try discriminate H;
    try (destruct (order_customer (source po)) as [c|]; [|discriminate H];
         destruct (customer_isValid c) eqn:V; [|discriminate H]);
    repeat split; try reflexivity; try discriminate;
    intros _; now exists c.
Qed.

Ltac error_event order index e w :=
  exists (Reject (mkFailure order index "error" None (Some e)
                    (toISOString (now w (reads w))))),
    (put (record_failure
            (mkFailure order index "error" None (Some e)
               (toISOString (now w (reads w))))
            (this w))
         (tick w)).

Ltac shape_error :=
  cbn; repeat split; try reflexivity; try lia;
  right; right; repeat split; eexists; reflexivity.

(** One run of the [map] callback, as an event. *)
Lemma callback_event (Date_parse : string -> number) (options : Options)
    (order : option Order) (index : nat) (w : world) :
  exists e w',
    processOrders_callback Date_parse options order index w
      = (Normal (returned e), w')
    /\ this w' = apply_event (this w) e
    /\ now w' = now w
    /\ (reads w < reads w')%nat /\ (reads w' <= reads w + 3)%nat
    /\ explains_one options order index e.
Proof.
  unfold processOrders_callback, try_catch.
  rewrite processOrders_try_unfold.
  destruct (performComprehensiveValidation Date_parse order options)
    as [v|e] eqn:R.
  2:{ eexists (Reject _), _. split; [reflexivity|]. shape_error. }
  destruct (isValid v) eqn:B; cbn [negb].
  2:{ eexists (Reject _), _. split; [reflexivity|].
      cbn. repeat split; try reflexivity; try lia.
      left. repeat split. exists (errors v). split; [reflexivity|].
      rewrite (isValid_by_errors _ _ _ _ R) in B.
      intro E. rewrite E in B. discriminate B. }
  destruct (valid_order_shape Date_parse order options v R B)
    as (o & entries & c & -> & I & It & Ne & V & C & Ci & Ce).
  cbn [spread].
  destruct (transform_valid o options (now w (reads w)) entries It V)
    as (q & s & T & _).
  rewrite T.
  destruct (calculateComplexPricing _ options) as [pr|e] eqn:P.
  2:{ eexists (Reject _), _. split; [reflexivity|]. shape_error. }
  match goal with
  | |- context [applyMultiLevelDiscounts ?po options] =>
      destruct (applyMultiLevelDiscounts_returns po options
                  (now w (S (reads w)))) as (dr & D)
  end.
  rewrite D. cbv zeta.
  destruct (shouldCompleteOrder _ options) as [[|]|e] eqn:G.
  - eexists (Accept _), _. split; [reflexivity|].
    cbn -[passes_gate].
    split; [reflexivity|]. split; [reflexivity|].
    split; [lia|]. split; [lia|].
    split; [reflexivity|]. split; [reflexivity|].
    exact (shouldCompleteOrder_true _ options G).
  - eexists (Reject _), _. split; [reflexivity|].
    cbn. repeat split; try reflexivity; try lia.
    right. left. repeat split.
  - eexists (Reject _), _. split; [reflexivity|]. shape_error.
Qed.

(** Mapping the callback over a batch, as a list of events. *)
Lemma map_indexed_events (Date_parse : string -> number)
    (options : Options) (l : list (option Order)) :
  forall (index : nat) (w : world),
  exists es w',
    map_indexed (processOrders_callback Date_parse options) l index w
      = (Normal (map returned es), w')
    /\ this w' = fold_left apply_event es (this w)
    /\ now w' = now w
    /\ (reads w + List.length l <= reads w')%nat
    /\ (reads w' <= reads w + 3 * List.length l)%nat
    /\ explains options index l es.
Proof.
  induction l as [|order rest IH]; intros index w.
  - exists [], w. cbn. repeat split; try lia. constructor.
  - destruct (callback_event Date_parse options order index w)
      as (e & w1 & E & S1 & N1 & Lo1 & Hi1 & X1).
    destruct (IH (S index) w1) as (es & w2 & E2 & S2 & N2 & Lo2 & Hi2 & X2).
    exists (e :: es), w2.
    cbn [map_indexed bind ret Monad_method]. rewrite E, E2.
    cbn [map fold_left List.length]. rewrite S2, S1, N2, N1.
    repeat split; try lia. now constructor.
Qed.

Lemma not_null_returned (es : list event) :
  not_null (map returned es) = accepted es.
Proof.
  induction es as [|[po|f] es IH]; cbn; [reflexivity| |exact IH].
  now rewrite IH.
Qed.

(** The state after the events: the lists grow, nothing else but the
    statistics changes. *)
Lemma events_state (es : list event) :
  forall s,
  let s' := fold_left apply_event es s in
  orders s' = orders s
  /\ processedOrders s' = processedOrders s ++ accepted es
  /\ failedOrders s' = failedOrders s ++ rejected es
  /\ processingStartTime (state_metadata s')
     = processingStartTime (state_metadata s)
  /\ processingEndTime (state_metadata s')
     = processingEndTime (state_metadata s)
  /\ totalProcessingTime (state_metadata s')
     = totalProcessingTime (state_metadata s).
Proof.
  induction es as [|[po|f] es IH]; intro s; cbn [fold_left accepted rejected].
  - cbn. now rewrite !app_nil_r.
  - destruct (IH (apply_event s (Accept po))) as (O & P & F & A & B & C).
    cbv zeta. rewrite O, P, F, A, B, C. cbn.
    rewrite <- app_assoc. repeat split; reflexivity.
  - destruct (IH (apply_event s (Reject f))) as (O & P & F & A & B & C).
    cbv zeta. rewrite O, P, F, A, B, C. cbn.
    rewrite <- app_assoc. repeat split; reflexivity.
Qed.

(** A call of [processOrders], as a list of events between the two
    readings of the clock that bracket it. *)
Lemma processOrders_events (Date_parse : string -> number)
    (orders : option (list (option Order))) (options : Options)
    (w : world) :
  exists es w',
    processOrders Date_parse orders options w
      = (Normal
           (mkResponse true
              (List.length (processedOrders (this w')))
              (List.length (failedOrders (this w')))
              (List.length (batch orders))
              (if includeDetails options then Some (accepted es) else None)
              (includeStatistics options) (includeMetadata options)),
         w')
    /\ this w'
       = finished (getTime (now w (pred (reads w'))))
           (fold_left apply_event es
              (started (getTime (now w (reads w))) (batch orders) (this w)))
    /\ now w' = now w
    /\ (reads w + 2 + List.length (batch orders) <= reads w')%nat
    /\ (reads w' <= reads w + 2 + 3 * List.length (batch orders))%nat
    /\ explains options 0 (batch orders) es.
Proof.
  unfold processOrders.
  cbn [bind ret Monad_method new_Date update get_state].
  cbn [this now reads OrderProcessor.orders set_metadata].
  match goal with
  | |- context [map_indexed _ ?l 0 ?w1] =>
      destruct (map_indexed_events Date_parse options l 0 w1)
        as (es & w2 & E & S2 & N2 & Lo & Hi & X)
  end.
  fold (batch orders) in E, Lo, Hi, X |- *.
  rewrite E. cbn [this now reads] in S2, N2, Lo, Hi.
  exists es,
    (mkWorld (finished (getTime (now w2 (reads w2))) (this w2)) (now w2)
       (S (reads w2))).
  unfold finalizeProcessing, buildResponse.
  cbn [bind ret Monad_method new_Date update get_state].
  cbn [this now reads pred].
  split; [|split; [|split; [|split; [|split]]]].
  - rewrite not_null_returned.
    assert (Ow : OrderProcessor.orders (this w2) = batch orders).
    { rewrite S2.
      match goal with
      | |- context [fold_left apply_event es ?s] =>
          destruct (events_state es s) as (O & _)
      end.
      exact O. }
    rewrite <- Ow. reflexivity.
  - rewrite N2, S2. reflexivity.
  - exact N2.
  - lia.
  - lia.
  - exact X.
Qed.

Lemma explains_length (options : Options) (l : list (option Order)) :
  forall index es,
  explains options index l es ->
  (List.length (accepted es) + List.length (rejected es))%nat
  = List.length l.
Proof.
  induction l as [|o l IH]; intros index es X; inversion X; subst.
  - reflexivity.
  - match goal with H : explains _ _ l _ |- _ => apply IH in H end.
    destruct e; cbn [accepted rejected List.length]; lia.
Qed.

Lemma explains_accepted (options : Options) (l : list (option Order)) :
  forall index es,
  explains options index l es ->
  Forall (fun po =>
            In (Some (source po)) l
            /\ processingOptions po = options
            /\ passes_gate options po)
    (accepted es).
Proof.
  induction l as [|o l IH]; intros index es X; inversion X; subst.
  - constructor.
  - match goal with H : explains _ _ l _ |- _ => apply IH in H as T end.
    assert (T' : Forall (fun po =>
                   In (Some (source po)) (o :: l)
                   /\ processingOptions po = options
                   /\ passes_gate options po) (accepted es0)).
    { eapply Forall_impl; [|exact T].
      intros po (A & B & C). split; [now right|]. now split. }
    destruct e as [po|f]; cbn [accepted]; [|exact T'].
    constructor; [|exact T'].
    match goal with H : explains_one _ _ _ _ |- _ =>
      destruct H as (A & B & C) end.
    split; [left; now symmetry|]. now split.
Qed.


(** X6.  An order reaches [processedOrders] only through the acceptance
    gate.  Every order a call of [processOrders] appends to
    [processedOrders] is one of the orders of the batch, carries the
    options of the call, and has passed each test of [shouldCompleteOrder]
    that the options switch on: under [strictMode] its [discountedPrice]
    is not [<= 0], under [requireMinimumValue] it is not [< 10], and under
    [skipInvalidCustomers] its customer is flagged [isValid].  The tests
    are comparisons, so a [discountedPrice] of [NaN] passes the first
    two. *)
Theorem accepted_orders_pass_the_gate (Date_parse : string -> number)
    (orders : option (list (option Order))) (options : Options)
    (w : world) :
  exists resp w' new,
    processOrders Date_parse orders options w = (Normal resp, w')
    /\ processedOrders (this w') = processedOrders (this w) ++ new
    /\ Forall (fun po =>
                 In (Some (source po)) (batch orders)
                 /\ processingOptions po = options
                 /\ passes_gate options po)
         new.
Proof.
  destruct (processOrders_events Date_parse orders options w)
    as (es & w' & E & S' & _ & _ & _ & X).
  eexists. exists w', (accepted es). split; [exact E|].
  split.
  - rewrite S'.
    match goal with
    | |- context [fold_left apply_event es ?s] =>
        destruct (events_state es s) as (_ & P & _)
    end.
    unfold finished, set_metadata. cbn [processedOrders].
    rewrite P. reflexivity.
  - exact (explains_accepted options _ 0 es X).
Qed.

(** X7.  The response of [processOrders] counts what the processor holds.
    With [new] the orders the call appended to [processedOrders]:
    [processed] is the number of orders held before the call plus the
    length of [new], [failed] grows by the rest of the batch, [total] is
    the length of the batch, and [orders] is [new] itself when
    [includeDetails] is set and absent otherwise. *)
Theorem response_reports_the_call (Date_parse : string -> number)
    (orders : option (list (option Order))) (options : Options)
    (w : world) :
  exists resp w' new,
    processOrders Date_parse orders options w = (Normal resp, w')
    /\ processedOrders (this w') = processedOrders (this w) ++ new
    /\ success resp = true
    /\ total resp = List.length (batch orders)
    /\ (List.length new <= total resp)%nat
    /\ processed resp
       = (List.length (processedOrders (this w)) + List.length new)%nat
    /\ failed resp
       = (List.length (failedOrders (this w))
          + (total resp - List.length new))%nat
    /\ response_orders resp
       = if includeDetails options then Some new else None.
Proof.
  destruct (processOrders_events Date_parse orders options w)
    as (es & w' & E & S' & _ & _ & _ & X).
  pose proof (explains_length options _ 0 es X) as L.
  assert (P : processedOrders (this w')
              = processedOrders (this w) ++ accepted es
              /\ failedOrders (this w')
                 = failedOrders (this w) ++ rejected es).
  { rewrite S'.
    match goal with
    | |- context [fold_left apply_event es ?s] =>
        destruct (events_state es s) as (_ & P & F & _)
    end.
    unfold finished, set_metadata. cbn [processedOrders failedOrders].
    rewrite P, F. split; reflexivity. }
  destruct P as [P F].
  eexists. exists w', (accepted es). split; [exact E|].
  cbn [success total processed failed response_orders].
  rewrite P, F, !length_app.
  repeat split; try reflexivity; lia.
Qed.


(** *** The statistics *)

Lemma same_add (a b c : number) : a =~ b -> (a + c) =~ (b + c).
Proof.
  destruct a, b, c; cbn; try tauto. intro H. now rewrite H.
Qed.

Lemma value_of_snoc (l : list processedOrder) (po : processedOrder) :
  value_of (l ++ [po]) = (value_of l + discountedPrice po).
Proof. unfold value_of. now rewrite fold_left_app. Qed.

Lemma consistent_event (s : state) (e : event) :
  consistent s -> consistent (apply_event s e).
Proof.
  intros (A & B & C & D).
  destruct e as [po|f]; unfold consistent; cbn -[value_of Js.div Js.max].
  - rewrite length_app, value_of_snoc. cbn [List.length].
    repeat split; [lia|exact B|now apply same_add|apply same_refl].
  - rewrite length_app. cbn [List.length].
    repeat split; [exact A|lia|exact C|apply same_refl].
Qed.

Lemma consistent_events (es : list event) :
  forall s, consistent s -> consistent (fold_left apply_event es s).
Proof.
  induction es as [|e es IH]; intros s H; [exact H|].
  cbn [fold_left]. now apply IH, consistent_event.
Qed.

(** X9.  The statistics keep pace with the two lists.  If, before a call
    of [processOrders], [successCount] and [failureCount] are the lengths
    of [processedOrders] and [failedOrders], [totalValue] is the sum of
    the [discountedPrice] of the processed orders and [averageOrderValue]
    is [totalValue / max(1, successCount)], then the same holds after the
    call, whatever the batch. *)
Theorem statistics_stay_consistent (Date_parse : string -> number)
    (orders : option (list (option Order))) (options : Options)
    (w : world) :
  consistent (this w) ->
  exists resp w',
    processOrders Date_parse orders options w = (Normal resp, w')
    /\ consistent (this w').
Proof.
  intro H.
  destruct (processOrders_events Date_parse orders options w)
    as (es & w' & E & S' & _).
  eexists. exists w'. split; [exact E|].
  rewrite S'.
  match goal with
  | |- consistent (finished _ ?s) =>
      assert (K : consistent s) by (apply consistent_events; exact H)
  end.
  exact K.
Qed.

Lemma statistics_stay_consistent_witness :
  consistent (this (Example.fresh Example.january))
  /\ exists resp w',
       processOrders Example.no_dates
         (Some [Some Example.order1; None]) Example.options1
         (Example.fresh Example.january) = (Normal resp, w')
       /\ consistent (this w').
Proof.
  assert (H : consistent (this (Example.fresh Example.january))).
  { unfold consistent. cbn. repeat split; reflexivity. }
  split; [exact H|].
  exact (statistics_stay_consistent Example.no_dates
           (Some [Some Example.order1; None]) Example.options1
           (Example.fresh Example.january) H).
Defined.

(** *** The clock *)

(** X10.  [totalProcessingTime] is the time between the first and the last
    reading of the clock in the call.  After [processOrders],
    [processingStartTime] is the time read on entry, [processingEndTime]
    the time of the last reading, made by [finalizeProcessing] after at
    least one reading per order and at most three, and
    [totalProcessingTime] is their difference. *)
Theorem processing_time_is_end_minus_start (Date_parse : string -> number)
    (orders : option (list (option Order))) (options : Options)
    (w : world) :
  exists resp w',
    processOrders Date_parse orders options w = (Normal resp, w')
    /\ now w' = now w
    /\ (reads w + 2 + List.length (batch orders) <= reads w')%nat
    /\ (reads w' <= reads w + 2 + 3 * List.length (batch orders))%nat
    /\ let start := getTime (now w (reads w)) in
       let stop := getTime (now w (pred (reads w'))) in
       let m := state_metadata (this w') in
       processingStartTime m = Some start
       /\ processingEndTime m = Some stop
       /\ totalProcessingTime m = Some (stop - start)%Z.
Proof.
  destruct (processOrders_events Date_parse orders options w)
    as (es & w' & E & S' & N & Lo & Hi & _).
  eexists. exists w'. split; [exact E|].
  repeat split; try assumption.
  all: rewrite S';
    match goal with
    | |- context [fold_left apply_event ?l ?s] =>
        destruct (events_state l s) as (_ & _ & _ & A & _)
    end;
    unfold finished, set_metadata;
    cbn [state_metadata processingStartTime processingEndTime
         totalProcessingTime];
    rewrite ?A; reflexivity.
Qed.

(** X11.  An argument that is not an array is processed as the empty
    batch, and the empty batch changes nothing but the time stamps: the
    response reports [total: 0] and the counts held before the call, and
    the two lists and the statistics are left as they were. *)
Theorem empty_batch_changes_nothing (Date_parse : string -> number)
    (options : Options) (w : world) :
  processOrders Date_parse None options w
  = processOrders Date_parse (Some []) options w
  /\ exists resp w',
       processOrders Date_parse (Some []) options w = (Normal resp, w')
       /\ total resp = 0%nat
       /\ processed resp = List.length (processedOrders (this w))
       /\ failed resp = List.length (failedOrders (this w))
       /\ response_orders resp
          = (if includeDetails options then Some [] else None)
       /\ processedOrders (this w') = processedOrders (this w)
       /\ failedOrders (this w') = failedOrders (this w)
       /\ statistics_of (state_metadata (this w'))
          = statistics_of (state_metadata (this w))
       /\ reads w' = (reads w + 2)%nat.
Proof.
  split; [reflexivity|].
  eexists. eexists. split; [reflexivity|].
  cbn. repeat split; try reflexivity. lia.
Qed.

(** X12.  With none of the three gates switched on, every well-formed
    order is accepted.  If [strictMode], [requireMinimumValue] and
    [skipInvalidCustomers] are off and no entry of [options.adjustments] is
    [null], the callback of [processOrders] returns the processed order of
    any well-formed order, appends it to [processedOrders], counts it, and
    files no failure. *)
Theorem well_formed_order_is_accepted (Date_parse : string -> number)
    (options : Options) (o : Order) (index : nat) (w : world) :
  well_formed o ->
  adjustments_are_objects options ->
  strictMode options = false ->
  requireMinimumValue options = false ->
  skipInvalidCustomers options = false ->
  exists po w',
    processOrders_callback Date_parse options (Some o) index w
      = (Normal (Some po), w')
    /\ source po = o
    /\ this w' = record_success po (this w)
    /\ failedOrders (this w') = failedOrders (this w).
Proof.
  intros W A G1 G2 G3.
  destruct (AcceptanceFacts.well_formed_passes Date_parse o options W)
    as (v & R & B).
  destruct W as (_ & (entries & It & _ & V) & _).
  unfold processOrders_callback, try_catch.
  rewrite processOrders_try_unfold, R, B. cbn [negb spread].
  destruct (transform_valid o options (now w (reads w)) entries It V)
    as (q & s & T & _).
  rewrite T.
  match goal with
  | |- context [calculateComplexPricing ?po options] =>
      destruct (pricing_returns po options A) as (pr & P)
  end.
  rewrite P.
  pose proof P as P'. eapply pricing_number in P'; [|reflexivity].
  destruct P' as ((p & Fp) & _).
  match goal with
  | |- context [applyMultiLevelDiscounts ?po options] =>
      destruct (discounts_number po options (now w (S (reads w))) p Fp)
        as (dr & r & D & Dr & Pos)
  end.
  rewrite D. cbv zeta.
  unfold shouldCompleteOrder. rewrite G1, G2, G3. cbn [andb].
  eexists. eexists. split; [reflexivity|].
  repeat split.
Qed.

Lemma well_formed_order_is_accepted_witness :
  exists po w',
    processOrders_callback Example.no_dates Example.options1
      (Some Example.order1) 0 (Example.fresh Example.january)
      = (Normal (Some po), w')
    /\ source po = Example.order1.
Proof.
  destruct (well_formed_order_is_accepted Example.no_dates Example.options1
              Example.order1 0 (Example.fresh Example.january))
    as (po & w' & E & S' & _); try reflexivity.
  - exact AcceptanceFacts.order1_well_formed.
  - intros adjs H. discriminate H.
  - exists po, w'. split; [exact E|exact S'].
Defined.

(** X13.  The [try] block throws only on a [null] among the items or the
    adjustments.  If the items of the order, when an array, hold no
    [null], and [options.adjustments] holds no [null], the [try] block of
    the callback returns, so no failure is filed under reason ['error']:
    the order is accepted, or rejected with reason ['validation_failed']
    or ['completion_failed']. *)
Theorem faults_need_a_null (Date_parse : string -> number)
    (options : Options) (order : option Order) (index : nat) (w : world) :
  (forall o, order = Some o -> items_are_objects o) ->
  adjustments_are_objects options ->
  exists r w',
    processOrders_try Date_parse order options index w = (Normal r, w')
    /\ processOrders_callback Date_parse options order index w
       = (Normal r, w')
    /\ ((exists po, r = Some po)
        \/ exists f,
             r = None
             /\ failedOrders (this w') = failedOrders (this w) ++ [f]
             /\ (f_reason f = "validation_failed"
                 \/ f_reason f = "completion_failed")).
Proof.
  intros O A.
  unfold processOrders_callback, try_catch.
  rewrite processOrders_try_unfold.
  assert (R : exists v,
            performComprehensiveValidation Date_parse order options
            = Normal v).
  { destruct order as [o|]; [|eexists; reflexivity].
    destruct (validation_complete Date_parse o options (O o eq_refl))
      as (v & R & _).
    now exists v. }
  destruct R as (v & R). rewrite R.
  destruct (isValid v) eqn:B; cbn [negb].
  2:{ eexists. eexists. split; [reflexivity|]. split; [reflexivity|].
      right. eexists. split; [reflexivity|]. split; [reflexivity|].
      now left. }
  destruct (valid_order_shape Date_parse order options v R B)
    as (o & entries & c & -> & I & It & Ne & V & C & Ci & Ce).
  cbn [spread].
  destruct (transform_valid o options (now w (reads w)) entries It V)
    as (q & s & T & _).
  rewrite T.
  match goal with
  | |- context [calculateComplexPricing ?po options] =>
      destruct (pricing_returns po options A) as (pr & P)
  end.
  rewrite P.
  match goal with
  | |- context [applyMultiLevelDiscounts ?po options] =>
      destruct (applyMultiLevelDiscounts_returns po options
                  (now w (S (reads w)))) as (dr & D)
  end.
  rewrite D. cbv zeta.
  assert (G : exists b,
            shouldCompleteOrder
              (set_discounts
                 (set_pricing
                    (mkProcessed o (toISOString (now w (reads w))) options
                       (Num q) (Num s)
                       (mkOrderMetadata (List.length entries)
                          (Nat.ltb 1 (List.length entries))
                          (Num q > Num 10)
                          (determineCustomerTier (order_customer o)))
                       NaN None NaN None) pr) dr) options
            = Normal b).
  { unfold shouldCompleteOrder. cbn [source set_discounts set_pricing].
    rewrite C.
    destruct (andb _ _); [eexists; reflexivity|].
    destruct (andb _ _); [eexists; reflexivity|].
    destruct (skipInvalidCustomers options); [|eexists; reflexivity].
    destruct (negb _); eexists; reflexivity. }
  destruct G as (b & G). rewrite G.
  destruct b.
  - eexists. eexists. split; [reflexivity|]. split; [reflexivity|].
    left. eexists. reflexivity.
  - eexists. eexists. split; [reflexivity|]. split; [reflexivity|].
    right. eexists. split; [reflexivity|]. split; [reflexivity|].
    now right.
Qed.

Lemma faults_need_a_null_witness :
  exists r w',
    processOrders_try Example.no_dates (Some Example.two_invalid_items)
      Example.options1 0 (Example.fresh Example.january) = (Normal r, w')
    /\ processOrders_callback Example.no_dates Example.options1
         (Some Example.two_invalid_items) 0 (Example.fresh Example.january)
       = (Normal r, w').
Proof.
  destruct (faults_need_a_null Example.no_dates Example.options1
              (Some Example.two_invalid_items) 0
              (Example.fresh Example.january))
    as (r & w' & T & K & _).
  - intros o H. injection H as <-. intros entries E.
    injection E as <-. repeat constructor; discriminate.
  - intros adjs H. discriminate H.
  - exists r, w'. split; [exact T|exact K].
Defined.

End BatchFacts.

(** ** Pricing and discounts of the class *)

Module DiscountFacts.

Import OrderProcessor Spec JsFacts Run ValidationFacts PricingFacts.

Local Open Scope js_scope.

(** X14.  The breakdown of [calculateComplexPricing] adds up.  Whenever
    pricing returns, [finalPrice] is [subtotal + taxes + fees +
    adjustments] of its breakdown, [subtotal] is the subtotal of the
    order, and [taxes] is the subtotal times [options.taxRate], or times
    0.1 when the rate is absent or 0. *)
Theorem breakdown_adds_up (po : processedOrder) (options : Options)
    (pr : pricingResult) :
  calculateComplexPricing po options = Normal pr ->
  let bd := pr_breakdown pr in
  pr_finalPrice pr
    =~ (bd_subtotal bd + bd_taxes bd + bd_fees bd + bd_adjustments bd)
  /\ bd_subtotal bd = subtotal po
  /\ bd_taxes bd = (subtotal po * Num (tax_rate_used options)).
Proof.
  unfold calculateComplexPricing, tax_rate_used, or_else.
  intro E.
  assert (T : (if truthy (taxRate options) then taxRate options else Num 0.1)
              = Num (match taxRate options with
                     | Num r => if Qeq_bool r 0 then 0.1 else r
                     | NaN => 0.1
                     end)).
  { destruct (taxRate options) as [|r]; cbn; [reflexivity|].
    destruct (Qeq_bool r 0); reflexivity. }
  rewrite T in E. clear T.
  set (rate := match taxRate options with
               | Num r => if Qeq_bool r 0 then 0.1 else r
               | NaN => 0.1
               end) in *.
  destruct (subtotal po) as [|s];
    destruct (applyFees options) as [[|]|];
    destruct (isLargeOrder (metadata po));
    destruct (adjustments options) as [adjs|];
    cbn [bind ret Monad_completion Js.add Js.mul] in E;
    try (destruct (reduce _ adjs (Num 0)) as [x|] eqn:R; [|discriminate];
         apply reduce_adjustments in R as (r & ->));
    injection E as E; subst pr; cbn;
    (split; [try exact I; ring | split; reflexivity]).
Qed.

Lemma breakdown_adds_up_witness :
  exists pr,
    calculateComplexPricing Example.premium_large_priced
      Example.options_tax_zero = Normal pr
    /\ pr_finalPrice pr =~ Num 126
    /\ bd_taxes (pr_breakdown pr) =~ Num 11.
Proof.
  eexists. split; [reflexivity|].
  destruct (breakdown_adds_up Example.premium_large_priced
              Example.options_tax_zero _ eq_refl) as (A & B & C).
  split; [|rewrite C]; vm_compute; reflexivity.
Defined.

(** *** The promotional codes *)

Lemma codes_known (code : string) (rate : Q) :
  lookup codes code = Some rate ->
  (code = "SAVE10" /\ rate = 0.1%Q)
  \/ (code = "SAVE20" /\ rate = 0.2%Q)
  \/ (code = "SAVE50" /\ rate = 0.5%Q).
Proof.
  unfold lookup, codes.
  destruct (String.eqb_spec "SAVE10" code) as [<-|_].
  { intro H. injection H as <-. auto. }
  destruct (String.eqb_spec "SAVE20" code) as [<-|_].
  { intro H. injection H as <-. auto. }
  destruct (String.eqb_spec "SAVE50" code) as [<-|_].
  { intro H. injection H as <-. auto. }
  discriminate.
Qed.

Lemma codes_unknown (code : string) :
  lookup codes code = None -> ~ In code known_codes.
Proof.
  unfold lookup, codes, known_codes.
  destruct (String.eqb_spec "SAVE10" code) as [<-|N1]; [discriminate|].
  destruct (String.eqb_spec "SAVE20" code) as [<-|N2]; [discriminate|].
  destruct (String.eqb_spec "SAVE50" code) as [<-|N3]; [discriminate|].
  intros _ [H|[H|[H|[]]]]; congruence.
Qed.

Lemma max_nonneg (q : Q) : (0 <= q)%Q -> Js.max (Num 0) (Num q) = Num q.
Proof.
  intro H. unfold Js.max. apply Qle_bool_iff in H. now rewrite H.
Qed.

Ltac known_rate :=
  match goal with
  | L : lookup codes _ = Some _ |- _ =>
      apply codes_known in L;
      destruct L as [[-> ->]|[[-> ->]|[-> ->]]]
  end.

Ltac known_truthy :=
  repeat match goal with
  | |- context [truthy (Num ?r)] =>
      let t := eval vm_compute in (truthy (Num r)) in
      change (truthy (Num r)) with t
  end.

Ltac promo_test :=
  try match goal with
      | |- context [if (?a > ?b)%js then _ else _] =>
          let G := fresh "G" in
          destruct (a > b)%js eqn:G;
          try (vm_compute in G; discriminate G)
      end.

Ltac run_discounts F :=
  unfold value_at, frozen, applyMultiLevelDiscounts, new_Date;
  rewrite F; unfold calculatePromotionalDiscount, get.

(** X15.  The discounts of the class never raise a price and never make
    it negative.  For a price [p] that is a finite number and not negative,
    [applyMultiLevelDiscounts] returns a [discountedPrice] between 0 and
    [p], and every amount it records lies between 0 and [p], whatever the
    tier, the size of the order, the promotional code and the month. *)
Theorem discounts_stay_within_bounds (po : processedOrder)
    (options : Options) (date : Date) (p : Q) :
  finalPrice po = Num p ->
  (0 <= p)%Q ->
  exists dr r,
    value_at date (applyMultiLevelDiscounts po options) = Normal dr
    /\ dr_discountedPrice dr = Num r
    /\ (0 <= r)%Q /\ (r <= p)%Q
    /\ Forall (fun d => exists a, d_amount d = Num a
                                  /\ (0 <= a)%Q /\ (a <= p)%Q)
         (dr_discounts dr).
Proof.
  intros F P0. run_discounts F.
  destruct (customerTier (metadata po));
    destruct (isLargeOrder (metadata po));
    destruct (promotionalCode options) as [code|];
    try destruct (truthy_str (Some code));
    try (destruct (lookup codes code) as [rate|] eqn:L; [known_rate|]);
    try destruct (inherited code);
    cbn [member_truthy member_number]; known_truthy;
    cbn [Js.mul Js.sub fst snd];
    promo_test;
    cbn [bind ret Monad_method fst this now reads];
    destruct (Nat.eqb (getMonth date) 11);
    cbn [Js.mul Js.sub fst snd app];
    match goal with
    | |- context [Js.max (Num 0) (Num ?q)] =>
        rewrite (max_nonneg q) by lra
    end;
    (eexists; eexists; split; [reflexivity|];
     split; [reflexivity|];
     split; [lra|]; split; [lra|];
     repeat constructor; cbn [d_amount];
     eexists; (split; [reflexivity|]); split; lra).
Qed.

Lemma discounts_stay_within_bounds_witness :
  exists dr r,
    value_at Example.december
      (applyMultiLevelDiscounts Example.premium_large_priced
         Example.options1) = Normal dr
    /\ dr_discountedPrice dr = Num r
    /\ (0 <= r)%Q /\ (r <= 126)%Q.
Proof.
  destruct (discounts_stay_within_bounds Example.premium_large_priced
              Example.options1 Example.december 126 eq_refl)
    as (dr & r & E & R & Lo & Hi & _).
  - vm_compute. discriminate.
  - exists dr, r. auto.
Defined.

Lemma unknown_code_passed_over (price : number) (code : string) :
  ~ In code known_codes ->
  (calculatePromotionalDiscount price code > Num 0) = false.
Proof.
  intro N. unfold calculatePromotionalDiscount, get.
  destruct (lookup codes code) as [rate|] eqn:L.
  - exfalso. apply N. apply codes_known in L. unfold known_codes.
    destruct L as [[-> _]|[[-> _]|[-> _]]]; cbn; auto.
  - destruct (inherited code); cbn [member_truthy member_number].
    + rewrite mul_NaN_r. reflexivity.
    + reflexivity.
Qed.

(** X16.  A promotional code counts only if it is one of ['SAVE10'],
    ['SAVE20'], ['SAVE50'], spelled exactly so.  Whatever the price,
    [applyMultiLevelDiscounts] records a promotional discount only when
    [options.promotionalCode] is one of the three; with any other code,
    the names inherited from [Object.prototype] included, it returns what
    it returns with no code at all. *)
Theorem promotional_discount_needs_known_code (po : processedOrder)
    (options : Options) (date : Date) :
  exists dr,
    value_at date (applyMultiLevelDiscounts po options) = Normal dr
    /\ (records promotional (dr_discounts dr) = true ->
        exists code,
          promotionalCode options = Some code /\ In code known_codes)
    /\ ((forall code,
           promotionalCode options = Some code -> ~ In code known_codes) ->
        value_at date
          (applyMultiLevelDiscounts po (without_promotionalCode options))
        = Normal dr).
Proof.
  unfold value_at, frozen, applyMultiLevelDiscounts, new_Date,
    without_promotionalCode.
  cbn [promotionalCode].
  destruct (promotionalCode options) as [code|].
  2:{ destruct (customerTier (metadata po));
        destruct (isLargeOrder (metadata po));
        cbn [bind ret Monad_method fst this now reads];
        destruct (Nat.eqb (getMonth date) 11);
        (eexists; split; [reflexivity|]);
        (split; [cbn; discriminate|intros _; reflexivity]). }
  destruct (in_dec string_dec code known_codes) as [K|K].
  - destruct (customerTier (metadata po));
      destruct (isLargeOrder (metadata po));
      destruct (truthy_str (Some code));
      try match goal with
          | |- context [if (?a > ?b)%js then _ else _] =>
              destruct (a > b)%js
          end;
      cbn [bind ret Monad_method fst this now reads];
      destruct (Nat.eqb (getMonth date) 11);
      (eexists; split; [reflexivity|]);
      (split;
       [ intros _; exists code; split; [reflexivity|exact K]
       | intro U; exfalso; exact (U code eq_refl K) ]).
  - destruct (customerTier (metadata po));
      destruct (isLargeOrder (metadata po));
      destruct (truthy_str (Some code));
      rewrite ?(unknown_code_passed_over _ code K);
      cbn [bind ret Monad_method fst this now reads];
      destruct (Nat.eqb (getMonth date) 11);
      (eexists; split; [reflexivity|]);
      (split; [cbn; discriminate|intros _; reflexivity]).
Qed.

End DiscountFacts.

(** ** The refactored functions *)

Module RefactoredFacts.

Import OrderProcessor Spec JsFacts Run ValidationFacts PricingFacts.

Local Open Scope js_scope.

(** *** The outcome of [processOrder] *)

Lemma checkItems_refusal (entries : list (option Item))
    (f : Refactored.validation) :
  Refactored.checkItems entries = Normal (Some f) ->
  f = Refactored.mkValidation false (Some "Invalid item data").
Proof.
  induction entries as [|[it|] rest IH]; cbn; try discriminate.
  destruct (orb _ _); [|exact IH].
  intro H. now injection H as <-.
Qed.

(** What [validateOrder] returns: acceptance of a well-formed order, or
    one of four refusals. *)
Lemma validateOrder_cases (order : option Order)
    (v : Refactored.validation) :
  Refactored.validateOrder order = Normal v ->
  (v = Refactored.mkValidation true None
   /\ exists o, order = Some o /\ well_formed o)
  \/ (Refactored.valid v = false
      /\ exists message,
           Refactored.error v = Some message
           /\ In message refusals
           /\ message <> "Order value below minimum").
Proof.
  intro H.
  destruct (Refactored.valid v) eqn:B.
  - left.
    assert (E : v = Refactored.mkValidation true None).
    { unfold Refactored.validateOrder in H.
      destruct order as [o|]; [|injection H as <-; discriminate B].
      destruct (negb (truthy_str (order_id o)));
        [injection H as <-; discriminate B|].
      destruct (order_items o) as [[[|e rest]|]|];
        try discriminate H;
        try (injection H as <-; discriminate B).
      destruct (Refactored.checkItems (e :: rest)) as [[f|]|] eqn:K;
        cbn [bind Monad_completion] in H; try discriminate H.
      - apply checkItems_refusal in K. subst f.
        injection H as <-. discriminate B.
      - destruct (order_customer o) as [c|];
          [|injection H as <-; discriminate B].
        destruct (orb _ _); injection H as <-;
          [discriminate B|reflexivity]. }
    split; [exact E|].
    apply AcceptanceFacts.validateOrder_well_formed. now rewrite <- E.
  - right. split; [reflexivity|].
    unfold Refactored.validateOrder in H. unfold refusals.
    destruct order as [o|].
    2:{ injection H as <-. eexists. split; [reflexivity|].
        split; [cbn; auto|discriminate]. }
    destruct (negb (truthy_str (order_id o))).
    { injection H as <-. eexists. split; [reflexivity|].
      split; [cbn; auto|discriminate]. }
    destruct (order_items o) as [[[|e rest]|]|]; try discriminate H;
      try (injection H as <-; eexists; split; [reflexivity|];
           split; [cbn; auto|discriminate]).
    destruct (Refactored.checkItems (e :: rest)) as [[f|]|] eqn:K;
      cbn [bind Monad_completion] in H; try discriminate H.
    + apply checkItems_refusal in K. subst f.
      injection H as <-. eexists. split; [reflexivity|].
      split; [cbn; auto|discriminate].
    + destruct (order_customer o) as [c|].
      2:{ injection H as <-. eexists. split; [reflexivity|].
          split; [cbn; auto|discriminate]. }
      destruct (orb _ _); injection H as <-; [|discriminate B].
      eexists. split; [reflexivity|]. split; [cbn; auto|discriminate].
Qed.

(** X18.  What [processOrder] returns.  A result is either a success,
    given only to a well-formed order whose final price is not below
    [MINIMUM_ORDER_VALUE], carrying no error and a summary with the id of
    the order, the id of its customer, the number of its line items and
    its pricing; or a failure carrying no order and one of five
    messages. *)
Theorem processOrder_outcomes (date : Date) (order : option Order)
    (promoCode : option string) (r : Refactored.result) :
  Refactored.processOrder date order promoCode = Normal r ->
  (Refactored.success r = true
   /\ Refactored.result_error r = None
   /\ exists o c entries pr,
        order = Some o /\ well_formed o
        /\ order_customer o = Some c
        /\ order_items o = Some (ItemsArray entries)
        /\ Refactored.calculateFinalPrice date o promoCode = Normal pr
        /\ (Refactored.finalPrice pr < Refactored.MINIMUM_ORDER_VALUE)
           = false
        /\ Refactored.result_order r
           = Some (Refactored.mkSummary (order_id o) (customer_id c)
                     (List.length entries) pr))
  \/ (Refactored.success r = false
      /\ Refactored.result_order r = None
      /\ exists message,
           Refactored.result_error r = Some message
           /\ In message refusals).
Proof.
  unfold Refactored.processOrder.
  destruct (Refactored.validateOrder order) as [v|e] eqn:V;
    cbn [bind Monad_completion]; [|discriminate].
  destruct (validateOrder_cases order v V)
    as [(-> & o & -> & W) | (B & message & M & I & _)].
  - cbn [Refactored.valid negb].
    destruct (Refactored.calculateFinalPrice date o promoCode) as [pr|e]
      eqn:P; cbn [bind Monad_completion]; [|discriminate].
    destruct (Refactored.finalPrice pr < Refactored.MINIMUM_ORDER_VALUE)
      eqn:L.
    + intro H. injection H as <-. right.
      repeat split. eexists. split; [reflexivity|]. cbn. auto 6.
    + pose proof W as (_ & (entries & It & _) & (c & C & _)).
      rewrite C, It. cbn [bind ret Monad_completion].
      intro H. injection H as <-. left.
      split; [reflexivity|]. split; [reflexivity|].
      exists o, c, entries, pr.
      split; [reflexivity|]. split; [exact W|]. repeat split; auto.
  - rewrite B. cbn [negb ret Monad_completion].
    intro H. injection H as <-. right.
    repeat split. exists message. split; [exact M|exact I].
Qed.

Lemma processOrder_outcomes_witness :
  exists r,
    Refactored.processOrder Example.january (Some Example.order1) None
      = Normal r
    /\ Refactored.success r = true
    /\ Refactored.result_error r = None.
Proof.
  eexists. split; [reflexivity|].
  destruct (processOrder_outcomes Example.january (Some Example.order1) None
              _ eq_refl) as [(S & E & _) | (S & _)].
  - split; [exact S|exact E].
  - vm_compute in S. discriminate S.
Defined.

(** *** The report of [processOrders] *)

Lemma processOrder_order_present (date : Date) (order : option Order)
    (promoCode : option string) (r : Refactored.result) :
  Refactored.processOrder date order promoCode = Normal r ->
  Refactored.success r = true ->
  exists summary, Refactored.result_order r = Some summary.
Proof.
  unfold Refactored.processOrder.
  destruct (Refactored.validateOrder order) as [v|e];
    cbn [bind Monad_completion]; [|discriminate].
  destruct (negb (Refactored.valid v)).
  { intro H. injection H as <-. discriminate. }
  destruct order as [o|]; [|discriminate].
  destruct (Refactored.calculateFinalPrice date o promoCode) as [pr|e];
    cbn [bind Monad_completion]; [|discriminate].
  destruct (_ < _).
  { intro H. injection H as <-. discriminate. }
  destruct (order_customer o) as [c|]; cbn [bind ret Monad_completion];
    [|discriminate].
  intro H. injection H as <-. intros _. eexists. reflexivity.
Qed.

Lemma map_orders_results (now : nat -> Date) (promoCode : option string)
    (orders : list (option Order)) :
  forall index results,
  Refactored.map_orders now orders promoCode index = Normal results ->
  List.length results = List.length orders
  /\ Forall (fun r =>
               Refactored.success r = true ->
               exists summary, Refactored.result_order r = Some summary)
       results.
Proof.
  induction orders as [|order rest IH]; intros index results;
    cbn [Refactored.map_orders bind ret Monad_completion].
  - intro H. injection H as <-. split; [reflexivity|constructor].
  - destruct (Refactored.processOrder (now index) order promoCode)
      as [r|e] eqn:P; [|discriminate].
    destruct (Refactored.map_orders now rest promoCode (S index))
      as [rs|e] eqn:M; [|discriminate].
    intro H. injection H as <-.
    destruct (IH (S index) rs M) as (L & F).
    split; [cbn; now rewrite L|].
    constructor; [|exact F].
    exact (processOrder_order_present _ _ _ _ P).
Qed.

Lemma filter_partition {A : Type} (f : A -> bool) (l : list A) :
  (List.length (filter f l)
   + List.length (filter (fun x => negb (f x)) l))%nat
  = List.length l.
Proof.
  induction l as [|x l IH]; [reflexivity|].
  cbn. destruct (f x); cbn; lia.
Qed.

Lemma orders_of_successful (results : list Refactored.result) :
  Forall (fun r =>
            Refactored.success r = true ->
            exists summary, Refactored.result_order r = Some summary)
    results ->
  List.length (Refactored.orders_of (filter Refactored.success results))
  = List.length (filter Refactored.success results).
Proof.
  induction 1 as [|r rest H _ IH]; [reflexivity|].
  cbn [filter]. destruct (Refactored.success r) eqn:S; [|exact IH].
  destruct (H eq_refl) as (summary & E).
  cbn [Refactored.orders_of List.length]. rewrite E.
  cbn [List.length]. now rewrite IH.
Qed.

(** X19.  The report of the refactored [processOrders] accounts for every
    order.  Whenever it returns, [total] is the length of the batch,
    [successful + failed = total], and [orders] holds one summary per
    successful order. *)
Theorem report_accounts_for_every_order (now : nat -> Date)
    (orders : list (option Order)) (promoCode : option string)
    (report : Refactored.report) :
  Refactored.processOrders now orders promoCode = Normal report ->
  Refactored.report_total report = List.length orders
  /\ (Refactored.successful report + Refactored.failed report)%nat
     = Refactored.report_total report
  /\ List.length (Refactored.report_orders report)
     = Refactored.successful report.
Proof.
  unfold Refactored.processOrders.
  destruct (Refactored.map_orders now orders promoCode 0) as [results|e]
    eqn:M; cbn [bind ret Monad_completion]; [|discriminate].
  intro H. injection H as <-.
  destruct (map_orders_results now promoCode orders 0 results M) as (L & F).
  cbn [Refactored.report_total Refactored.successful Refactored.failed
       Refactored.report_orders].
  split; [reflexivity|]. split.
  - rewrite filter_partition. exact L.
  - now apply orders_of_successful.
Qed.

Lemma report_accounts_for_every_order_witness :
  exists report,
    Refactored.processOrders (fun _ => Example.january)
      [Some Example.order1; Some Example.two_invalid_items; None] None
      = Normal report
    /\ Refactored.report_total report = 3%nat
    /\ (Refactored.successful report + Refactored.failed report)%nat
       = Refactored.report_total report.
Proof.
  eexists. split; [reflexivity|].
  destruct (report_accounts_for_every_order (fun _ => Example.january)
              [Some Example.order1; Some Example.two_invalid_items; None]
              None _ eq_refl) as (T & S & _).
  split; [exact T|exact S].
Defined.

(** [map_orders] returns exactly when [processOrder] returns for every
    order; the first throw is the completion of the whole. *)
Lemma map_orders_throws (now : nat -> Date) (promoCode : option string)
    (orders : list (option Order)) :
  forall index i order e,
  nth_error orders i = Some order ->
  Refactored.processOrder (now (index + i)%nat) order promoCode = Throw e ->
  exists e', Refactored.map_orders now orders promoCode index = Throw e'.
Proof.
  induction orders as [|first rest IH]; intros index i order e N P.
  - destruct i; discriminate N.
  - cbn [Refactored.map_orders bind Monad_completion].
    destruct i as [|i].
    + injection N as ->. rewrite Nat.add_0_r in P. rewrite P.
      eexists. reflexivity.
    + destruct (Refactored.processOrder (now index) first promoCode)
        as [r|e0]; [|eexists; reflexivity].
      cbn [nth_error] in N.
      replace (index + S i)%nat with (S index + i)%nat in P by lia.
      destruct (IH (S index) i order e N P) as (e' & ->).
      eexists. reflexivity.
Qed.

(** X20.  The refactored [processOrders] has no barrier against a faulty
    order.  [processOrder] throws on an order that has an id and whose
    first item is [null], and if the batch holds such an order at any
    position, [processOrders] throws as a whole and returns no report,
    whatever the other orders are. *)
Theorem faulty_order_aborts_the_batch (now : nat -> Date)
    (orders : list (option Order)) (promoCode : option string)
    (i : nat) (o : Order) (rest : list (option Item)) :
  nth_error orders i = Some (Some o) ->
  truthy_str (order_id o) = true ->
  order_items o = Some (ItemsArray (None :: rest)) ->
  Refactored.processOrder (now i) (Some o) promoCode
    = Throw "Cannot read properties of null (reading 'id')"
  /\ exists e, Refactored.processOrders now orders promoCode = Throw e.
Proof.
  intros N I It.
  assert (P : Refactored.processOrder (now i) (Some o) promoCode
              = Throw "Cannot read properties of null (reading 'id')").
  { unfold Refactored.processOrder, Refactored.validateOrder.
    rewrite I, It. reflexivity. }
  split; [exact P|].
  unfold Refactored.processOrders.
  destruct (map_orders_throws now promoCode orders 0 i (Some o) _ N P)
    as (e & ->).
  exists e. reflexivity.
Qed.

Lemma faulty_order_aborts_the_batch_witness :
  exists e,
    Refactored.processOrders (fun _ => Example.january)
      [Some Example.order1; Some Example.null_item] (Some "SAVE10")
    = Throw e.
Proof.
  destruct (faulty_order_aborts_the_batch (fun _ => Example.january)
              [Some Example.order1; Some Example.null_item] (Some "SAVE10")
              1 Example.null_item []) as (_ & e & E); try reflexivity.
  exists e. exact E.
Defined.

(** *** Where the refactored functions throw *)

Lemma refactored_checkItems_throws (entries : list (option Item))
    (e : string) :
  Refactored.checkItems entries = Throw e ->
  e = "Cannot read properties of null (reading 'id')" /\ In None entries.
Proof.
  induction entries as [|[it|] rest IH]; cbn; try discriminate.
  - destruct (orb _ _); [discriminate|].
    intro H. destruct (IH H) as (E & N). split; [exact E|now right].
  - intro H. injection H as <-. split; [reflexivity|now left].
Qed.

(** After validation, pricing a well-formed order returns, whatever the
    promotional code. *)
Lemma calculateFinalPrice_returns (date : Date) (o : Order)
    (promoCode : option string) :
  well_formed o ->
  exists pr, Refactored.calculateFinalPrice date o promoCode = Normal pr.
Proof.
  intros (_ & (entries & It & Ne & V) & _).
  destruct (reduce_subtotal _ V 0) as (s & S).
  cbn [bind ret Monad_completion] in S.
  destruct V as [|e rest (it & -> & Vi) R]; [contradiction|].
  unfold Refactored.calculateFinalPrice, Refactored.calculateSubtotal,
    Refactored.first_price, Refactored.items_length.
  rewrite It. cbn [bind ret Monad_completion property].
  rewrite S. cbn [bind ret Monad_completion].
  eexists. reflexivity.
Qed.

(** X21.  The refactored [processOrder] throws only where [validateOrder]
    does.  [processOrder] throws exactly when [validateOrder] throws, with
    the same message: once validation has returned, pricing and the
    summary never throw.  [validateOrder] throws only on an order that has
    an id and whose [items] is an object that cannot be iterated or an
    array holding [null]. *)
Theorem processOrder_throws_only_in_validation (date : Date)
    (order : option Order) (promoCode : option string) :
  (forall e,
     Refactored.processOrder date order promoCode = Throw e
     <-> Refactored.validateOrder order = Throw e)
  /\ (forall e,
        Refactored.validateOrder order = Throw e ->
        exists o,
          order = Some o
          /\ truthy_str (order_id o) = true
          /\ (order_items o = Some ItemsObject
              \/ exists entries,
                   order_items o = Some (ItemsArray entries)
                   /\ In None entries)).
Proof.
  split.
  - intro e. unfold Refactored.processOrder.
    destruct (Refactored.validateOrder order) as [v|e'] eqn:V;
      cbn [bind Monad_completion];
      [|split; intro H; injection H as <-; reflexivity].
    split; [|discriminate].
    destruct (validateOrder_cases order v V)
      as [(-> & o & -> & W) | (B & _)].
    + cbn [Refactored.valid negb].
      destruct (calculateFinalPrice_returns date o promoCode W) as (pr & ->).
      cbn [bind Monad_completion].
      destruct (_ < _); [discriminate|].
      destruct W as (_ & _ & (c & -> & _)).
      cbn [bind ret Monad_completion]. discriminate.
    + rewrite B. discriminate.
  - intros e H. unfold Refactored.validateOrder in H.
    destruct order as [o|]; [|discriminate H].
    exists o. split; [reflexivity|].
    destruct (truthy_str (order_id o)); [|discriminate H].
    split; [reflexivity|]. cbn [negb] in H.
    destruct (order_items o) as [[[|entry rest]|]|]; try discriminate H.
    + right. exists (entry :: rest). split; [reflexivity|].
      destruct (Refactored.checkItems (entry :: rest)) as [[f|]|e'] eqn:K;
        cbn [bind Monad_completion] in H.
      * discriminate H.
      * destruct (order_customer o) as [c|]; [|discriminate H].
        destruct (orb _ _); discriminate H.
      * exact (proj2 (refactored_checkItems_throws _ _ K)).
    + now left.
Qed.

End RefactoredFacts.

(** ** Where the two implementations agree *)

Module AgreementFacts.

Import OrderProcessor Spec JsFacts TierFacts Run ValidationFacts PricingFacts.

Local Open Scope js_scope.

(** X22.  Away from the two thresholds the implementations assign the same
    tier.  For every customer whose [totalSpent] is neither exactly 1000
    nor exactly 500, a missing purchase history counting as 0,
    [determineCustomerTier] of the class and the refactored
    [getCustomerTier] return the same tier. *)
Theorem tiers_agree_off_the_thresholds (customer : option Customer) :
  ~ (spent customer == 1000)%Q ->
  ~ (spent customer == 500)%Q ->
  determineCustomerTier customer = Refactored.getCustomerTier customer.
Proof.
  intros N1 N2.
  destruct (getCustomerTier_thresholds customer) as (P & G & S).
  destruct (determineCustomerTier_thresholds customer) as (P' & G' & S').
  cbv zeta in *.
  destruct (Refactored.getCustomerTier customer).
  - apply S'. assert (spent customer < 500)%Q by now apply S. lra.
  - apply G'. assert (500 <= spent customer /\ spent customer < 1000)%Q
      by now apply G.
    split; [|lra].
    destruct (Qlt_le_dec 500 (spent customer)) as [L|L]; [exact L|].
    exfalso. apply N2. lra.
  - apply P'. assert (1000 <= spent customer)%Q by now apply P.
    destruct (Qlt_le_dec 1000 (spent customer)) as [L|L]; [exact L|].
    exfalso. apply N1. lra.
Qed.

Lemma tiers_agree_off_the_thresholds_witness :
  determineCustomerTier (Some (Example.with_spent 1200))
  = Refactored.getCustomerTier (Some (Example.with_spent 1200)).
Proof.
  apply (tiers_agree_off_the_thresholds (Some (Example.with_spent 1200)));
    vm_compute; discriminate.
Defined.

(** The subtotal of the class is the refactored [calculateSubtotal]. *)
Lemma transform_subtotal (o : Order) (options : Options) (date : Date)
    (po : processedOrder) :
  value_at date (transformAndEnrichOrder o options) = Normal po ->
  Refactored.calculateSubtotal (order_items o) = Normal (subtotal po).
Proof.
  unfold value_at, frozen, transformAndEnrichOrder, new_Date, lift,
    items_array, Refactored.calculateSubtotal.
  cbn [bind ret Monad_method Monad_completion fst this now reads].
  destruct (order_items o) as [[entries|]|]; try discriminate.
  destruct (reduce _ entries (Num 0)) as [q|e]; [|discriminate].
  destruct (reduce _ entries (Num 0)) as [s|e]; [|discriminate].
  cbn [fst]. intro H. now injection H as <-.
Qed.

(** X23.  Before fees and discounts, the two implementations price alike.
    For a well-formed order priced by the class with no [taxRate] and no
    [null] among the adjustments, enrichment, pricing and the refactored
    [calculateFinalPrice] all return, and the breakdown of the class and
    the refactored pricing hold the same subtotal and the same tax: both
    sum [price * quantity] over the items in the same order and multiply
    the sum by 0.1.  Nothing is said of the fee, which the two decide on
    different counts. *)
Theorem pricing_agrees_before_discounts (enriched priced : Date) (o : Order)
    (options : Options) (promoCode : option string) :
  well_formed o ->
  taxRate options = NaN ->
  adjustments_are_objects options ->
  exists po prc prr,
    value_at enriched (transformAndEnrichOrder o options) = Normal po
    /\ calculateComplexPricing po options = Normal prc
    /\ Refactored.calculateFinalPrice priced o promoCode = Normal prr
    /\ bd_subtotal (pr_breakdown prc) = Refactored.subtotal prr
    /\ bd_taxes (pr_breakdown prc) = Refactored.tax prr.
Proof.
  intros W T A.
  destruct (RefactoredFacts.calculateFinalPrice_returns priced o promoCode W)
    as (prr & R).
  destruct W as (_ & (entries & It & Ne & V) & _).
  destruct (transform_valid o options enriched entries It V)
    as (q & s & TE & _).
  pose proof (transform_subtotal _ _ _ _ TE) as S.
  cbn [subtotal] in S.
  match type of TE with
  | _ = Normal ?po => destruct (pricing_returns po options A) as (prc & P)
  end.
  eexists. exists prc, prr.
  split; [exact TE|]. split; [exact P|]. split; [exact R|].
  unfold Refactored.calculateFinalPrice in R. rewrite S in R.
  cbn [bind ret Monad_completion] in R.
  destruct (Refactored.first_price (order_items o)) as [p|e];
    cbn [bind Monad_completion] in R; [|discriminate R].
  destruct (Refactored.items_length (order_items o)) as [n|e];
    cbn [bind ret Monad_completion] in R; [|discriminate R].
  injection R as <-.
  cbn [Refactored.subtotal Refactored.tax].
  unfold calculateComplexPricing in P.
  cbn [subtotal metadata isLargeOrder] in P. rewrite T in P.
  destruct (applyFees options) as [[|]|];
    destruct (adjustments options) as [adjs|];
    cbn [bind ret Monad_completion] in P;
    try (destruct (reduce _ adjs (Num 0)) as [x|e]; [|discriminate P]);
    injection P as <-; split; reflexivity.
Qed.

Lemma pricing_agrees_before_discounts_witness :
  exists po prc prr,
    value_at Example.january
      (transformAndEnrichOrder Example.order1 Example.options_statistics)
      = Normal po
    /\ calculateComplexPricing po Example.options_statistics = Normal prc
    /\ Refactored.calculateFinalPrice Example.december Example.order1
         (Some "SAVE10") = Normal prr
    /\ bd_subtotal (pr_breakdown prc) = Refactored.subtotal prr
    /\ bd_taxes (pr_breakdown prc) = Refactored.tax prr.
Proof.
  apply (pricing_agrees_before_discounts Example.january Example.december
           Example.order1 Example.options_statistics (Some "SAVE10")).
  - exact AcceptanceFacts.order1_well_formed.
  - reflexivity.
  - intros adjs H. discriminate H.
Defined.

(** X24.  Spending more never lowers the tier.  In both implementations,
    of two customers the one with the larger [totalSpent] (a missing
    purchase history counting as 0) has the same or a higher tier in the
    order standard, gold, premium. *)
Theorem tier_grows_with_spending (a b : option Customer) :
  (spent a <= spent b)%Q ->
  (tier_rank (determineCustomerTier a)
   <= tier_rank (determineCustomerTier b))%nat
  /\ (tier_rank (Refactored.getCustomerTier a)
      <= tier_rank (Refactored.getCustomerTier b))%nat.
Proof.
  intro L.
  destruct (getCustomerTier_thresholds a) as (Pa & Ga & Sa).
  destruct (getCustomerTier_thresholds b) as (Pb & Gb & Sb).
  destruct (determineCustomerTier_thresholds a) as (Pa' & Ga' & Sa').
  destruct (determineCustomerTier_thresholds b) as (Pb' & Gb' & Sb').
  cbv zeta in *. split.
  - destruct (determineCustomerTier a) eqn:A;
      destruct (determineCustomerTier b) eqn:B; cbn; try lia; exfalso;
      repeat match goal with
      | H : ?x = ?x <-> _ |- _ => pose proof (proj1 H eq_refl); clear H
      | H : _ <-> _ |- _ => clear H
      end; lra.
  - destruct (Refactored.getCustomerTier a) eqn:A;
      destruct (Refactored.getCustomerTier b) eqn:B; cbn; try lia; exfalso;
      repeat match goal with
      | H : ?x = ?x <-> _ |- _ => pose proof (proj1 H eq_refl); clear H
      | H : _ <-> _ |- _ => clear H
      end; lra.
Qed.

Lemma tier_grows_with_spending_witness :
  (tier_rank (determineCustomerTier (Some (Example.with_spent 500)))
   <= tier_rank (determineCustomerTier (Some (Example.with_spent 1200))))%nat
  /\ (tier_rank (Refactored.getCustomerTier (Some (Example.with_spent 500)))
      <= tier_rank
           (Refactored.getCustomerTier (Some (Example.with_spent 1200))))%nat.
Proof.
  apply (tier_grows_with_spending (Some (Example.with_spent 500))
           (Some (Example.with_spent 1200))).
  vm_compute. discriminate.
Defined.

End AgreementFacts.
